(** * CatPaymentBot: payment-session and subscription lifecycle

    A shallow embedding of the engine of [cat_payment_bot]:
    - [services.py]  ([PaymentManager], [FINAL_STATUSES], [PaymentSession]),
    - [database.py]  (the SQL statements of [Database], over tables kept as
                      finite maps from the integer primary key to the row),
    - [anonpay.py]   ([AnonpayClient]: the remote gateway, an oracle),
    - [bot.py]       (the two periodic passes [_process_payment_updates] and
                      [_process_subscriptions] and the transition handler;
                      the commands [/pay] and [/delete], the parameters of
                      [/create] and the autocompletion of payment names).

    Conventions.
    - A Python [dict] with string keys is a [gmap string pyval].  Values are
      the JSON scalars ([None], [bool], [int], [str]); floats and nested
      containers are outside the model.
    - [datetime] values are integers: microseconds since the epoch, in UTC.
      The ISO-8601 text that SQLite stores and compares is ordered like the
      instants, so SQL comparisons of timestamps are comparisons in [Z].
    - [str.lower] on the status of a reply is modelled on ASCII letters, as
      is the NOCASE collation of SQLite; on text that users type,
      [str.lower] and [str.upper] are parameters ([py_lower], [py_upper]):
      they follow Unicode, and nothing is assumed of them.
    - The replies of the gateway are failures or JSON objects whose values
      are strings, integers, booleans or [null] (see [Answer]).
    - Asynchronous code runs one pass at a time; a pass is a computation in
      the monad [M]: it threads the [World] (the store and two counters that
      index the answers of the outside world), may raise [AnonpayError], and
      writes the list of effects it performs, each tagged with the work item
      it was performed for. *)

From stdpp Require Import gmap strings list fin_maps pretty sorting.
From Stdlib Require Import ZArith Lia Ascii String.

Local Open Scope Z_scope.

(** ** Python values *)

Inductive pyval :=
| PyNone
| PyBool (b : bool)
| PyInt (z : Z)
| PyStr (s : string).

#[global] Instance pyval_eq_dec : EqDecision pyval.
Proof. solve_decision. Defined.

Abbreviation pydict := (gmap string pyval).

(** [str(v)] *)
Definition py_str (v : pyval) : string :=
  match v with
  | PyNone => "None"
  | PyBool true => "True"
  | PyBool false => "False"
  | PyInt z => pretty z
  | PyStr s => s
  end.

(** [bool(v)], the test behind [if v:] and [not v] *)
Definition truthy (v : pyval) : bool :=
  match v with
  | PyNone => false
  | PyBool b => b
  | PyInt z => negb (z =? 0)
  | PyStr s => negb (String.eqb s "")
  end.

(** [isinstance(v, bool)] *)
Definition is_bool (v : pyval) : bool :=
  match v with PyBool _ => true | _ => false end.

(** [v is None] *)
Definition is_none (v : pyval) : bool :=
  match v with PyNone => true | _ => false end.

(** [d.get(k)] and [d.get(k, dflt)] *)
Definition dict_get (d : pydict) (k : string) : pyval :=
  default PyNone (d !! k).

Definition dict_get_or (d : pydict) (k : string) (dflt : pyval) : pyval :=
  default dflt (d !! k).

(** [s.lower()] on ASCII: the folding of SQLite's NOCASE, and of
    [str.lower] on the status words of the gateway, which are ASCII. *)
Definition ascii_lower (c : ascii) : ascii :=
  let n := N_of_ascii c in
  if ((65 <=? n) && (n <=? 90))%N then ascii_of_N (n + 32) else c.

Fixpoint lower (s : string) : string :=
  match s with
  | EmptyString => EmptyString
  | String c s' => String (ascii_lower c) (lower s')
  end.

(** Truthiness of an optional integer ([None] and [0] are false). *)
Definition int_truthy (o : option Z) : bool :=
  match o with Some z => negb (z =? 0) | None => false end.

(** What SQLite keeps in a TEXT column when handed a Python scalar: [None]
    is NULL, a number is converted to its text form ([bool] is an [int]). *)
Definition sql_text (v : pyval) : option string :=
  match v with
  | PyNone => None
  | PyBool b => Some (if b then "1" else "0")%string
  | PyInt z => Some (pretty z)
  | PyStr s => Some s
  end.

(** [a or b] where [a] is an optional string *)
Definition text_or (a : option string) (b : pyval) : pyval :=
  match a with
  | Some s => if String.eqb s "" then b else PyStr s
  | None => b
  end.

(** ** services.py: constants and the session dataclass *)

Definition FINAL_STATUSES : gset string :=
  {[ "finished"; "paid partially"; "failed"; "expired"; "halted"; "refunded" ]}%string.

Definition in_final (status : string) : bool :=
  bool_decide (status ∈ FINAL_STATUSES).

Record PaymentSession := {
  ps_id : Z;
  ps_guild_id : Z;
  ps_user_id : Z;
  ps_profile_id : Z;
  ps_anonpay_id : string;
  ps_status : string;
  ps_status_url : string;
  ps_checkout_url : string;
  ps_webhook_url : option string;
  ps_expires_at : Z;
  ps_last_payload : option pydict;
}.

(** ** database.py: the tables *)

Record GuildSettings := {
  payout_address : string;
  ticker_to : string;
  network_to : string;
}.

(** A row of [payment_profiles], and the [dict] the bot receives for it. *)
Record ProfileRow := {
  pp_guild_id : Z;
  pp_name : string;
  pp_role_id : option Z;
  pp_duration_days : option Z;
  pp_parameters : pydict;
  pp_donation_mode : bool;
}.

Record Profile := {
  profile_id : Z;
  profile_row : ProfileRow;
}.

Record SessionRow := {
  sr_guild_id : Z;
  sr_user_id : Z;
  sr_payment_profile_id : Z;
  sr_anonpay_id : string;
  sr_status : string;
  sr_status_url : string;
  sr_checkout_url : string;
  sr_webhook_url : option string;
  sr_expires_at : Z;
  sr_created_at : Z;
  sr_last_status_check : option Z;
  sr_last_status : option string;
  sr_last_payload : option pydict;
}.

Record SubscriptionRow := {
  sub_guild_id : Z;
  sub_user_id : Z;
  sub_payment_profile_id : Z;
  sub_role_id : option Z;
  sub_expires_at : Z;
  sub_created_at : Z;
  sub_last_notified_at : option Z;
  sub_webhook_url : option string;
}.

(** The [dict(row)] of a subscription: its id and its columns. *)
Record Subscription := {
  subscription_id : Z;
  subscription_row : SubscriptionRow;
}.

Record Store := {
  payment_profiles : gmap Z ProfileRow;
  payment_sessions : gmap Z SessionRow;
  subscriptions : gmap Z SubscriptionRow;
  session_seq : Z;
  subscription_seq : Z;
}.

(** ** The outside world *)

(** The exceptions of the model: [AnonpayError] of the adapter, the
    [RuntimeError] of [upsert_subscription], the [AssertionError] of an
    [assert], and [sqlite3.IntegrityError] with the text SQLite gives it. *)
Inductive Exn :=
| AnonpayError (msg : string)
| RuntimeError (msg : string)
| AssertionError
| IntegrityError (msg : string).

Inductive Result (A : Type) :=
| Ok (a : A)
| Raise (e : Exn).
Arguments Ok {A} a.
Arguments Raise {A} e.

Definition is_raise {A} (r : Result A) : bool :=
  match r with Raise _ => true | Ok _ => false end.


(** What an outbound call comes back with: the adapter turns every failure
    (HTTP status >= 400, a body that is not JSON, a timeout, a network
    error) into an [AnonpayError] with a message.  A reply is the body as
    [json.loads] returns it, taken to be what the gateway documents: a JSON
    object whose values are strings, integers, booleans or [null].  The
    adapter does not check this; a body that parses to something else (a
    list, a number, [null], or an object with a float, a list or an object
    among its values) is outside the model, and every statement about
    replies is a statement about replies of this shape. *)
Inductive Answer (A : Type) :=
| Reply (a : A)
| Failure (msg : string).
Arguments Reply {A} a.
Arguments Failure {A} msg.

Definition of_answer {A} (a : Answer A) : Result A :=
  match a with
  | Reply x => Ok x
  | Failure msg => Raise (AnonpayError msg)
  end.

(** A guild of the Discord cache: [guild.name], [guild.get_role] and
    [guild.get_member] answer from these. *)
Record Guild := {
  guild_name : string;
  guild_roles : gset Z;
  guild_members : gset Z;
}.

(** The world outside the bot: the clock, the gateway and Discord.  The
    gateway answers with failures or with JSON objects of strings,
    integers, booleans and [null] (see [Answer]). *)
Record Env := {
  session_ttl_minutes : Z;
  (** [utc_now()] at its n-th call *)
  time_at : nat → Z;
  (** [datetime.isoformat] *)
  isoformat : Z → string;
  (** the gateway's answers at the n-th outbound call *)
  checkout_at : nat → pydict → Answer pydict;
  status_at : nat → string → Answer pydict;
  webhook_at : nat → string → pydict → Answer unit;
  (** the Discord cache and API *)
  guilds : gmap Z Guild;
  user_reachable : Z → bool;
}.

Record World := {
  store : Store;
  ticks : nat;
  calls : nat;
}.

(** ** Effects

    Every effect is recorded with the work item it is performed for.
    [CreateCheckout], [FetchStatus] and [PostWebhook] are the outbound
    calls (the first two with the answer they got); [AddRoles] and
    [RemoveRoles] are the calls of [member.add_roles] and
    [member.remove_roles]; [NotifyUser] is the call of [_notify_user] and
    [SendEmbed] the direct message it sends when the user can be reached;
    [LogWarning] is a [log.warning].  [StatusChange] sends nothing: it
    marks that [_handle_status_change] was entered, and with which status. *)

Inductive Origin :=
| OfCheckout
| OfSession (id : Z)
| OfSubscription (id : Z).

Inductive Effect :=
| CreateCheckout (params : pydict) (answer : Answer pydict)
| FetchStatus (url : string) (answer : Answer pydict)
| PostWebhook (url : string) (payload : pydict)
| AddRoles (guild member role : Z)
| RemoveRoles (guild member role : Z)
| NotifyUser (user : Z) (title message : string)
| SendEmbed (user : Z) (title message : string)
| StatusChange (status : string)
| LogWarning (msg : string).

Definition Event : Type := Origin * Effect.

(** ** The monad of a pass *)

Definition M (A : Type) : Type := World → Result A * World * list Event.

Definition ret {A} (a : A) : M A := λ w, (Ok a, w, []).

Definition bind {A B} (m : M A) (k : A → M B) : M B :=
  λ w,
    match m w with
    | (Ok a, w1, ev1) =>
        match k a w1 with
        | (r, w2, ev2) => (r, w2, ev1 ++ ev2)
        end
    | (Raise e, w1, ev1) => (Raise e, w1, ev1)
    end.

Notation "'let*' x ':=' c1 'in' c2" := (bind c1 (λ x, c2))
  (at level 10, x name, c1 at level 100, c2 at level 200, only parsing).
Notation "'let*' ' pat ':=' c1 'in' c2" :=
  (bind c1 (λ x, match x with pat => c2 end))
  (at level 10, pat pattern, c1 at level 100, c2 at level 200, only parsing).
Notation "c1 ';;' c2" := (bind c1 (λ _, c2))
  (at level 100, c2 at level 200, right associativity, only parsing).

Definition raise {A} (e : Exn) : M A := λ w, (Raise e, w, []).

(** [try: m  except AnonpayError as exc: h exc] *)
Definition try_except {A} (m : M A) (h : string → M A) : M A :=
  λ w,
    match m w with
    | (Raise (AnonpayError msg), w1, ev1) =>
        match h msg w1 with
        | (r, w2, ev2) => (r, w2, ev1 ++ ev2)
        end
    | other => other
    end.

Definition emit (o : Origin) (e : Effect) : M unit := λ w, (Ok tt, w, [(o, e)]).

Definition get_store : M Store := λ w, (Ok (store w), w, []).

Definition set_store (s : Store) : M unit :=
  λ w, (Ok tt, {| store := s; ticks := ticks w; calls := calls w |}, []).

(** [for x in xs: body x] *)
Fixpoint for_each {A} (xs : list A) (body : A → M unit) : M unit :=
  match xs with
  | [] => ret tt
  | x :: xs' => body x ;; for_each xs' body
  end.

Definition when (b : bool) (m : M unit) : M unit := if b then m else ret tt.

(** [timedelta(minutes=n)] and [timedelta(days=n)] in microseconds *)
Definition minutes (n : Z) : Z := n * 60000000.
Definition days (n : Z) : Z := n * 86400000000.

Section Engine.

Context (env : Env).

(** [utc_now()]: the next reading of the clock. *)
Definition utc_now : M Z :=
  λ w, (Ok (time_at env (ticks w)),
        {| store := store w; ticks := S (ticks w); calls := calls w |}, []).

(** ** database.py: the statements *)

Definition with_sessions (t : gmap Z SessionRow) (seq : Z) (s : Store) : Store :=
  {| payment_profiles := payment_profiles s;
     payment_sessions := t;
     subscriptions := subscriptions s;
     session_seq := seq;
     subscription_seq := subscription_seq s |}.

Definition with_subscriptions (t : gmap Z SubscriptionRow) (seq : Z) (s : Store) : Store :=
  {| payment_profiles := payment_profiles s;
     payment_sessions := payment_sessions s;
     subscriptions := t;
     session_seq := session_seq s;
     subscription_seq := seq |}.

(** INTEGER PRIMARY KEY AUTOINCREMENT: one more than the largest rowid
    the table holds or has ever held. *)
Definition max_rowid {R} (t : gmap Z R) : Z :=
  foldr Z.max 0 (map_to_list t).*1.

Definition next_rowid {R} (seq : Z) (t : gmap Z R) : Z :=
  Z.max seq (max_rowid t) + 1.

(** SELECT id FROM payment_sessions
    WHERE guild_id = ? AND user_id = ? AND anonpay_id = ?
    ORDER BY id DESC LIMIT 1 *)
Definition same_checkout (guild_id user_id : Z) (anonpay_id : string)
    (kr : Z * SessionRow) : bool :=
  (sr_guild_id kr.2 =? guild_id) && (sr_user_id kr.2 =? user_id)
  && String.eqb (sr_anonpay_id kr.2) anonpay_id.

Definition select_last_session_id (guild_id user_id : Z) (anonpay_id : string)
    (t : gmap Z SessionRow) : option Z :=
  match (List.filter (same_checkout guild_id user_id anonpay_id) (map_to_list t)).*1 with
  | [] => None
  | i :: ids => Some (foldr Z.max i ids)
  end.

(** INSERT INTO payment_sessions (...) VALUES (...), refused when the
    profile has no row (FOREIGN KEY(payment_profile_id), with
    PRAGMA foreign_keys = ON); then the SELECT above. *)
Definition create_payment_session
    (guild_id user_id payment_profile_id : Z)
    (anonpay_id status status_url checkout_url : string)
    (webhook_url : option string) (expires_at : Z) (payload : pydict) : M Z :=
  let* now := utc_now in
  let* s := get_store in
  if bool_decide (is_Some (payment_profiles s !! payment_profile_id)) then
    let rowid := next_rowid (session_seq s) (payment_sessions s) in
    let row :=
      {| sr_guild_id := guild_id;
         sr_user_id := user_id;
         sr_payment_profile_id := payment_profile_id;
         sr_anonpay_id := anonpay_id;
         sr_status := status;
         sr_status_url := status_url;
         sr_checkout_url := checkout_url;
         sr_webhook_url := webhook_url;
         sr_expires_at := expires_at;
         sr_created_at := now;
         sr_last_status_check := Some now;
         sr_last_status := Some status;
         sr_last_payload := Some payload |} in
    set_store (with_sessions (<[rowid := row]> (payment_sessions s)) rowid s) ;;
    let* s' := get_store in
    match select_last_session_id guild_id user_id anonpay_id (payment_sessions s') with
    | Some id => ret id
    | None => raise AssertionError
    end
  else raise (IntegrityError "FOREIGN KEY constraint failed").

(** UPDATE payment_sessions
    SET status = ?, last_status = ?, last_status_check = ?, last_payload = ?
    WHERE id = ? *)
Definition set_status (status : string) (now : Z) (payload : pydict)
    (r : SessionRow) : SessionRow :=
  {| sr_guild_id := sr_guild_id r;
     sr_user_id := sr_user_id r;
     sr_payment_profile_id := sr_payment_profile_id r;
     sr_anonpay_id := sr_anonpay_id r;
     sr_status := status;
     sr_status_url := sr_status_url r;
     sr_checkout_url := sr_checkout_url r;
     sr_webhook_url := sr_webhook_url r;
     sr_expires_at := sr_expires_at r;
     sr_created_at := sr_created_at r;
     sr_last_status_check := Some now;
     sr_last_status := Some status;
     sr_last_payload := Some payload |}.

Definition update_payment_session_status
    (session_id : Z) (status : string) (payload : pydict) : M unit :=
  let* now := utc_now in
  let* s := get_store in
  set_store (with_sessions (alter (set_status status now payload) session_id
                              (payment_sessions s)) (session_seq s) s).

(** UPDATE payment_sessions SET last_status_check = ? WHERE id = ? *)
Definition set_status_check (now : Z) (r : SessionRow) : SessionRow :=
  {| sr_guild_id := sr_guild_id r;
     sr_user_id := sr_user_id r;
     sr_payment_profile_id := sr_payment_profile_id r;
     sr_anonpay_id := sr_anonpay_id r;
     sr_status := sr_status r;
     sr_status_url := sr_status_url r;
     sr_checkout_url := sr_checkout_url r;
     sr_webhook_url := sr_webhook_url r;
     sr_expires_at := sr_expires_at r;
     sr_created_at := sr_created_at r;
     sr_last_status_check := Some now;
     sr_last_status := sr_last_status r;
     sr_last_payload := sr_last_payload r |}.

Definition update_payment_session_status_check (session_id : Z) : M unit :=
  let* now := utc_now in
  let* s := get_store in
  set_store (with_sessions (alter (set_status_check now) session_id
                              (payment_sessions s)) (session_seq s) s).

(** SELECT ... FROM payment_sessions WHERE expires_at >= ? *)
Definition list_active_sessions (cutoff : Z) : M (list (Z * SessionRow)) :=
  let* s := get_store in
  ret (List.filter (λ kr, cutoff <=? sr_expires_at kr.2)
         (map_to_list (payment_sessions s))).

(** DELETE FROM payment_sessions WHERE id = ? *)
Definition delete_payment_session (session_id : Z) : M unit :=
  let* s := get_store in
  set_store (with_sessions (delete session_id (payment_sessions s)) (session_seq s) s).

(** SELECT ... FROM payment_profiles WHERE id = ? *)
Definition db_get_payment_profile_by_id (profile_id : Z) : M (option Profile) :=
  let* s := get_store in
  ret ((λ r, {| profile_id := profile_id; profile_row := r |})
         <$> payment_profiles s !! profile_id).

(** INSERT INTO subscriptions (...) VALUES (...)
    ON CONFLICT(guild_id, user_id, payment_profile_id) DO UPDATE SET
      role_id = excluded.role_id, expires_at = excluded.expires_at,
      webhook_url = excluded.webhook_url, last_notified_at = NULL
    On a conflict the row is updated and nothing is inserted, yet the
    AUTOINCREMENT counter advances as for an insertion.  Without a conflict
    the insertion is refused when the profile has no row
    (FOREIGN KEY(payment_profile_id)). *)
Definition same_subscriber (guild_id user_id payment_profile_id : Z)
    (r : SubscriptionRow) : bool :=
  (sub_guild_id r =? guild_id) && (sub_user_id r =? user_id)
  && (sub_payment_profile_id r =? payment_profile_id).

Definition renew (role_id : option Z) (expires_at : Z) (webhook_url : option string)
    (r : SubscriptionRow) : SubscriptionRow :=
  {| sub_guild_id := sub_guild_id r;
     sub_user_id := sub_user_id r;
     sub_payment_profile_id := sub_payment_profile_id r;
     sub_role_id := role_id;
     sub_expires_at := expires_at;
     sub_created_at := sub_created_at r;
     sub_last_notified_at := None;
     sub_webhook_url := webhook_url |}.

Definition db_upsert_subscription
    (guild_id user_id payment_profile_id : Z) (role_id : option Z)
    (expires_at : Z) (webhook_url : option string) : M unit :=
  let* now := utc_now in
  let* s := get_store in
  let t := subscriptions s in
  let conflict := same_subscriber guild_id user_id payment_profile_id in
  let rowid := next_rowid (subscription_seq s) t in
  if existsb (λ kr, conflict kr.2) (map_to_list t) then
    set_store (with_subscriptions
                 ((λ r, if conflict r then renew role_id expires_at webhook_url r else r) <$> t)
                 rowid s)
  else if bool_decide (is_Some (payment_profiles s !! payment_profile_id)) then
    let row :=
      {| sub_guild_id := guild_id;
         sub_user_id := user_id;
         sub_payment_profile_id := payment_profile_id;
         sub_role_id := role_id;
         sub_expires_at := expires_at;
         sub_created_at := now;
         sub_last_notified_at := None;
         sub_webhook_url := webhook_url |} in
    set_store (with_subscriptions (<[rowid := row]> t) rowid s)
  else raise (IntegrityError "FOREIGN KEY constraint failed").

Definition as_subscription (kr : Z * SubscriptionRow) : Subscription :=
  {| subscription_id := kr.1; subscription_row := kr.2 |}.

(** SELECT ... FROM subscriptions
    WHERE expires_at BETWEEN ? AND ?
      AND (last_notified_at IS NULL OR last_notified_at < ?) *)
Definition is_expiring (reference_time advance_notice : Z) (r : SubscriptionRow) : bool :=
  (reference_time <=? sub_expires_at r)
  && (sub_expires_at r <=? reference_time + days advance_notice)
  && match sub_last_notified_at r with
     | None => true
     | Some t => t <? reference_time - minutes 1
     end.

Definition db_list_expiring_subscriptions (reference_time advance_notice : Z)
    : M (list Subscription) :=
  let* s := get_store in
  ret (as_subscription <$>
         List.filter (λ kr, is_expiring reference_time advance_notice kr.2)
           (map_to_list (subscriptions s))).

(** UPDATE subscriptions SET last_notified_at = ? WHERE id = ? *)
Definition set_notified (now : Z) (r : SubscriptionRow) : SubscriptionRow :=
  {| sub_guild_id := sub_guild_id r;
     sub_user_id := sub_user_id r;
     sub_payment_profile_id := sub_payment_profile_id r;
     sub_role_id := sub_role_id r;
     sub_expires_at := sub_expires_at r;
     sub_created_at := sub_created_at r;
     sub_last_notified_at := Some now;
     sub_webhook_url := sub_webhook_url r |}.

Definition db_mark_subscription_notified (subscription_id : Z) : M unit :=
  let* now := utc_now in
  let* s := get_store in
  set_store (with_subscriptions (alter (set_notified now) subscription_id (subscriptions s))
               (subscription_seq s) s).

(** SELECT ... FROM subscriptions WHERE expires_at <= ? *)
Definition db_list_expired_subscriptions (reference_time : Z) : M (list Subscription) :=
  let* s := get_store in
  ret (as_subscription <$>
         List.filter (λ kr, sub_expires_at kr.2 <=? reference_time)
           (map_to_list (subscriptions s))).

(** DELETE FROM subscriptions WHERE id = ? *)
Definition db_delete_subscription (subscription_id : Z) : M unit :=
  let* s := get_store in
  set_store (with_subscriptions (delete subscription_id (subscriptions s))
               (subscription_seq s) s).

(** ** anonpay.py: the gateway adapter *)

Definition outbound {A} (o : Origin) (answer : nat → Answer A)
    (effect : Answer A → Effect) : M A :=
  λ w, (of_answer (answer (calls w)),
        {| store := store w; ticks := ticks w; calls := S (calls w) |},
        [(o, effect (answer (calls w)))]).

Definition create_checkout (params : pydict) : M pydict :=
  let params :=
    if bool_decide (is_Some (params !! "direct")) then params
    else <["direct" := PyStr "false"]> params in
  outbound OfCheckout (λ n, checkout_at env n params) (CreateCheckout params).

Definition fetch_status (o : Origin) (status_url : string) : M pydict :=
  outbound o (λ n, status_at env n status_url) (FetchStatus status_url).

Definition post_webhook (o : Origin) (url : string) (payload : pydict) : M unit :=
  outbound o (λ n, webhook_at env n url payload) (λ _, PostWebhook url payload).

(** ** services.py: PaymentManager *)

(** The value a profile parameter contributes to the request:
    [str(value).lower() if isinstance(value, bool) else value]. *)
Definition param_value (value : pyval) : pyval :=
  if is_bool value then PyStr (lower (py_str value)) else value.

(** One turn of the loop over [profile["parameters"].items()]. *)
Definition merge_parameter (params : pydict) (item : string * pyval) : pydict :=
  if bool_decide (item.1 ∈ ({[ "discord_role_id"; "duration_days" ]} : gset string)) then params
  else if is_none item.2 then params
  else <[item.1 := param_value item.2]> params.

(** The request of [start_payment_session].  The keys of a dict are
    distinct, so the order in which the items are visited does not matter. *)
Definition checkout_params (profile : Profile) (guild_settings : GuildSettings) : pydict :=
  foldl merge_parameter
    (<["direct" := PyStr "false"]>
       (<["address" := PyStr (payout_address guild_settings)]>
          (<["ticker_to" := PyStr (ticker_to guild_settings)]>
             (<["network_to" := PyStr (network_to guild_settings)]> ∅))))
    (map_to_list (pp_parameters (profile_row profile))).

(** The text a NOT NULL column keeps for a truthy value. *)
Definition text (v : pyval) : string := default ""%string (sql_text v).

Definition start_payment_session (guild_id user_id : Z) (profile : Profile)
    (guild_settings : GuildSettings) : M (PaymentSession * pydict) :=
  let params := checkout_params profile guild_settings in
  let* response := create_checkout params in
  let anonpay_id := py_str (dict_get response "id") in
  if String.eqb anonpay_id "" then
    raise (AnonpayError "AnonPay response missing identifier.")
  else
    let status_url := dict_get response "status_url" in
    let url := dict_get response "url" in
    if negb (truthy status_url) || negb (truthy url) then
      raise (AnonpayError "AnonPay response missing required URLs.")
    else
      let* now := utc_now in
      let expires_at := now + minutes (session_ttl_minutes env) in
      let webhook_url := sql_text (dict_get (pp_parameters (profile_row profile)) "webhook") in
      let status := py_str (dict_get_or response "status" (PyStr "waiting")) in
      let* session_id :=
        create_payment_session guild_id user_id (profile_id profile) anonpay_id
          status (text status_url) (text url) webhook_url expires_at response in
      ret ({| ps_id := session_id;
              ps_guild_id := guild_id;
              ps_user_id := user_id;
              ps_profile_id := profile_id profile;
              ps_anonpay_id := anonpay_id;
              ps_status := status;
              ps_status_url := text status_url;
              ps_checkout_url := text url;
              ps_webhook_url := webhook_url;
              ps_expires_at := expires_at;
              ps_last_payload := Some response |}, response).

Definition as_session (kr : Z * SessionRow) : PaymentSession :=
  {| ps_id := kr.1;
     ps_guild_id := sr_guild_id kr.2;
     ps_user_id := sr_user_id kr.2;
     ps_profile_id := sr_payment_profile_id kr.2;
     ps_anonpay_id := sr_anonpay_id kr.2;
     ps_status := sr_status kr.2;
     ps_status_url := sr_status_url kr.2;
     ps_checkout_url := sr_checkout_url kr.2;
     ps_webhook_url := sr_webhook_url kr.2;
     ps_expires_at := sr_expires_at kr.2;
     ps_last_payload := sr_last_payload kr.2 |}.

Definition load_active_sessions : M (list PaymentSession) :=
  let* now := utc_now in
  let cutoff := now - minutes (session_ttl_minutes env * 2) in
  let* rows := list_active_sessions cutoff in
  ret (as_session <$> rows).

(** The session object is updated in place; here the updated session is
    returned next to the payload. *)
Definition refreshed (status : string) (payload : pydict) (session : PaymentSession)
    : PaymentSession :=
  {| ps_id := ps_id session;
     ps_guild_id := ps_guild_id session;
     ps_user_id := ps_user_id session;
     ps_profile_id := ps_profile_id session;
     ps_anonpay_id := ps_anonpay_id session;
     ps_status := status;
     ps_status_url := ps_status_url session;
     ps_checkout_url := ps_checkout_url session;
     ps_webhook_url := ps_webhook_url session;
     ps_expires_at := ps_expires_at session;
     ps_last_payload := Some payload |}.

Definition refresh_session_status (session : PaymentSession)
    : M (PaymentSession * pydict) :=
  let* payload := fetch_status (OfSession (ps_id session)) (ps_status_url session) in
  let status := lower (py_str (dict_get_or payload "status" (PyStr (ps_status session)))) in
  update_payment_session_status (ps_id session) status payload ;;
  ret (refreshed status payload session, payload).

Definition purge_session (session_id : Z) : M unit :=
  delete_payment_session session_id.

Definition upsert_subscription (session : PaymentSession) (profile : Profile)
    (webhook_url : pyval) : M Z :=
  match pp_duration_days (profile_row profile) with
  | Some duration_days =>
      if duration_days =? 0 then
        raise (RuntimeError "Cannot create subscription without a configured duration.")
      else
        let* now := utc_now in
        let expires_at := now + days duration_days in
        db_upsert_subscription (ps_guild_id session) (ps_user_id session)
          (ps_profile_id session) (pp_role_id (profile_row profile)) expires_at
          (sql_text webhook_url) ;;
        ret expires_at
  | None =>
      raise (RuntimeError "Cannot create subscription without a configured duration.")
  end.

Definition get_payment_profile_by_id := db_get_payment_profile_by_id.
Definition list_expiring_subscriptions := db_list_expiring_subscriptions.
Definition mark_subscription_notified := db_mark_subscription_notified.
Definition list_expired_subscriptions := db_list_expired_subscriptions.
Definition delete_subscription := db_delete_subscription.

(** ** bot.py: CatPaymentBot *)

(** [self.get_guild], [guild.get_role], [guild.get_member] *)
Definition get_guild (guild_id : Z) : option Guild := guilds env !! guild_id.

Definition get_role (guild : Guild) (role_id : Z) : option Z :=
  if bool_decide (role_id ∈ guild_roles guild) then Some role_id else None.

Definition get_member (guild : Guild) (user_id : Z) : option Z :=
  if bool_decide (user_id ∈ guild_members guild) then Some user_id else None.

(** The user is looked up in the cache and fetched otherwise; when neither
    yields a user the notice is dropped.  Building the embed reads the
    clock; a failure to send is suppressed. *)
Definition _notify_user (session : PaymentSession) (message title : string) : M unit :=
  let o := OfSession (ps_id session) in
  emit o (NotifyUser (ps_user_id session) title message) ;;
  if user_reachable env (ps_user_id session) then
    utc_now ;;
    emit o (SendEmbed (ps_user_id session) title message)
  else ret tt.

Definition _handle_successful_payment (session : PaymentSession)
    (guild : option Guild) (profile : option Profile) (payload : pydict) : M unit :=
  let o := OfSession (ps_id session) in
  match guild, profile with
  | Some guild, Some profile =>
      let role_id := pp_role_id (profile_row profile) in
      let role := if int_truthy role_id then role_id ≫= get_role guild else None in
      let member := get_member guild (ps_user_id session) in
      match role, member with
      | Some role, Some member => emit o (AddRoles (ps_guild_id session) member role)
      | _, _ => ret tt
      end ;;
      let duration_days := pp_duration_days (profile_row profile) in
      let webhook_url :=
        text_or (ps_webhook_url session)
          (dict_get (pp_parameters (profile_row profile)) "webhook") in
      when (int_truthy duration_days)
        (upsert_subscription session profile webhook_url ;; ret tt) ;;
      when (truthy webhook_url)
        (try_except
           (post_webhook o (py_str webhook_url)
              (<["subscription_active" := PyBool true]>
                 (<["discord_id" := PyStr (pretty (ps_user_id session))]> payload)))
           (λ exc, emit o (LogWarning "Webhook delivery failed for subscription activation")))
  | _, _ => ret tt
  end.

Definition _handle_status_change (session : PaymentSession) (status : string)
    (payload : pydict) : M unit :=
  let o := OfSession (ps_id session) in
  emit o (StatusChange status) ;;
  match ps_webhook_url session with
  | Some url =>
      when (negb (String.eqb url ""))
        (try_except
           (post_webhook o url
              (<["discord_id" := PyStr (pretty (ps_user_id session))]> payload))
           (λ exc, emit o (LogWarning "Webhook delivery failed for session")))
  | None => ret tt
  end ;;
  let guild := get_guild (ps_guild_id session) in
  let* profile :=
    match guild with
    | Some _ => get_payment_profile_by_id (ps_profile_id session)
    | None => ret None
    end in
  if String.eqb status "finished" then
    _handle_successful_payment session guild profile payload
  else if String.eqb status "paid partially" then
    _notify_user session
      "Payment received partially. Contact support to resolve the difference."
      "Partial Payment"
  else if bool_decide (status ∈ ({[ "failed"; "expired"; "halted"; "refunded" ]} : gset string)) then
    _notify_user session ("Payment status updated: **" +:+ status +:+ "**.")
      "Payment Update"
  else ret tt.

(** The body of the loop of [_process_payment_updates]. *)
Definition process_session (session : PaymentSession) : M unit :=
  let previous_status := ps_status session in
  let* now := utc_now in
  if (ps_expires_at session <? now) && negb (in_final previous_status) then
    purge_session (ps_id session) ;;
    _notify_user session "Payment session expired before completion." "Payment Expired"
  else
    let* refreshed :=
      try_except
        (let* r := refresh_session_status session in ret (Some r))
        (λ exc,
           emit (OfSession (ps_id session)) (LogWarning "Failed to refresh status for session") ;;
           ret None) in
    match refreshed with
    | None => ret tt
    | Some (session, payload) =>
        let status := lower (ps_status session) in
        when (negb (String.eqb status previous_status))
          (_handle_status_change session status payload) ;;
        when (in_final status) (purge_session (ps_id session))
    end.

Definition _process_payment_updates : M unit :=
  let* sessions := load_active_sessions in
  for_each sessions process_session.

Definition payment_name (profile : option Profile) : string :=
  match profile with
  | Some p => pp_name (profile_row p)
  | None => "unknown"
  end.

Definition subscription_event (event time_key : string) (subscription : Subscription)
    (guild : Guild) (profile : option Profile) : pydict :=
  let row := subscription_row subscription in
  <["event" := PyStr event]>
    (<["discord_id" := PyStr (pretty (sub_user_id row))]>
       (<["guild_id" := PyStr (pretty (sub_guild_id row))]>
          (<["payment_name" := PyStr (payment_name profile)]>
             (<["guild_name" := PyStr (guild_name guild)]>
                (<[time_key := PyStr (isoformat env (sub_expires_at row))]> ∅))))).

Definition _notify_subscription_expiring (subscription : Subscription) : M unit :=
  let o := OfSubscription (subscription_id subscription) in
  let row := subscription_row subscription in
  match get_guild (sub_guild_id row) with
  | None => ret tt
  | Some guild =>
      let* profile := get_payment_profile_by_id (sub_payment_profile_id row) in
      match sub_webhook_url row with
      | Some url =>
          when (negb (String.eqb url ""))
            (try_except
               (post_webhook o url
                  (subscription_event "subscription_expiring" "expires_at"
                     subscription guild profile))
               (λ exc, emit o (LogWarning "Webhook delivery failed for subscription expiring")))
      | None => ret tt
      end
  end.

Definition _expire_subscription (subscription : Subscription) : M unit :=
  let o := OfSubscription (subscription_id subscription) in
  let row := subscription_row subscription in
  match get_guild (sub_guild_id row) with
  | None => ret tt
  | Some guild =>
      let* profile := get_payment_profile_by_id (sub_payment_profile_id row) in
      let role_id := sub_role_id row in
      let role := if int_truthy role_id then role_id ≫= get_role guild else None in
      let member := get_member guild (sub_user_id row) in
      match member, role with
      | Some member, Some role => emit o (RemoveRoles (sub_guild_id row) member role)
      | _, _ => ret tt
      end ;;
      match sub_webhook_url row with
      | Some url =>
          when (negb (String.eqb url ""))
            (try_except
               (post_webhook o url
                  (subscription_event "subscription_expired" "expired_at"
                     subscription guild profile))
               (λ exc, emit o (LogWarning "Webhook delivery failed for subscription expired")))
      | None => ret tt
      end
  end.

(** The bodies of the two loops of [_process_subscriptions]. *)
Definition notify_expiring (subscription : Subscription) : M unit :=
  match sub_last_notified_at (subscription_row subscription) with
  | Some _ => ret tt
  | None =>
      _notify_subscription_expiring subscription ;;
      mark_subscription_notified (subscription_id subscription)
  end.

Definition expire (subscription : Subscription) : M unit :=
  _expire_subscription subscription ;;
  delete_subscription (subscription_id subscription).

Definition _process_subscriptions : M unit :=
  let* now := utc_now in
  let* expiring := list_expiring_subscriptions now 1 in
  for_each expiring notify_expiring ;;
  let* expired := list_expired_subscriptions now in
  for_each expired expire.

End Engine.

(** * Vocabulary of the proofs

    The outcome of a computation is read through three projections; effects
    are sorted into kinds; [keeps] relates two worlds that agree on the
    rows picked by its two predicates; the remaining definitions name the
    pieces into which the two passes are cut. *)

Definition result_of {A} (x : Result A * World * list Event) : Result A := x.1.1.
Definition world_of {A} (x : Result A * World * list Event) : World := x.1.2.
Definition events_of {A} (x : Result A * World * list Event) : list Event := x.2.

(** kinds of effects *)
Inductive Kind :=
| KCheckout | KFetch | KWebhook | KAddRoles | KRemoveRoles
| KNotify | KSend | KStatus | KLog.
#[global] Instance Kind_eq_dec : EqDecision Kind.
Proof. solve_decision. Defined.

Definition kind (e : Effect) : Kind :=
  match e with
  | CreateCheckout _ _ => KCheckout
  | FetchStatus _ _ => KFetch
  | PostWebhook _ _ => KWebhook
  | AddRoles _ _ _ => KAddRoles
  | RemoveRoles _ _ _ => KRemoveRoles
  | NotifyUser _ _ _ => KNotify
  | SendEmbed _ _ _ => KSend
  | StatusChange _ => KStatus
  | LogWarning _ => KLog
  end.

Definition only (o : Origin) (ks : list Kind) (ev : Event) : Prop :=
  ev.1 = o ∧ kind ev.2 ∈ ks.

Definition keeps (I J : Z → Prop) (w w' : World) : Prop :=
  payment_profiles (store w') = payment_profiles (store w)
  ∧ (∀ j, I j → payment_sessions (store w') !! j = payment_sessions (store w) !! j)
  ∧ (∀ j, J j → subscriptions (store w') !! j = subscriptions (store w) !! j)
  ∧ (ticks w ≤ ticks w')%nat.

Abbreviation any := (λ _ : Z, True).
Abbreviation other k := (λ j : Z, j ≠ k).
Abbreviation none := (λ _ : Z, False).

Definition frames (P : Event → Prop) (I J : Z → Prop) {A} (m : M A) : Prop :=
  ∀ w, keeps I J w (world_of (m w)) ∧ Forall P (events_of (m w)).

Definition total {A} (m : M A) : Prop :=
  ∀ w, is_raise (result_of (m w)) = false.

Definition gateway_only {A} (m : M A) : Prop :=
  ∀ w, match result_of (m w) with
       | Raise (AnonpayError _) | Ok _ => True
       | Raise _ => False
       end.

(** The new status, as [refresh_session_status] computes it. *)
Definition fetched_status (s : PaymentSession) (payload : pydict) : string :=
  lower (py_str (dict_get_or payload "status" (PyStr (ps_status s)))).

(** the test that opens the loop body *)
Definition expired_locally (s : PaymentSession) (now : Z) : bool :=
  (ps_expires_at s <? now) && negb (in_final (ps_status s)).

Definition tick (w : World) : World :=
  {| store := store w; ticks := S (ticks w); calls := calls w |}.

Definition after_refresh env (s : PaymentSession) (payload : pydict) (w : World) : World :=
  {| store := with_sessions
                (alter (set_status (fetched_status s payload) (time_at env (S (ticks w))) payload)
                   (ps_id s) (payment_sessions (store w)))
                (session_seq (store w)) (store w);
     ticks := S (S (ticks w));
     calls := S (calls w) |}.

(** what follows a successful refresh *)
Definition after_fetch env (s : PaymentSession) (payload : pydict) : M unit :=
  let status := fetched_status s payload in
  bind (when (negb (String.eqb status (ps_status s)))
          (_handle_status_change env (refreshed status payload s) status payload))
       (λ _, when (in_final status) (purge_session (ps_id s))).

Definition handler_kinds : list Kind := [KStatus; KWebhook; KLog; KAddRoles; KNotify; KSend].

Definition session_kinds : list Kind := KFetch :: handler_kinds.

(** the sessions a pass works on *)
Definition loaded env (w : World) : list PaymentSession :=
  as_session <$>
    List.filter (λ kr, time_at env (ticks w) - minutes (session_ttl_minutes env * 2)
                       <=? sr_expires_at kr.2)
      (map_to_list (payment_sessions (store w))).

Definition effect_kinds : list Kind := [KWebhook; KLog; KAddRoles; KNotify; KSend].
Definition notice_kinds : list Kind := [KWebhook; KLog; KNotify; KSend].


Definition profile_of (st : Store) (k : Z) : option Profile :=
  (λ r, {| profile_id := k; profile_row := r |}) <$> payment_profiles st !! k.

(** the two work lists of a sweep *)
Definition expiring (now : Z) (w : World) : list Subscription :=
  as_subscription <$>
    List.filter (λ kr, is_expiring now 1 kr.2) (map_to_list (subscriptions (store w))).

Definition expired (now : Z) (w : World) : list Subscription :=
  as_subscription <$>
    List.filter (λ kr, sub_expires_at kr.2 <=? now) (map_to_list (subscriptions (store w))).

Definition marked env (k : Z) (w : World) : World :=
  {| store := with_subscriptions
                (alter (set_notified (time_at env (ticks w))) k (subscriptions (store w)))
                (subscription_seq (store w)) (store w);
     ticks := S (ticks w); calls := calls w |}.


(** a row that differs from [r] at most in its notification mark *)
Definition remarked (r r' : SubscriptionRow) : Prop :=
  r' = r ∨ ∃ t, r' = set_notified t r.

(** The value a request carries under [key]: the parameter of the profile
    when it has one that is not [None], the value of the tenant otherwise. *)
Definition effective (profile : Profile) (key : string) (tenant : string) : pyval :=
  match pp_parameters (profile_row profile) !! key with
  | Some v => if is_none v then PyStr tenant else param_value v
  | None => PyStr tenant
  end.

(** The reply, when there is one, names the checkout: it has a non-null
    ["id"]. *)
Definition carries_reference_id (a : Answer pydict) : bool :=
  match a with
  | Failure _ => true
  | Reply response => negb (is_none (dict_get response "id"))
  end.


Definition tenant : GuildSettings :=
  {| payout_address := "bc1qtenant"; ticker_to := "BTC"; network_to := "MAINNET" |}.

Definition vip_row : ProfileRow :=
  {| pp_guild_id := 7; pp_name := "vip"; pp_role_id := Some 5; pp_duration_days := Some 30;
     pp_parameters :=
       <["amount" := PyStr "5"]> (<["webhook" := PyStr "https://hook.example/pay"]> ∅);
     pp_donation_mode := false |}.

Definition vip : Profile := {| profile_id := 1; profile_row := vip_row |}.

Definition redirected : Profile :=
  {| profile_id := 2;
     profile_row :=
       {| pp_guild_id := 7; pp_name := "redirected"; pp_role_id := None; pp_duration_days := None;
          pp_parameters := <["address" := PyStr "bc1qother"]> ∅;
          pp_donation_mode := false |} |}.

Definition cats : Guild :=
  {| guild_name := "cats"; guild_roles := {[ 5 ]}; guild_members := {[ 9 ]} |}.

(** noon, and the clock advancing one microsecond per reading *)
Definition noon : Z := 1762171200000000.

Definition gateway (checkout status : Answer pydict) : Env :=
  {| session_ttl_minutes := 20;
     time_at := λ n, noon + Z.of_nat n;
     isoformat := pretty;
     checkout_at := λ _ _, checkout;
     status_at := λ _ _, status;
     webhook_at := λ _ _ _, Reply tt;
     guilds := {[ 7 := cats ]};
     user_reachable := λ _, true |}.

Definition world (sessions : gmap Z SessionRow) (subs : gmap Z SubscriptionRow) : World :=
  {| store := {| payment_profiles := {[ 1 := vip_row ]};
                 payment_sessions := sessions;
                 subscriptions := subs;
                 session_seq := 0;
                 subscription_seq := 0 |};
     ticks := 0; calls := 0 |}.

Definition session_row (status : string) (expires_at : Z) : SessionRow :=
  {| sr_guild_id := 7; sr_user_id := 9; sr_payment_profile_id := 1;
     sr_anonpay_id := "abc"; sr_status := status;
     sr_status_url := "https://gateway.example/status/abc";
     sr_checkout_url := "https://gateway.example/pay/abc";
     sr_webhook_url := Some "https://hook.example/pay"%string;
     sr_expires_at := expires_at; sr_created_at := noon - minutes 5;
     sr_last_status_check := Some (noon - minutes 1);
     sr_last_status := Some status;
     sr_last_payload := Some (<["status" := PyStr status]> ∅) |}.

Definition subscription_row_of (guild_id expires_at : Z) (notified : option Z) : SubscriptionRow :=
  {| sub_guild_id := guild_id; sub_user_id := 9; sub_payment_profile_id := 1;
     sub_role_id := Some 5; sub_expires_at := expires_at; sub_created_at := noon - days 29;
     sub_last_notified_at := notified;
     sub_webhook_url := Some "https://hook.example/sub"%string |}.

Definition reply_without_id : pydict :=
  <["status_url" := PyStr "https://gateway.example/status/abc"]>
    (<["url" := PyStr "https://gateway.example/pay/abc"]> ∅).
Definition full_reply (status : string) : pydict :=
  <["id" := PyStr "abc"]> (<["status" := PyStr status]>
   (<["status_url" := PyStr "https://gateway.example/status/abc"]>
    (<["url" := PyStr "https://gateway.example/pay/abc"]> ∅))).
Definition polled (status : string) : pydict :=
  <["status" := PyStr status]> (<["confirmations" := PyInt 1]> ∅).

Definition down : Answer pydict := Failure "Timed out while fetching AnonPay status.".


Definition status_url_abc : string := "https://gateway.example/status/abc".

(** a pending session ten minutes before its expiry, polled *)
Definition pending : SessionRow := session_row "waiting" (noon + minutes 10).
Definition pending_world : World := world {[ 1 := pending ]} ∅.
Definition steady : Env := gateway down (Reply (polled "waiting")).
Definition outage : Env := gateway down down.

(** a session whose expiry passed a minute ago *)
Definition overdue : SessionRow := session_row "waiting" (noon - minutes 1).
Definition overdue_world : World := world {[ 1 := overdue ]} ∅.

(** a session created from a reply that spells its status with a capital *)
Definition capital : Env := gateway (Reply (full_reply "Waiting")) (Reply (polled "Waiting")).
Definition capital_world : World :=
  world_of (start_payment_session capital 7 9 vip tenant (world ∅ ∅)).

(** subscriptions twelve hours before expiry *)
Definition reminded : SubscriptionRow :=
  subscription_row_of 7 (noon + days 1 / 2) (Some (noon - minutes 2)).
Definition fresh : SubscriptionRow := subscription_row_of 7 (noon + days 1 / 2) None.
(** a lapsed subscription of a guild that left the cache *)
Definition orphan : SubscriptionRow := subscription_row_of 8 (noon - minutes 1) None.

Definition reminded_world : World := world ∅ {[ 1 := reminded ]}.
Definition fresh_world : World := world ∅ {[ 1 := fresh ]}.
Definition orphan_world : World := world ∅ {[ 1 := orphan ]}.
Definition settled : Env := gateway down (Reply (polled "finished")).

(** ** Vocabulary of the further properties *)

(** the subscriber of a row, and the UNIQUE constraint of [subscriptions] *)
Definition subscriber (r : SubscriptionRow) : Z * Z * Z :=
  (sub_guild_id r, sub_user_id r, sub_payment_profile_id r).

Definition unique_subscribers (t : gmap Z SubscriptionRow) : Prop :=
  ∀ i j r r', t !! i = Some r → t !! j = Some r' → subscriber r = subscriber r' → i = j.

(** [m] moves the store along [Q] *)
Definition preserves (Q : Store → Store → Prop) {A} (m : M A) : Prop :=
  ∀ w, Q (store w) (store (world_of (m w))).

(** the id of the session a creation returned *)
Definition created_id {A} (r : Result (PaymentSession * A)) : option Z :=
  match r with
  | Ok (session, _) => Some (ps_id session)
  | Raise _ => None
  end.

(** the AUTOINCREMENT counter of [payment_sessions] never decreases *)
Definition counter_grows (s s' : Store) : Prop := session_seq s ≤ session_seq s'.

(** the UNIQUE constraint of [subscriptions] is kept *)
Definition stays_unique (s s' : Store) : Prop :=
  unique_subscribers (subscriptions s) → unique_subscribers (subscriptions s').


(** * The commands

    What follows models the rest of [database.py] and [services.py] (guild
    settings and payment profiles) and the slash commands of [bot.py] that
    use them.  A command is taken as one step: what a background pass does
    between two of its [await]s is not interleaved.  A command is modelled
    from the point where its permission checks have passed; its answer is
    the embed it hands to [edit_original_response].  Outside the model stay
    [/setup] with its modal ([_parse_payment_url] rests on [urlparse]) and
    the answer of [/create], which quotes the text of the SQLite error. *)

(** [s.upper()] on ASCII text: what [py_upper] is where users type ASCII;
    the scenarios use it. *)
Definition ascii_upper (c : ascii) : ascii :=
  let n := N_of_ascii c in
  if ((97 <=? n) && (n <=? 122))%N then ascii_of_N (n - 32) else c.

Fixpoint upper (s : string) : string :=
  match s with
  | EmptyString => EmptyString
  | String c s' => String (ascii_upper c) (upper s')
  end.

(** [needle in hay] *)
Fixpoint contains (needle hay : string) : bool :=
  String.prefix needle hay
  || match hay with
     | EmptyString => false
     | String _ hay' => contains needle hay'
     end.

(** The order of [COLLATE NOCASE]: bytes are compared after folding the
    upper-case letters of ASCII; a proper prefix comes first. *)
Fixpoint nocase_le (a b : string) : bool :=
  match a, b with
  | EmptyString, _ => true
  | String _ _, EmptyString => false
  | String c a', String d b' =>
      let x := N_of_ascii (ascii_lower c) in
      let y := N_of_ascii (ascii_lower d) in
      if (x <? y)%N then true
      else if (y <? x)%N then false
      else nocase_le a' b'
  end.

(** A row of [guild_settings]. *)
Record GuildSettingsRow := {
  gs_payout_address : string;
  gs_ticker_to : string;
  gs_network_to : string;
  gs_created_at : Z;
  gs_updated_at : Z;
}.

(** The bot with its database file: the tables the engine works on, with
    the clock and the gateway counter; the table [guild_settings]; and of
    [payment_profiles] the AUTOINCREMENT counter and the columns
    [created_at] and [updated_at], which no statement selects. *)
Record Server := {
  engine : World;
  guild_settings : gmap Z GuildSettingsRow;
  profile_seq : Z;
  profile_stamps : gmap Z (Z * Z);
}.


Inductive Color := SUCCESS_COLOR | ERROR_COLOR | WARNING_COLOR | INFO_COLOR | ACCENT_COLOR.

Record Embed := {
  embed_title : string;
  embed_description : string;
  embed_color : Color;
  embed_timestamp : Z;
  embed_fields : list (string * string);
}.

(** [app_commands.Choice(name=..., value=...)] *)
Record Choice := {
  choice_name : string;
  choice_value : string;
}.

(** [interaction.guild] (its id and the guild object) and
    [interaction.user.id] *)
Record Interaction := {
  interaction_guild : option (Z * Guild);
  interaction_user : Z;
}.

(** The options of [/create] that become parameters; [amount] and [maximum]
    are floats. *)
Inductive Argument (float : Type) :=
| ArgBool (b : bool)
| ArgFloat (x : float)
| ArgStr (s : string).
Arguments ArgBool {float} b.
Arguments ArgFloat {float} x.
Arguments ArgStr {float} s.

Record CreateOptions (float : Type) := {
  opt_amount : option float;
  opt_memo : option string;
  opt_donation : option bool;
  opt_ticker_from : option string;
  opt_network_from : option string;
  opt_description : option string;
  opt_ref : option string;
  opt_buttonbgcolor : option string;
  opt_textcolor : option string;
  opt_bgcolor : option string;
  opt_email : option string;
  opt_fiat_equiv : option string;
  opt_remove_direct_pay : option bool;
  opt_min_logpolicy : option string;
  opt_webhook : option string;
  opt_simple_mode : option bool;
  opt_maximum : option float;
}.
Arguments opt_amount {float} _.
Arguments opt_memo {float} _.
Arguments opt_donation {float} _.
Arguments opt_ticker_from {float} _.
Arguments opt_network_from {float} _.
Arguments opt_description {float} _.
Arguments opt_ref {float} _.
Arguments opt_buttonbgcolor {float} _.
Arguments opt_textcolor {float} _.
Arguments opt_bgcolor {float} _.
Arguments opt_email {float} _.
Arguments opt_fiat_equiv {float} _.
Arguments opt_remove_direct_pay {float} _.
Arguments opt_min_logpolicy {float} _.
Arguments opt_webhook {float} _.
Arguments opt_simple_mode {float} _.
Arguments opt_maximum {float} _.

Definition newline : string := String (ascii_of_nat 10) EmptyString.

Definition with_engine (w : World) (sv : Server) : Server :=
  {| engine := w;
     guild_settings := guild_settings sv;
     profile_seq := profile_seq sv;
     profile_stamps := profile_stamps sv |}.

Definition with_profiles (t : gmap Z ProfileRow) (s : Store) : Store :=
  {| payment_profiles := t;
     payment_sessions := payment_sessions s;
     subscriptions := subscriptions s;
     session_seq := session_seq s;
     subscription_seq := subscription_seq s |}.

Definition as_profile (kr : Z * ProfileRow) : Profile :=
  {| profile_id := kr.1; profile_row := kr.2 |}.

(** [ORDER BY name COLLATE NOCASE ASC] *)
Definition by_name (p q : Profile) : Prop :=
  nocase_le (pp_name (profile_row p)) (pp_name (profile_row q)) = true.

#[global] Instance by_name_dec p q : Decision (by_name p q).
Proof. unfold by_name. apply _. Defined.

Section Administration.

(** [str.upper] and [str.lower] of Python, on text that users type. *)
Context (env : Env) (py_upper py_lower : string → string).

(** ** database.py *)

(** INSERT INTO guild_settings (...) VALUES (...)
    ON CONFLICT(guild_id) DO UPDATE SET payout_address = excluded.payout_address,
      ticker_to = excluded.ticker_to, network_to = excluded.network_to,
      updated_at = excluded.updated_at *)
Definition set_guild_settings (guild_id : Z) (address ticker network : string)
    (sv : Server) : Server :=
  let now := time_at env (ticks (engine sv)) in
  let row :=
    {| gs_payout_address := address;
       gs_ticker_to := ticker;
       gs_network_to := network;
       gs_created_at :=
         match guild_settings sv !! guild_id with
         | Some old => gs_created_at old
         | None => now
         end;
       gs_updated_at := now |} in
  {| engine := tick (engine sv);
     guild_settings := <[guild_id := row]> (guild_settings sv);
     profile_seq := profile_seq sv;
     profile_stamps := profile_stamps sv |}.

(** SELECT guild_id, payout_address, ticker_to, network_to
    FROM guild_settings WHERE guild_id = ? *)
Definition get_guild_settings (guild_id : Z) (sv : Server) : option GuildSettings :=
  (λ r, {| payout_address := gs_payout_address r;
           ticker_to := gs_ticker_to r;
           network_to := gs_network_to r |})
    <$> guild_settings sv !! guild_id.

(** WHERE guild_id = ? AND name = ? COLLATE NOCASE *)
Definition same_name (guild_id : Z) (name : string) (kr : Z * ProfileRow) : bool :=
  (pp_guild_id kr.2 =? guild_id) && String.eqb (lower (pp_name kr.2)) (lower name).

(** [fetch_one] of the rows under that name; the unique index leaves at
    most one. *)
Definition select_profile (guild_id : Z) (name : string) (t : gmap Z ProfileRow)
    : option (Z * ProfileRow) :=
  head (List.filter (same_name guild_id name) (map_to_list t)).

(** INSERT INTO payment_profiles (...) VALUES (...), refused when the guild
    has a profile of that name, case ignored (the unique index), or has no
    settings (the foreign key); then
    SELECT id FROM payment_profiles WHERE guild_id = ? AND name = ? COLLATE NOCASE *)
Definition db_create_payment_profile (guild_id : Z) (name : string)
    (role_id duration_days : option Z) (parameters : pydict) (donation_mode : bool)
    (sv : Server) : Result Z * Server :=
  let now := time_at env (ticks (engine sv)) in
  let t := payment_profiles (store (engine sv)) in
  if existsb (same_name guild_id name) (map_to_list t) then
    (Raise (IntegrityError
              "UNIQUE constraint failed: payment_profiles.guild_id, payment_profiles.name"),
     with_engine (tick (engine sv)) sv)
  else if negb (bool_decide (is_Some (guild_settings sv !! guild_id))) then
    (Raise (IntegrityError "FOREIGN KEY constraint failed"),
     with_engine (tick (engine sv)) sv)
  else
    let rowid := next_rowid (profile_seq sv) t in
    let row :=
      {| pp_guild_id := guild_id;
         pp_name := name;
         pp_role_id := role_id;
         pp_duration_days := duration_days;
         pp_parameters := parameters;
         pp_donation_mode := donation_mode |} in
    let t' := <[rowid := row]> t in
    let sv' :=
      {| engine := {| store := with_profiles t' (store (engine sv));
                      ticks := S (ticks (engine sv));
                      calls := calls (engine sv) |};
         guild_settings := guild_settings sv;
         profile_seq := rowid;
         profile_stamps := <[rowid := (now, now)]> (profile_stamps sv) |} in
    match select_profile guild_id name t' with
    | Some kr => (Ok kr.1, sv')
    | None => (Raise AssertionError, sv')
    end.

(** SELECT ... FROM payment_profiles WHERE guild_id = ? AND name = ? COLLATE NOCASE *)
Definition db_get_payment_profile (guild_id : Z) (name : string) (sv : Server)
    : option Profile :=
  as_profile <$> select_profile guild_id name (payment_profiles (store (engine sv))).

(** SELECT ... FROM payment_profiles WHERE guild_id = ?
    ORDER BY name COLLATE NOCASE ASC *)
Definition db_list_payment_profiles (guild_id : Z) (sv : Server) : list Profile :=
  merge_sort by_name
    (as_profile <$>
       List.filter (λ kr : Z * ProfileRow, pp_guild_id kr.2 =? guild_id)
         (map_to_list (payment_profiles (store (engine sv))))).



(** ** services.py *)

Definition ensure_guild_setup := get_guild_settings.

Definition setup_guild (guild_id : Z) (address coin network : string) (sv : Server) : Server :=
  set_guild_settings guild_id address (py_upper coin) (py_upper network) sv.

(** [role] is the id of the role, when one is given. *)
Definition create_payment_profile (guild_id : Z) (name : string)
    (role duration_days : option Z) (parameters : pydict) (sv : Server)
    : Result Z * Server :=
  let donation_mode := truthy (dict_get_or parameters "donation" (PyBool false)) in
  let parameters :=
    match role with
    | Some role_id => <["discord_role_id" := PyInt role_id]> parameters
    | None => parameters
    end in
  let parameters :=
    match duration_days with
    | Some d => if d =? 0 then parameters else <["duration_days" := PyInt d]> parameters
    | None => parameters
    end in
  db_create_payment_profile guild_id name role duration_days parameters donation_mode sv.

Definition list_payment_profiles := db_list_payment_profiles.
Definition get_payment_profile := db_get_payment_profile.

(** ** bot.py: the commands *)

Definition _build_embed (description title : string) (color : Color) (sv : Server)
    : Embed * Server :=
  ({| embed_title := title;
      embed_description := description;
      embed_color := color;
      embed_timestamp := time_at env (ticks (engine sv));
      embed_fields := [] |},
   with_engine (tick (engine sv)) sv).



(** [str(exc)] *)
Definition exn_text (e : Exn) : string :=
  match e with
  | AnonpayError msg => msg
  | RuntimeError msg => msg
  | AssertionError => ""
  | IntegrityError msg => msg
  end.

(** [/pay name] *)
Definition pay (interaction : Interaction) (name : option string) (sv : Server)
    : Embed * Server * list Event :=
  match interaction_guild interaction with
  | None =>
      (_build_embed "This command can only be used inside a server." "Guild Only"
         ERROR_COLOR sv, [])
  | Some guild =>
      match ensure_guild_setup guild.1 sv with
      | None =>
          (_build_embed
             "This server has not configured payments yet. Ask an admin to run `/setup`."
             "Payments Disabled" WARNING_COLOR sv, [])
      | Some setup_info =>
          let chosen : Embed * Server + Profile * string :=
            match name with
            | Some name' =>
                if negb (String.eqb name' "") then
                  match get_payment_profile guild.1 name' sv with
                  | None =>
                      inl (_build_embed
                             ("No payment named `" +:+ name' +:+ "` is available on this server.")
                             "Payment Not Found" WARNING_COLOR sv)
                  | Some profile => inr (profile, name')
                  end
                else
                  match list_payment_profiles guild.1 sv with
                  | [] =>
                      inl (_build_embed "This server has no payments configured."
                             "No Payments" WARNING_COLOR sv)
                  | profile :: _ => inr (profile, pp_name (profile_row profile))
                  end
            | None =>
                match list_payment_profiles guild.1 sv with
                | [] =>
                    inl (_build_embed "This server has no payments configured."
                           "No Payments" WARNING_COLOR sv)
                | profile :: _ => inr (profile, pp_name (profile_row profile))
                end
            end in
          match chosen with
          | inl answer => (answer, [])
          | inr (profile, name) =>
              match start_payment_session env guild.1 (interaction_user interaction)
                      profile setup_info (engine sv) with
              | (Raise (AnonpayError exc), w, events) =>
                  (_build_embed ("AnonPay rejected the request: " +:+ exc)
                     "Payment Error" ERROR_COLOR (with_engine w sv), events)
              | (Raise exc, w, events) =>
                  (_build_embed ("Could not start payment session: " +:+ exn_text exc)
                     "Payment Error" ERROR_COLOR (with_engine w sv), events)
              | (Ok (session, _), w, events) =>
                  let message :=
                    "Payment `" +:+ name +:+ "` initialized." +:+ newline
                    +:+ "Use the button below to proceed (expires in "
                    +:+ pretty (session_ttl_minutes env) +:+ " minutes)." in
                  let answer := _build_embed message "Checkout Ready" INFO_COLOR
                                  (with_engine w sv) in
                  ({| embed_title := embed_title answer.1;
                      embed_description := embed_description answer.1;
                      embed_color := embed_color answer.1;
                      embed_timestamp := embed_timestamp answer.1;
                      embed_fields :=
                        embed_fields answer.1
                        ++ [("Checkout"%string,
                             "[Open Payment Link](" +:+ ps_checkout_url session +:+ ")")] |},
                   answer.2, events)
              end
          end
      end
  end.

(** The loop of [_payment_name_autocomplete], with its [break]. *)
Fixpoint autocomplete_options (current_lower : string) (profiles : list Profile)
    (options : list Choice) : list Choice :=
  match profiles with
  | [] => options
  | profile :: profiles' =>
      let name := pp_name (profile_row profile) in
      if negb (String.eqb current_lower "") && negb (contains current_lower (py_lower name))
      then autocomplete_options current_lower profiles' options
      else
        let options := options ++ [{| choice_name := name; choice_value := name |}] in
        if (25 <=? List.length options)%nat then options
        else autocomplete_options current_lower profiles' options
  end.

Definition _payment_name_autocomplete (interaction : Interaction) (current : string)
    (sv : Server) : list Choice :=
  match interaction_guild interaction with
  | None => []
  | Some guild =>
      autocomplete_options (py_lower current) (list_payment_profiles guild.1 sv) []
  end.

End Administration.

Section Create.

(** [float] with [f"{value:.12g}"], and [str.upper] of Python *)
Context {float : Type} (format_12g : float → string) (py_upper : string → string).

Definition optional_fields (o : CreateOptions float) : list (string * option (Argument float)) :=
  [ ("amount", ArgFloat <$> opt_amount o);
    ("memo", ArgStr <$> opt_memo o);
    ("donation", ArgBool <$> opt_donation o);
    ("ticker_from", ArgStr <$> opt_ticker_from o);
    ("network_from", ArgStr <$> opt_network_from o);
    ("description", ArgStr <$> opt_description o);
    ("ref", ArgStr <$> opt_ref o);
    ("buttonbgcolor", ArgStr <$> opt_buttonbgcolor o);
    ("textcolor", ArgStr <$> opt_textcolor o);
    ("bgcolor", ArgStr <$> opt_bgcolor o);
    ("email", ArgStr <$> opt_email o);
    ("fiat_equiv", ArgStr <$> opt_fiat_equiv o);
    ("remove_direct_pay", ArgBool <$> opt_remove_direct_pay o);
    ("min_logpolicy", ArgStr <$> opt_min_logpolicy o);
    ("webhook", ArgStr <$> opt_webhook o);
    ("simple_mode", ArgBool <$> opt_simple_mode o);
    ("maximum", ArgFloat <$> opt_maximum o) ]%string.

(** One turn of the loop of [/create] over [optional_fields.items()]. *)
Definition set_parameter (params : pydict) (item : string * option (Argument float)) : pydict :=
  match item.2 with
  | None => params
  | Some (ArgBool b) => <[item.1 := PyBool b]> params
  | Some (ArgFloat x) => <[item.1 := PyStr (format_12g x)]> params
  | Some (ArgStr s) =>
      if bool_decide (item.1 ∈ ({[ "ticker_from"; "network_from" ]} : gset string))
      then <[item.1 := PyStr (py_upper s)]> params
      else <[item.1 := PyStr s]> params
  end.

(** The parameters [/create] hands to [create_payment_profile]. *)
Definition create_parameters (o : CreateOptions float) : pydict :=
  foldl set_parameter ∅ (optional_fields o).

End Create.

(** ** Vocabulary of the commands *)

(** The unique index of [payment_profiles]: within a guild no two profiles
    have the same name, case ignored. *)
Definition profile_key (r : ProfileRow) : Z * string := (pp_guild_id r, lower (pp_name r)).

Definition unique_names (t : gmap Z ProfileRow) : Prop :=
  ∀ i j r r', t !! i = Some r → t !! j = Some r' → profile_key r = profile_key r' → i = j.

(** The profiles of a guild under a name, case ignored. *)
Definition named (guild_id : Z) (name : string) (t : gmap Z ProfileRow) : Prop :=
  ∃ k r, t !! k = Some r ∧ pp_guild_id r = guild_id ∧ lower (pp_name r) = lower name.

(** The row [create_payment_profile] writes. *)
Definition created_row (guild_id : Z) (name : string) (role duration_days : option Z)
    (parameters : pydict) : ProfileRow :=
  {| pp_guild_id := guild_id;
     pp_name := name;
     pp_role_id := role;
     pp_duration_days := duration_days;
     pp_parameters :=
       match duration_days with
       | Some d =>
           if d =? 0 then
             match role with
             | Some role_id => <["discord_role_id" := PyInt role_id]> parameters
             | None => parameters
             end
           else
             <["duration_days" := PyInt d]>
               (match role with
                | Some role_id => <["discord_role_id" := PyInt role_id]> parameters
                | None => parameters
                end)
       | None =>
           match role with
           | Some role_id => <["discord_role_id" := PyInt role_id]> parameters
           | None => parameters
           end
       end;
     pp_donation_mode := truthy (dict_get_or parameters "donation" (PyBool false)) |}.

(** the test of the autocomplete loop *)
Definition suggested (py_lower : string → string) (current : string) (profile : Profile)
    : bool :=
  String.eqb (py_lower current) ""
  || contains (py_lower current) (py_lower (pp_name (profile_row profile))).

Definition as_choice (profile : Profile) : Choice :=
  {| choice_name := pp_name (profile_row profile);
     choice_value := pp_name (profile_row profile) |}.

(** ** Further scenarios *)

(** a gateway that accepts every checkout and reports it finished *)
Definition paying : Env := gateway (Reply (full_reply "waiting")) (Reply (polled "finished")).

Definition stale : SessionRow := session_row "waiting" (noon - minutes 41).
Definition stale_world : World := world {[ 1 := stale ]} ∅.
Definition distant : SubscriptionRow := subscription_row_of 7 (noon + days 2) None.
Definition distant_world : World := world ∅ {[ 1 := distant ]}.
Definition lapsed : SubscriptionRow := subscription_row_of 7 (noon - minutes 1) None.
Definition lapsed_world : World := world ∅ {[ 1 := lapsed ]}.
(** a session of a guild that left the cache *)
Definition orphan_session : SessionRow :=
  {| sr_guild_id := 8; sr_user_id := 9; sr_payment_profile_id := 1;
     sr_anonpay_id := "abc"; sr_status := "waiting";
     sr_status_url := "https://gateway.example/status/abc";
     sr_checkout_url := "https://gateway.example/pay/abc";
     sr_webhook_url := None;
     sr_expires_at := noon + minutes 10; sr_created_at := noon - minutes 5;
     sr_last_status_check := None; sr_last_status := None; sr_last_payload := None |}.

(** a guild with its settings and the profile [vip] *)
Definition shop : Server :=
  {| engine := world ∅ ∅;
     guild_settings :=
       {[ 7 := {| gs_payout_address := "bc1qtenant"; gs_ticker_to := "BTC";
                  gs_network_to := "MAINNET";
                  gs_created_at := noon - days 1; gs_updated_at := noon - days 1 |} ]};
     profile_seq := 1;
     profile_stamps := {[ 1 := (noon - days 1, noon - days 1) ]} |}.



(** the options of [/create name:gold donation:True ticker_from:xmr amount:5] *)
Definition gold_options : CreateOptions Z :=
  {| opt_amount := Some 5; opt_memo := None; opt_donation := Some true;
     opt_ticker_from := Some "xmr"%string; opt_network_from := None;
     opt_description := None; opt_ref := None; opt_buttonbgcolor := None;
     opt_textcolor := None; opt_bgcolor := None; opt_email := None;
     opt_fiat_equiv := None; opt_remove_direct_pay := None; opt_min_logpolicy := None;
     opt_webhook := None; opt_simple_mode := None; opt_maximum := None |}.

(** * Proofs *)

#[global] Instance keeps_preorder I J : PreOrder (keeps I J).
Proof.
  split.
  - intros w. by repeat split.
  - intros w1 w2 w3 (Hp & Hs & Hu & Ht) (Hp' & Hs' & Hu' & Ht'). repeat split.
    + congruence.
    + intros j Hj. rewrite Hs', Hs; done.
    + intros j Hj. rewrite Hu', Hu; done.
    + lia.
Qed.

Lemma keeps_weaken (I I' J J' : Z → Prop) w w' :
  (∀ j, I' j → I j) → (∀ j, J' j → J j) → keeps I J w w' → keeps I' J' w w'.
Proof. intros HS HU (Hp & Hs & Hu & Ht). repeat split; auto. Qed.

Lemma keeps_subscriptions I w w' :
  keeps I any w w' → subscriptions (store w') = subscriptions (store w).
Proof. intros (_ & _ & Hu & _). apply map_eq. intros j. by apply Hu. Qed.

Lemma bind_run {A B} (m : M A) (k : A → M B) w :
  bind m k w =
    match result_of (m w) with
    | Ok a => (result_of (k a (world_of (m w))), world_of (k a (world_of (m w))),
               events_of (m w) ++ events_of (k a (world_of (m w))))
    | Raise e => (Raise e, world_of (m w), events_of (m w))
    end.
Proof.
  unfold bind, result_of, world_of, events_of.
  destruct (m w) as [[[a|e] w1] ev1]; simpl; [|done]. by destruct (k a w1) as [[??]?].
Qed.

Lemma bind_query {A B} (f : Store → A) (k : A → M B) w :
  bind (bind get_store (λ s, ret (f s))) k w = k (f (store w)) w.
Proof. unfold bind, get_store, ret. simpl. by destruct (k _ _) as [[??]?]. Qed.

(** ** Strings and lists *)

Lemma ascii_lower_idemp c : ascii_lower (ascii_lower c) = ascii_lower c.
Proof. destruct c as [[] [] [] [] [] [] [] []]; reflexivity. Qed.

Lemma lower_idemp s : lower (lower s) = lower s.
Proof. induction s as [|c s IH]; simpl; [done|]. by rewrite ascii_lower_idemp, IH. Qed.

Lemma Forall_only_elem o ks evs o' e :
  Forall (only o ks) evs → (o', e) ∈ evs → o' = o ∧ kind e ∈ ks.
Proof. intros H Hin. rewrite Forall_forall in H. by destruct (H _ Hin). Qed.

Lemma NoDup_fst_filter {A B} (f : A * B → bool) (l : list (A * B)) :
  NoDup l.*1 → NoDup (List.filter f l).*1.
Proof.
  induction l as [|x l IH]; simpl; [done|]. intros [Hx Hl]%NoDup_cons.
  destruct (f x); simpl; [|by apply IH]. apply NoDup_cons. split; [|by apply IH].
  intros Hin. apply Hx. apply list_elem_of_fmap in Hin as (y & -> & Hy).
  apply list_elem_of_fmap. exists y. split; [done|].
  apply list_elem_of_In in Hy. apply filter_In in Hy as [Hy _]. by apply list_elem_of_In.
Qed.

Lemma for_each_cons_run {A} (x : A) xs (body : A → M unit) w :
  result_of (body x w) = Ok tt →
  for_each (x :: xs) body w =
    (result_of (for_each xs body (world_of (body x w))),
     world_of (for_each xs body (world_of (body x w))),
     events_of (body x w) ++ events_of (for_each xs body (world_of (body x w)))).
Proof. intros H. simpl. rewrite bind_run, H. done. Qed.

Ltac not_bookkeeping :=
  rewrite not_elem_of_union, !not_elem_of_singleton; done.

(** ** The request of a checkout *)

Lemma merge_parameter_lookup params k v j :
  j ∉ ({[ "discord_role_id"; "duration_days" ]} : gset string) →
  merge_parameter params (k, v) !! j =
    if bool_decide (k = j) then (if is_none v then params !! j else Some (param_value v))
    else params !! j.
Proof.
  intros Hj. unfold merge_parameter; simpl.
  case_bool_decide as Hk; case_bool_decide as Hkj; subst; try done.
  - destruct (is_none v); [done|]. by rewrite lookup_insert_eq.
  - destruct (is_none v); [done|]. by rewrite lookup_insert_ne.
Qed.

Lemma foldl_merge_lookup (l : list (string * pyval)) init j :
  j ∉ ({[ "discord_role_id"; "duration_days" ]} : gset string) →
  NoDup l.*1 →
  foldl merge_parameter init l !! j =
    match (list_to_map l : pydict) !! j with
    | Some v => if is_none v then init !! j else Some (param_value v)
    | None => init !! j
    end.
Proof.
  intros Hj. revert init. induction l as [|[k v] l IH]; intros init Hnd; simpl; [done|].
  apply NoDup_cons in Hnd as [Hk Hnd]. rewrite IH by done.
  rewrite merge_parameter_lookup by done.
  case_bool_decide as Hkj; subst.
  - rewrite lookup_insert_eq.
    rewrite (not_elem_of_list_to_map_1 (M:=gmap string)) by done. done.
  - by rewrite lookup_insert_ne.
Qed.

Lemma checkout_params_lookup profile gs j :
  j ∉ ({[ "discord_role_id"; "duration_days" ]} : gset string) →
  checkout_params profile gs !! j =
    let init : pydict := (<["direct" := PyStr "false"]>
       (<["address" := PyStr (payout_address gs)]>
          (<["ticker_to" := PyStr (ticker_to gs)]>
             (<["network_to" := PyStr (network_to gs)]> ∅)))) in
    match pp_parameters (profile_row profile) !! j with
    | Some v => if is_none v then init !! j else Some (param_value v)
    | None => init !! j
    end.
Proof.
  intros Hj. unfold checkout_params. rewrite foldl_merge_lookup; [|done|apply NoDup_fst_map_to_list].
  by rewrite list_to_map_to_list.
Qed.

Lemma checkout_params_tenant_keys profile gs :
  checkout_params profile gs !! "address"
  = Some (effective profile "address" (payout_address gs))
  ∧ checkout_params profile gs !! "ticker_to"
    = Some (effective profile "ticker_to" (ticker_to gs))
  ∧ checkout_params profile gs !! "network_to"
    = Some (effective profile "network_to" (network_to gs)).
Proof.
  unfold effective. repeat split; (rewrite checkout_params_lookup by not_bookkeeping); cbn zeta;
  destruct (pp_parameters (profile_row profile) !! _) as [v|]; try destruct (is_none v); done.
Qed.

(** ** Row ids *)

Lemma foldr_max_ge (l : list Z) (x0 j : Z) : j ∈ l → j ≤ foldr Z.max x0 l.
Proof.
  induction l as [|i l IH]; simpl; intros Hj; [by apply elem_of_nil in Hj|].
  apply elem_of_cons in Hj as [->|Hj]; [lia|]. specialize (IH Hj). lia.
Qed.

Lemma foldr_max_elem (l : list Z) (x0 : Z) : foldr Z.max x0 l ∈ x0 :: l.
Proof.
  induction l as [|i l IH]; simpl; [apply list_elem_of_here|].
  destruct (Z.max_spec i (foldr Z.max x0 l)) as [[_ ->]|[_ ->]].
  - apply elem_of_cons in IH as [->|IH]; [apply list_elem_of_here|].
    by do 2 apply list_elem_of_further.
  - apply list_elem_of_further, list_elem_of_here.
Qed.

Lemma max_rowid_ge {R} (t : gmap Z R) (j : Z) : is_Some (t !! j) → j ≤ max_rowid t.
Proof.
  intros [r Hr]. unfold max_rowid. apply foldr_max_ge.
  apply list_elem_of_fmap. exists (j, r). split; [done|]. by apply elem_of_map_to_list.
Qed.

Lemma next_rowid_fresh {R} (seq : Z) (t : gmap Z R) : t !! next_rowid seq t = None.
Proof.
  destruct (t !! next_rowid seq t) eqn:E; [|done].
  assert (next_rowid seq t ≤ max_rowid t) by (apply max_rowid_ge; eauto).
  unfold next_rowid in *. lia.
Qed.

Lemma select_last_session_id_insert (t : gmap Z SessionRow) g u a k row :
  same_checkout g u a (k, row) = true →
  (∀ j, is_Some (t !! j) → j < k) →
  select_last_session_id g u a (<[k := row]> t) = Some k.
Proof.
  intros Hsame Hmax. unfold select_last_session_id.
  set (ids := (List.filter _ _).*1).
  assert (Hk : k ∈ ids).
  { apply list_elem_of_fmap. exists (k, row). split; [done|].
    apply list_elem_of_In, filter_In. split; [|done].
    apply list_elem_of_In, elem_of_map_to_list, lookup_insert_eq. }
  assert (Hle : ∀ j, j ∈ ids → j ≤ k).
  { intros j Hj. apply list_elem_of_fmap in Hj as [[j' r] [-> Hj]].
    apply list_elem_of_In, filter_In in Hj as [Hj _].
    apply list_elem_of_In, elem_of_map_to_list in Hj. simpl.
    destruct (decide (k = j')) as [->|Hne]; [lia|].
    rewrite lookup_insert_ne in Hj by done. apply Z.lt_le_incl, Hmax. eauto. }
  destruct ids as [|i ids']; [by apply elem_of_nil in Hk|].
  f_equal. apply Z.le_antisymm.
  - apply Hle, foldr_max_elem.
  - apply elem_of_cons in Hk as [->|Hk].
    + clear. induction ids'; simpl; lia.
    + pose proof (foldr_max_ge ids' i k Hk). lia.
Qed.

Lemma create_payment_session_run env g u pid a st su cu wh ex payload w :
  let rowid := next_rowid (session_seq (store w)) (payment_sessions (store w)) in
  let row := {| sr_guild_id := g; sr_user_id := u; sr_payment_profile_id := pid;
                sr_anonpay_id := a; sr_status := st; sr_status_url := su;
                sr_checkout_url := cu; sr_webhook_url := wh; sr_expires_at := ex;
                sr_created_at := time_at env (ticks w);
                sr_last_status_check := Some (time_at env (ticks w));
                sr_last_status := Some st; sr_last_payload := Some payload |} in
  create_payment_session env g u pid a st su cu wh ex payload w =
    if bool_decide (is_Some (payment_profiles (store w) !! pid)) then
      (Ok rowid,
       {| store := with_sessions (<[rowid := row]> (payment_sessions (store w))) rowid (store w);
          ticks := S (ticks w); calls := calls w |}, [])
    else
      (Raise (IntegrityError "FOREIGN KEY constraint failed"),
       {| store := store w; ticks := S (ticks w); calls := calls w |}, []).
Proof.
  intros rowid row. unfold create_payment_session, bind, utc_now, get_store, set_store, ret. simpl.
  destruct (bool_decide (is_Some (payment_profiles (store w) !! pid))); [|done]. simpl.
  fold rowid. fold row.
  rewrite select_last_session_id_insert; [done| |].
  - unfold same_checkout; simpl. rewrite !Z.eqb_refl, String.eqb_refl. done.
  - intros j Hj. apply max_rowid_ge in Hj. unfold rowid, next_rowid. lia.
Qed.

(** ** Creating a session *)

Section Creation.
Context (env : Env).

Lemma checkout_params_direct p gs : is_Some (checkout_params p gs !! "direct").
Proof.
  rewrite checkout_params_lookup by not_bookkeeping. cbn zeta.
  destruct (pp_parameters (profile_row p) !! "direct") as [v|]; [|by eexists].
  destruct (is_none v); by eexists.
Qed.

Lemma create_checkout_run p gs w :
  create_checkout env (checkout_params p gs) w =
    (of_answer (checkout_at env (calls w) (checkout_params p gs)),
     {| store := store w; ticks := ticks w; calls := S (calls w) |},
     [(OfCheckout, CreateCheckout (checkout_params p gs)
                     (checkout_at env (calls w) (checkout_params p gs)))]).
Proof.
  unfold create_checkout. rewrite bool_decide_eq_true_2 by apply checkout_params_direct. done.
Qed.

Lemma start_payment_session_run g u p gs w :
  let params := checkout_params p gs in
  let answer := checkout_at env (calls w) params in
  let w1 := {| store := store w; ticks := ticks w; calls := S (calls w) |} in
  let ev := [(OfCheckout, CreateCheckout params answer)] in
  start_payment_session env g u p gs w =
    match answer with
    | Failure msg => (Raise (AnonpayError msg), w1, ev)
    | Reply response =>
        if String.eqb (py_str (dict_get response "id")) "" then
          (Raise (AnonpayError "AnonPay response missing identifier."), w1, ev)
        else if negb (truthy (dict_get response "status_url"))
                || negb (truthy (dict_get response "url")) then
          (Raise (AnonpayError "AnonPay response missing required URLs."), w1, ev)
        else if bool_decide (is_Some (payment_profiles (store w) !! profile_id p)) then
          let now := time_at env (ticks w) in
          let rowid := next_rowid (session_seq (store w)) (payment_sessions (store w)) in
          let status := py_str (dict_get_or response "status" (PyStr "waiting")) in
          let webhook := sql_text (dict_get (pp_parameters (profile_row p)) "webhook") in
          let row :=
            {| sr_guild_id := g; sr_user_id := u; sr_payment_profile_id := profile_id p;
               sr_anonpay_id := py_str (dict_get response "id"); sr_status := status;
               sr_status_url := text (dict_get response "status_url");
               sr_checkout_url := text (dict_get response "url");
               sr_webhook_url := webhook;
               sr_expires_at := now + minutes (session_ttl_minutes env);
               sr_created_at := time_at env (S (ticks w));
               sr_last_status_check := Some (time_at env (S (ticks w)));
               sr_last_status := Some status; sr_last_payload := Some response |} in
          (Ok (as_session (rowid, row), response),
           {| store := with_sessions (<[rowid := row]> (payment_sessions (store w))) rowid (store w);
              ticks := S (S (ticks w)); calls := S (calls w) |}, ev)
        else
          (Raise (IntegrityError "FOREIGN KEY constraint failed"),
           {| store := store w; ticks := S (S (ticks w)); calls := S (calls w) |}, ev)
    end.
Proof.
  intros params answer w1 ev. unfold start_payment_session. rewrite bind_run.
  fold params. subst params. rewrite create_checkout_run. fold answer.
  cbn [result_of world_of events_of fst snd]. fold ev. fold w1.
  destruct answer as [response|msg]; [|done]. cbn [of_answer].
  destruct (String.eqb _ ""); [by rewrite app_nil_r|].
  destruct (negb _ || negb _); [by rewrite app_nil_r|].
  rewrite bind_run. cbn [utc_now result_of world_of events_of fst snd].
  rewrite bind_run, create_payment_session_run.
  subst w1 ev. cbn.
  destruct (bool_decide (is_Some (payment_profiles (store w) !! profile_id p)));
    cbn; by rewrite ?app_nil_r.
Qed.

(** C4, amended.  The request that [start_payment_session] sends carries,
    under ["address"], ["ticker_to"] and ["network_to"], the value of the
    guild settings unless the profile has a parameter under the same key
    that is not [None]; such a parameter takes the place of the tenant's
    value.  The precedence is: profile parameters, then tenant settings
    and the default. *)
Theorem request_prefers_profile_parameters g u profile gs w :
  events_of (start_payment_session env g u profile gs w)
    = [(OfCheckout,
        CreateCheckout (checkout_params profile gs)
          (checkout_at env (calls w) (checkout_params profile gs)))]
  ∧ checkout_params profile gs !! "address"
    = Some (effective profile "address" (payout_address gs))
  ∧ checkout_params profile gs !! "ticker_to"
    = Some (effective profile "ticker_to" (ticker_to gs))
  ∧ checkout_params profile gs !! "network_to"
    = Some (effective profile "network_to" (network_to gs)).
Proof.
  split; [|apply checkout_params_tenant_keys].
  rewrite start_payment_session_run. cbn zeta.
  destruct (checkout_at env (calls w) (checkout_params profile gs)) as [response|msg]; [|done].
  destruct (String.eqb _ ""); [done|].
  destruct (negb _ || negb _); [done|]. by destruct (bool_decide _).
Qed.


(** C7.  Whenever [start_payment_session] raises, the store is the one it
    started from: no session row is written. *)
Theorem failed_creation_persists_nothing g u p gs w :
  is_raise (result_of (start_payment_session env g u p gs w)) = true →
  store (world_of (start_payment_session env g u p gs w)) = store w.
Proof.
  rewrite start_payment_session_run. cbn zeta.
  destruct (checkout_at env (calls w) (checkout_params p gs)) as [response|msg]; [|done].
  destruct (String.eqb _ ""); [done|].
  destruct (negb _ || negb _); [done|].
  by destruct (bool_decide (is_Some (payment_profiles (store w) !! profile_id p))).
Qed.

End Creation.

(** ** Frames: what a computation may touch and emit *)

Section Frames.
Context (P : Event → Prop) (I J : Z → Prop).

Lemma frames_ret {A} (a : A) : frames P I J (ret a).
Proof. intros w. split; [reflexivity|constructor]. Qed.

Lemma frames_raise {A} e : frames P I J (@raise A e).
Proof. intros w. split; [reflexivity|constructor]. Qed.

Lemma frames_bind {A B} (m : M A) (k : A → M B) :
  frames P I J m → (∀ a, frames P I J (k a)) → frames P I J (bind m k).
Proof.
  intros Hm Hk w. rewrite bind_run. destruct (Hm w) as [HR HP].
  destruct (result_of (m w)) as [a|e]; [|done].
  destruct (Hk a (world_of (m w))) as [HR' HP']. split.
  - by etrans.
  - by apply Forall_app.
Qed.

Lemma frames_emit o e : P (o, e) → frames P I J (emit o e).
Proof. intros He w. split; [reflexivity|]. by repeat constructor. Qed.

Lemma frames_when b (m : M unit) : frames P I J m → frames P I J (when b m).
Proof. destruct b; [done|]. intros _. apply frames_ret. Qed.

Lemma frames_try_except {A} (m : M A) h :
  frames P I J m → (∀ msg, frames P I J (h msg)) → frames P I J (try_except m h).
Proof.
  intros Hm Hh w. unfold try_except. destruct (Hm w) as [HR HP].
  destruct (m w) as [[[a|[msg|msg| |msg]] w1] ev1] eqn:E; simpl in *; try done.
  destruct (Hh msg w1) as [HR' HP']. destruct (h msg w1) as [[r w2] ev2]. simpl in *.
  split; [by etrans|by apply Forall_app].
Qed.

Lemma frames_for_each {A} (xs : list A) (body : A → M unit) :
    (∀ x, x ∈ xs → frames P I J (body x)) → frames P I J (for_each xs body).
Proof.
    induction xs as [|x xs IH]; intros H; simpl; [apply frames_ret|].
    apply frames_bind; [apply H, list_elem_of_here|]. intros _. apply IH.
  intros y Hy. by apply H, list_elem_of_further.
Qed.
End Frames.

Lemma frames_mono (P P' : Event → Prop) (I I' J J' : Z → Prop) {A} (m : M A) :
  (∀ e, P e → P' e) → (∀ j, I' j → I j) → (∀ j, J' j → J j) →
  frames P I J m → frames P' I' J' m.
Proof.
  intros HP HS HU Hm w. destruct (Hm w). split; [by eapply keeps_weaken|].
  eapply Forall_impl; eauto.
Qed.

(** ** Totality: computations that do not raise *)

Lemma total_ret {A} (a : A) : total (ret a).
Proof. done. Qed.

Lemma total_bind {A B} (m : M A) (k : A → M B) :
  total m → (∀ a, total (k a)) → total (bind m k).
Proof.
  intros Hm Hk w. rewrite bind_run. specialize (Hm w).
  destruct (result_of (m w)) as [a|e]; [apply Hk|done].
Qed.

Lemma total_emit o e : total (emit o e).
Proof. done. Qed.

Lemma total_when b (m : M unit) : total m → total (when b m).
Proof. by destruct b. Qed.

Lemma total_try_except {A} (m : M A) h :
  gateway_only m → (∀ msg, total (h msg)) → total (try_except m h).
Proof.
  intros Hm Hh w. unfold try_except. specialize (Hm w). unfold result_of in *.
  destruct (m w) as [[[a|[msg|msg| |msg]] w1] ev1]; simpl in *; try done.
  specialize (Hh msg w1). unfold result_of in Hh. by destruct (h msg w1) as [[??]?].
Qed.

Lemma total_for_each {A} (xs : list A) (body : A → M unit) :
  (∀ x, total (body x)) → total (for_each xs body).
Proof.
  intros H. induction xs as [|x xs IH]; simpl; [done|]. apply total_bind; [apply H|done].
Qed.

Lemma total_ok {A} (m : M A) w : total m → ∃ a, result_of (m w) = Ok a.
Proof. intros H. specialize (H w). destruct (result_of (m w)); [eauto|done]. Qed.

(** ** The statements and the outbound calls *)

Section Primitives.
Context (env : Env) (P : Event → Prop).

Lemma frames_utc_now I J : frames P I J (utc_now env).
Proof. intros w. split; [|constructor]. repeat split; simpl; auto. Qed.

Lemma frames_outbound {A} I J o (answer : nat → Answer A) effect :
  (∀ a, P (o, effect a)) → frames P I J (outbound o answer effect).
Proof. intros H w. split; [by repeat split|]. repeat constructor. apply H. Qed.

Lemma frames_post_webhook I J o url payload :
  P (o, PostWebhook url payload) → frames P I J (post_webhook env o url payload).
Proof. intros H. by apply frames_outbound. Qed.

Lemma frames_fetch_status I J o url :
  (∀ a, P (o, FetchStatus url a)) → frames P I J (fetch_status env o url).
Proof. intros H. by apply frames_outbound. Qed.

Lemma frames_delete_payment_session J k :
  frames P (other k) J (delete_payment_session k).
Proof.
  intros w. split; [|constructor]. repeat split; simpl; auto.
  intros j Hj. by rewrite lookup_delete_ne.
Qed.

Lemma frames_get_payment_profile_by_id I J k :
  frames P I J (get_payment_profile_by_id k).
Proof. intros w. split; [|constructor]. by repeat split. Qed.

Lemma db_upsert_subscription_run g u p role ex wh w :
  let t := subscriptions (store w) in
  let conflict := same_subscriber g u p in
  let rowid := next_rowid (subscription_seq (store w)) t in
  db_upsert_subscription env g u p role ex wh w =
  if existsb (λ kr : Z * SubscriptionRow, conflict kr.2) (map_to_list t) then
    (Ok tt,
     {| store := with_subscriptions
                   ((λ r, if conflict r then renew role ex wh r else r) <$> t) rowid (store w);
        ticks := S (ticks w); calls := calls w |}, [])
  else if bool_decide (is_Some (payment_profiles (store w) !! p)) then
    (Ok tt,
     {| store := with_subscriptions
                   (<[rowid := {| sub_guild_id := g; sub_user_id := u;
                                  sub_payment_profile_id := p;
                                  sub_role_id := role; sub_expires_at := ex;
                                  sub_created_at := time_at env (ticks w);
                                  sub_last_notified_at := None;
                                  sub_webhook_url := wh |}]> t)
                   rowid (store w);
        ticks := S (ticks w); calls := calls w |}, [])
  else
    (Raise (IntegrityError "FOREIGN KEY constraint failed"),
     {| store := store w; ticks := S (ticks w); calls := calls w |}, []).
Proof.
  cbn zeta. unfold db_upsert_subscription, bind, utc_now, get_store, set_store, raise. simpl.
  destruct (existsb _ _); [done|]. by destruct (bool_decide _).
Qed.

(** an upsert is carried out, or refused for a profile without a row *)
Lemma db_upsert_subscription_cases g u p role ex wh w :
  ∃ r w', db_upsert_subscription env g u p role ex wh w = (r, w', [])
    ∧ (r = Ok tt
       ∨ r = Raise (IntegrityError "FOREIGN KEY constraint failed")
         ∧ payment_profiles (store w) !! p = None).
Proof.
  rewrite db_upsert_subscription_run. cbn zeta.
  destruct (existsb _ _); [by eauto|].
  case_bool_decide as Hp; [by eauto|].
  do 2 eexists. split; [done|]. right. split; [done|].
  apply eq_None_not_Some. done.
Qed.

Lemma frames_db_upsert_subscription I g u p role ex wh :
  frames P I none (db_upsert_subscription env g u p role ex wh).
Proof.
  intros w. rewrite db_upsert_subscription_run. cbn zeta.
  destruct (existsb _ _); [|destruct (bool_decide _)];
    (split; [|constructor]); repeat split; simpl; auto; try done; lia.
Qed.

End Primitives.

Lemma only_weaken o ks ks' ev : ks ⊆ ks' → only o ks ev → only o ks' ev.
Proof. intros Hk [Ho He]. split; [done|]. by apply Hk. Qed.

(** ** Tactics *)

Ltac solve_elem :=
  repeat first [apply list_elem_of_here | apply list_elem_of_further].

Ltac solve_incl :=
  let k := fresh "k" in
  let Hk := fresh "Hk" in
  intros k Hk;
  repeat (apply elem_of_cons in Hk as [->|Hk]; [solve_elem|]);
  by apply elem_of_nil in Hk.

Ltac solve_kind :=
  split; [reflexivity | simpl; repeat first [apply list_elem_of_here | apply list_elem_of_further]].

Create HintDb engine.

Ltac frames_tac :=
  repeat first
    [ solve [auto 1 with engine]
    | simple apply frames_ret | simple apply frames_raise
    | simple apply frames_bind; [|intros ?]
    | simple apply frames_when
    | simple apply frames_try_except; [|intros ?]
    | simple apply frames_emit; solve_kind
    | simple apply frames_utc_now
    | simple apply frames_outbound; intros ?; solve_kind
    | simple apply frames_post_webhook; solve_kind
    | simple apply frames_fetch_status; intros ?; solve_kind
    | simple apply frames_get_payment_profile_by_id
    | match goal with |- frames _ _ _ (match ?x with _ => _ end) => destruct x end ].

Ltac total_tac :=
  repeat first
    [ solve [auto 1 with engine]
    | simple apply total_ret
    | simple apply total_bind; [|intros ?]
    | simple apply total_when
    | simple apply total_emit
    | match goal with |- total (match ?x with _ => _ end) => destruct x end ].

(** ** Notices, grants and subscriptions *)

Section Functions.
Context (env : Env).

Lemma total_utc_now : total (utc_now env).
Proof. done. Qed.
Hint Resolve total_utc_now : engine.

Lemma gateway_only_outbound {A} o (answer : nat → Answer A) effect :
  gateway_only (outbound o answer effect).
Proof. intros w. unfold outbound, result_of; simpl. by destruct (answer (calls w)). Qed.

Lemma total_delivery o url payload msg :
  total (try_except (post_webhook env o url payload) (λ _, emit o (LogWarning msg))).
Proof. apply total_try_except; [apply gateway_only_outbound|done]. Qed.

Lemma frames_notify_user I J s msg title :
  frames (only (OfSession (ps_id s)) [KNotify; KSend]) I J
    (_notify_user env s msg title).
Proof. unfold _notify_user. frames_tac. Qed.

Lemma total_notify_user s msg title : total (_notify_user env s msg title).
Proof. unfold _notify_user. total_tac. Qed.

(** An upsert for a profile that has a row does not raise. *)
Lemma db_upsert_subscription_ok g u p role ex wh w :
  is_Some (payment_profiles (store w) !! p) →
  result_of (db_upsert_subscription env g u p role ex wh w) = Ok tt.
Proof.
  intros Hp. rewrite db_upsert_subscription_run. cbn zeta.
  destruct (existsb _ _); [done|]. by rewrite bool_decide_eq_true_2.
Qed.

Lemma upsert_subscription_ok s profile wh w :
  int_truthy (pp_duration_days (profile_row profile)) = true →
  is_Some (payment_profiles (store w) !! ps_profile_id s) →
  is_raise (result_of (upsert_subscription env s profile wh w)) = false.
Proof.
  intros H Hp. unfold upsert_subscription. destruct (pp_duration_days _) as [d|]; [|done].
  simpl in H. destruct (d =? 0); [done|].
  rewrite bind_run. cbn [utc_now result_of world_of events_of fst snd].
  rewrite bind_run, db_upsert_subscription_ok by done. done.
Qed.

Lemma frames_upsert_subscription P I s profile wh :
  frames P I none (upsert_subscription env s profile wh).
Proof.
  unfold upsert_subscription. frames_tac. apply frames_db_upsert_subscription.
Qed.

Lemma frames_handle_successful_payment I s guild profile payload :
  frames (only (OfSession (ps_id s)) [KAddRoles; KWebhook; KLog]) I none
    (_handle_successful_payment env s guild profile payload).
Proof.
  unfold _handle_successful_payment. frames_tac.
  apply frames_upsert_subscription.
Qed.

(** The handler of a finished payment does not raise when the profile it
    is given is the one read from the store. *)
Lemma handle_successful_payment_ok s guild profile payload w :
  (is_Some profile → is_Some (payment_profiles (store w) !! ps_profile_id s)) →
  is_raise (result_of (_handle_successful_payment env s guild profile payload w)) = false.
Proof.
  intros Hp. unfold _handle_successful_payment.
  destruct guild as [g|]; [|done]. destruct profile as [p|]; [|done].
  specialize (Hp (mk_is_Some _ _ eq_refl)).
  rewrite bind_run.
  set (grant := match (if int_truthy (pp_role_id (profile_row p))
                       then pp_role_id (profile_row p) ≫= get_role g else None),
                      get_member g (ps_user_id s) with
                | Some role, Some member =>
                    emit (OfSession (ps_id s)) (AddRoles (ps_guild_id s) member role)
                | _, _ => ret tt
                end).
  assert (Hgrant : result_of (grant w) = Ok tt ∧ world_of (grant w) = w).
  { subst grant. destruct (if int_truthy _ then _ else _); [|done].
    by destruct (get_member g (ps_user_id s)). }
  destruct Hgrant as [-> ->]. cbn [result_of world_of events_of fst snd].
  rewrite bind_run.
  assert (Hsub : is_raise (result_of
            (when (int_truthy (pp_duration_days (profile_row p)))
               (bind (upsert_subscription env s p
                        (text_or (ps_webhook_url s)
                           (dict_get (pp_parameters (profile_row p)) "webhook")))
                     (λ _, ret tt)) w)) = false).
  { destruct (int_truthy (pp_duration_days (profile_row p))) eqn:E; [|done]. simpl.
    rewrite bind_run.
    pose proof (upsert_subscription_ok s p
                  (text_or (ps_webhook_url s)
                     (dict_get (pp_parameters (profile_row p)) "webhook")) w E Hp) as Hok.
    by destruct (result_of (upsert_subscription env s p _ w)). }
  destruct (result_of (when _ _ w)) as [[]|e] eqn:E; [|done].
  cbn [result_of world_of events_of fst snd].
  apply total_when, total_delivery.
Qed.
End Functions.

Lemma frames_only_weaken o ks ks' I J {A} (m : M A) :
  ks ⊆ ks' → frames (only o ks) I J m → frames (only o ks') I J m.
Proof. intros Hk. apply frames_mono; [|done|done]. intros e. by apply only_weaken. Qed.

(** ** The transition handler *)

Section Handler.
Context (env : Env).

(** the webhook of a status change leaves the store and the clock alone *)
Lemma session_webhook_run (s : PaymentSession) payload w :
  let o := OfSession (ps_id s) in
  let hook :=
    match ps_webhook_url s with
    | Some url =>
        when (negb (String.eqb url ""))
          (try_except
             (post_webhook env o url
                (<["discord_id" := PyStr (pretty (ps_user_id s))]> payload))
             (λ exc, emit o (LogWarning "Webhook delivery failed for session")))
    | None => ret tt
    end in
  ∃ w1 pre, hook w = (Ok tt, w1, pre) ∧ store w1 = store w ∧ ticks w1 = ticks w
            ∧ Forall (only o [KWebhook; KLog]) pre.
Proof.
  cbn zeta. destruct (ps_webhook_url s) as [url|]; [|by exists w, []].
  destruct (String.eqb url ""); simpl; [by exists w, []|].
  unfold try_except, post_webhook, outbound, emit. simpl.
  match goal with |- context [webhook_at env ?n ?u ?p] =>
    destruct (webhook_at env n u p) as [[]|] end;
    simpl; eexists _, _; (split; [reflexivity|]); split_and!; try done;
    repeat constructor; solve_elem.
Qed.

Lemma handle_status_change_run s st payload w :
  let o := OfSession (ps_id s) in
  let x := _handle_status_change env s st payload w in
  ∃ rest,
    events_of x = (o, StatusChange st) :: rest
    ∧ result_of x = Ok tt
    ∧ Forall (only o [KWebhook; KLog; KAddRoles; KNotify; KSend]) rest
    ∧ keeps any none w (world_of x)
    ∧ (st ≠ "finished"%string →
         Forall (only o [KWebhook; KLog; KNotify; KSend]) rest ∧ keeps any any w (world_of x)).
Proof.
  intros o x. subst x. unfold _handle_status_change. rewrite bind_run. simpl.
  match goal with |- context [events_of (?k ?w)] => set (K := k) end.
  assert (Hfin : frames (only o [KWebhook; KLog; KAddRoles; KNotify; KSend]) any none K).
  { subst K. frames_tac.
    all: first
      [ eapply frames_only_weaken; [|apply frames_handle_successful_payment]; solve_incl
      | eapply frames_only_weaken; [|apply frames_notify_user]; solve_incl ]. }
  assert (Htot : is_raise (result_of (K w)) = false).
  { subst K. cbn beta.
    destruct (session_webhook_run s payload w) as (w1 & pre & Hrun & Hst & _).
    cbn zeta in Hrun. rewrite bind_run, Hrun. cbn [result_of world_of events_of fst snd].
    unfold get_guild, get_payment_profile_by_id, db_get_payment_profile_by_id.
    destruct (guilds env !! ps_guild_id s) as [guild|].
    - rewrite bind_query.
      destruct (String.eqb st "finished").
      + apply handle_successful_payment_ok.
        destruct (payment_profiles (store w1) !! ps_profile_id s); [done|].
        by intros [? ?].
      + destruct (String.eqb st "paid partially"); [apply total_notify_user|].
        case_bool_decide; [apply total_notify_user|done].
    - rewrite bind_run. cbn [ret result_of world_of events_of fst snd].
      destruct (String.eqb st "finished"); [done|].
      destruct (String.eqb st "paid partially"); [apply total_notify_user|].
      case_bool_decide; [apply total_notify_user|done]. }
  assert (Hother : st ≠ "finished"%string →
            frames (only o [KWebhook; KLog; KNotify; KSend]) any any K).
  { intros Hst. subst K. apply String.eqb_neq in Hst. rewrite Hst. frames_tac.
    all: eapply frames_only_weaken; [|apply frames_notify_user]; solve_incl. }
  exists (events_of (K w)). destruct (Hfin w) as [Hk Hev].
  assert (Hok : result_of (K w) = Ok tt).
  { destruct (result_of (K w)) as [[]|]; done. }
  split_and!; [done|done|done|done|].
  intros Hst. destruct (Hother Hst w). done.
Qed.
End Handler.

(** ** One turn of the reconciliation loop *)

Section Turn.
Context (env : Env).

Lemma frames_handle_status_change s st payload :
  frames (only (OfSession (ps_id s)) handler_kinds) any none
    (_handle_status_change env s st payload).
Proof.
  intros w. destruct (handle_status_change_run env s st payload w)
    as (rest & Hev & _ & Hrest & Hk & _).
  split; [done|]. rewrite Hev. constructor; [solve_kind|].
  eapply Forall_impl; [done|]. intros e. apply only_weaken. solve_incl.
Qed.

Lemma total_handle_status_change s st payload :
  total (_handle_status_change env s st payload).
Proof.
  intros w. destruct (handle_status_change_run env s st payload w)
    as (rest & _ & Hok & _). by rewrite Hok.
Qed.

Lemma frames_after_fetch s payload :
  frames (only (OfSession (ps_id s)) handler_kinds) (other (ps_id s)) none
    (after_fetch env s payload).
Proof.
  unfold after_fetch. frames_tac.
  - eapply frames_mono; [| | |apply (frames_handle_status_change (refreshed _ _ s))]; done.
  - apply frames_delete_payment_session.
Qed.

Lemma total_after_fetch s payload : total (after_fetch env s payload).
Proof.
  unfold after_fetch. total_tac; [apply total_handle_status_change|done].
Qed.

Lemma process_session_expired s w :
  expired_locally s (time_at env (ticks w)) = true →
  process_session env s w =
    bind (purge_session (ps_id s))
      (λ _, _notify_user env s "Payment session expired before completion."
              "Payment Expired") (tick w).
Proof.
  intros H. unfold process_session. unfold bind at 1. simpl.
  unfold expired_locally in H. rewrite H.
  by destruct (bind _ _ _) as [[??]?].
Qed.

Lemma process_session_failed s w msg :
  expired_locally s (time_at env (ticks w)) = false →
  status_at env (calls w) (ps_status_url s) = Failure msg →
  process_session env s w =
    (Ok tt, {| store := store w; ticks := S (ticks w); calls := S (calls w) |},
     [(OfSession (ps_id s), FetchStatus (ps_status_url s) (Failure msg));
      (OfSession (ps_id s), LogWarning "Failed to refresh status for session")]).
Proof.
  intros H Hf. unfold process_session. unfold bind at 1. simpl.
  unfold expired_locally in H. rewrite H.
  unfold bind, try_except, refresh_session_status, fetch_status, outbound, bind; simpl.
  rewrite Hf. simpl. done.
Qed.

Lemma process_session_fetched s w payload :
  expired_locally s (time_at env (ticks w)) = false →
  status_at env (calls w) (ps_status_url s) = Reply payload →
  let x := after_fetch env s payload (after_refresh env s payload w) in
  process_session env s w =
    (result_of x, world_of x,
     (OfSession (ps_id s), FetchStatus (ps_status_url s) (Reply payload)) :: events_of x).
Proof.
  intros H Hf x. unfold process_session. unfold bind at 1. simpl.
  unfold expired_locally in H. rewrite H.
  unfold bind at 1. unfold try_except, refresh_session_status, fetch_status, outbound.
  unfold bind at 1. unfold bind at 1. simpl. rewrite Hf. simpl.
  rewrite !lower_idemp. fold (fetched_status s payload).
  subst x. unfold after_fetch, after_refresh, bind, result_of, world_of, events_of.
  destruct (when _ _ _) as [[[[]|e] w1] ev1]; simpl; [|done].
  by destruct (when _ _ _) as [[??]?].
Qed.
End Turn.

(** ** The reconciliation loop *)

Section SessionLoop.
Context (env : Env).

Lemma process_session_step s w :
  let x := process_session env s w in
  result_of x = Ok tt
  ∧ keeps (other (ps_id s)) none w (world_of x)
  ∧ Forall (only (OfSession (ps_id s)) session_kinds) (events_of x).
Proof.
  intros x. subst x.
  destruct (expired_locally s (time_at env (ticks w))) eqn:Hexp.
  - rewrite process_session_expired by done.
    assert (Hfr : frames (only (OfSession (ps_id s)) session_kinds) (other (ps_id s)) none
              (bind (purge_session (ps_id s))
                 (λ _, _notify_user env s "Payment session expired before completion."
                         "Payment Expired"))).
    { frames_tac; [apply frames_delete_payment_session|].
      eapply frames_only_weaken; [|apply frames_notify_user]. solve_incl. }
    assert (Htot : total (bind (purge_session (ps_id s))
                 (λ _, _notify_user env s "Payment session expired before completion."
                         "Payment Expired"))).
    { total_tac; [done|apply total_notify_user]. }
    destruct (Hfr (tick w)) as [Hk Hev]. destruct (total_ok _ (tick w) Htot) as [[] Hok].
    split_and!; [done| |done]. etrans; [|done]. repeat split; simpl; auto.
  - destruct (status_at env (calls w) (ps_status_url s)) as [payload|msg] eqn:Hf.
    + rewrite (process_session_fetched env s w payload) by done. cbn zeta.
      destruct (frames_after_fetch env s payload (after_refresh env s payload w)) as [Hk Hev].
      destruct (total_ok _ (after_refresh env s payload w) (total_after_fetch env s payload))
        as [[] Hok].
      unfold result_of at 1, world_of at 1, events_of at 1. simpl.
      split_and!; [done| |].
      * etrans; [|done]. repeat split; simpl; auto.
        intros j Hj. by rewrite lookup_alter_ne.
      * constructor; [solve_kind|]. eapply Forall_impl; [done|].
        intros e. apply only_weaken. solve_incl.
    + rewrite (process_session_failed env s w msg) by done.
      split_and!; [done| |].
      * repeat split; simpl; auto.
      * repeat constructor; simpl; solve_elem.
Qed.

Lemma total_process_session s : total (process_session env s).
Proof. intros w. destruct (process_session_step s w) as (H & _). by rewrite H. Qed.

Lemma frames_process_session s :
  frames (only (OfSession (ps_id s)) session_kinds) (other (ps_id s)) none
    (process_session env s).
Proof. intros w. by destruct (process_session_step s w) as (_ & ? & ?). Qed.

Lemma sessions_loop (L : list PaymentSession) w :
  let x := for_each L (process_session env) w in
  result_of x = Ok tt
  ∧ keeps (λ j, j ∉ ps_id <$> L) none w (world_of x)
  ∧ Forall (λ e, ∃ s, s ∈ L ∧ only (OfSession (ps_id s)) session_kinds e) (events_of x).
Proof.
  intros x. subst x.
  assert (Hfr : frames (λ e, ∃ s, s ∈ L ∧ only (OfSession (ps_id s)) session_kinds e)
                  (λ j, j ∉ ps_id <$> L) none (for_each L (process_session env))).
  { apply frames_for_each. intros s Hs.
    eapply frames_mono; [| | |apply (frames_process_session s)].
    - intros e He. eauto.
    - intros j Hj ->. apply Hj. apply list_elem_of_fmap. eauto.
    - done. }
  destruct (Hfr w) as [Hk Hev].
  destruct (total_ok _ w (total_for_each L _ total_process_session)) as [[] Hok].
  done.
Qed.

Lemma sessions_loop_silent (L : list PaymentSession) w sid e :
  sid ∉ ps_id <$> L →
  (OfSession sid, e) ∉ events_of (for_each L (process_session env) w).
Proof.
  intros Hsid Hin. destruct (sessions_loop L w) as (_ & _ & Hev).
  rewrite Forall_forall in Hev. destruct (Hev _ Hin) as (s & Hs & Ho & _).
  simpl in Ho. injection Ho as ->. apply Hsid, list_elem_of_fmap. eauto.
Qed.

Lemma NoDup_loaded w : NoDup (ps_id <$> loaded env w).
Proof.
  unfold loaded. rewrite <- list_fmap_compose.
  apply (NoDup_fst_filter _ _ (NoDup_fst_map_to_list (payment_sessions (store w)))).
Qed.

Lemma process_payment_updates_run w :
  _process_payment_updates env w = for_each (loaded env w) (process_session env) (tick w).
Proof.
  unfold _process_payment_updates, load_active_sessions, list_active_sessions.
  unfold bind at 1. unfold bind at 1. simpl.
  fold (loaded env w). fold (tick w).
  by destruct (for_each _ _ _) as [[??]?].
Qed.

Lemma elem_of_loaded w s :
  s ∈ loaded env w ↔
  ∃ row, payment_sessions (store w) !! ps_id s = Some row
         ∧ s = as_session (ps_id s, row)
         ∧ time_at env (ticks w) - minutes (session_ttl_minutes env * 2) ≤ sr_expires_at row.
Proof.
  unfold loaded. rewrite list_elem_of_fmap. split.
  - intros ([k row] & -> & Hin). apply list_elem_of_In, filter_In in Hin as [Hin Hc].
    apply list_elem_of_In, elem_of_map_to_list in Hin. simpl in *.
    exists row. split_and!; [done|done|lia].
  - intros (row & Hrow & Hs & Hc). exists (ps_id s, row). split; [done|].
    apply list_elem_of_In, filter_In. split.
    + by apply list_elem_of_In, elem_of_map_to_list.
    + simpl. lia.
Qed.
End SessionLoop.

(** ** Failed polls and local expiry *)

Section Reconcile.
Context (env : Env).

(** one turn: a failed fetch leaves the store as it was *)
Lemma process_session_failed_fetch s w o url msg :
  (o, FetchStatus url (Failure msg)) ∈ events_of (process_session env s w) →
  store (world_of (process_session env s w)) = store w.
Proof.
  destruct (expired_locally s (time_at env (ticks w))) eqn:Hexp.
  - rewrite process_session_expired by done. intros Hin.
    assert (Hfr : frames (only (OfSession (ps_id s)) [KNotify; KSend]) (other (ps_id s)) none
              (bind (purge_session (ps_id s))
                 (λ _, _notify_user env s "Payment session expired before completion."
                         "Payment Expired"))).
    { frames_tac; [apply frames_delete_payment_session|apply frames_notify_user]. }
    destruct (Hfr (tick w)) as [_ Hev].
    destruct (Forall_only_elem _ _ _ _ _ Hev Hin) as [_ Hk]. simpl in Hk.
    repeat (apply elem_of_cons in Hk as [?|Hk]; [done|]). by apply elem_of_nil in Hk.
  - destruct (status_at env (calls w) (ps_status_url s)) as [payload|msg'] eqn:Hf.
    + rewrite (process_session_fetched env s w payload) by done. cbn zeta.
      unfold events_of at 1. simpl. intros Hin.
      apply elem_of_cons in Hin as [Heq|Hin]; [done|].
      destruct (frames_after_fetch env s payload (after_refresh env s payload w)) as [_ Hev].
      destruct (Forall_only_elem _ _ _ _ _ Hev Hin) as [_ Hk]. simpl in Hk.
      repeat (apply elem_of_cons in Hk as [?|Hk]; [done|]). by apply elem_of_nil in Hk.
    + rewrite (process_session_failed env s w msg') by done. done.
Qed.

Lemma loop_failed_fetch (L : list PaymentSession) w sid url msg :
  NoDup (ps_id <$> L) →
  (OfSession sid, FetchStatus url (Failure msg)) ∈ events_of (for_each L (process_session env) w) →
  payment_sessions (store (world_of (for_each L (process_session env) w))) !! sid
  = payment_sessions (store w) !! sid.
Proof.
  revert w. induction L as [|s L IH]; intros w Hnd; [done|].
  rewrite fmap_cons in Hnd. apply NoDup_cons in Hnd as [Hs Hnd].
  destruct (process_session_step env s w) as (Hok & Hk & Hev).
  rewrite for_each_cons_run by done. cbn [result_of world_of events_of fst snd].
  intros [Hin|Hin]%elem_of_app.
  - destruct (Forall_only_elem _ _ _ _ _ Hev Hin) as [Ho _]. injection Ho as ->.
    destruct (sessions_loop env L (world_of (process_session env s w))) as (_ & Hk' & _).
    destruct Hk' as (_ & Hs' & _). rewrite Hs' by done.
    by rewrite (process_session_failed_fetch _ _ _ _ _ Hin).
  - rewrite IH by done.
    destruct Hk as (_ & Hs' & _). apply Hs'. intros ->.
    by apply (sessions_loop_silent env L _ _ _ Hs) in Hin.
Qed.

(** C6.  If the fetch-status call made for a session during a pass of
    [_process_payment_updates] fails, the row of that session is the same
    before and after the pass: its status, its last payload and every
    other column.  The failed call is read off the trace of the pass. *)
Theorem failed_poll_leaves_session_untouched w sid url msg :
  (OfSession sid, FetchStatus url (Failure msg)) ∈ events_of (_process_payment_updates env w) →
  payment_sessions (store (world_of (_process_payment_updates env w))) !! sid
  = payment_sessions (store w) !! sid.
Proof.
  rewrite process_payment_updates_run. intros Hin.
  by rewrite (loop_failed_fetch _ _ _ _ _ (NoDup_loaded env w) Hin).
Qed.

Lemma process_session_purges s w :
  ps_expires_at s < time_at env (ticks w) →
  in_final (ps_status s) = false →
  let x := process_session env s w in
  payment_sessions (store (world_of x)) !! ps_id s = None
  ∧ (OfSession (ps_id s),
     NotifyUser (ps_user_id s) "Payment Expired" "Payment session expired before completion.")
    ∈ events_of x
  ∧ (∀ url a, (OfSession (ps_id s), FetchStatus url a) ∉ events_of x)
  ∧ ((OfSession (ps_id s),
      SendEmbed (ps_user_id s) "Payment Expired" "Payment session expired before completion.")
       ∈ events_of x
     ↔ user_reachable env (ps_user_id s) = true).
Proof.
  intros Hlt Hnf x. subst x.
  assert (Hexp : expired_locally s (time_at env (ticks w)) = true).
  { unfold expired_locally. rewrite Hnf. simpl. rewrite andb_true_r. by apply Z.ltb_lt. }
  rewrite process_session_expired by done.
  unfold purge_session, delete_payment_session, _notify_user. rewrite !bind_run. simpl.
  split_and!.
  - destruct (user_reachable env (ps_user_id s)); simpl; apply lookup_delete_eq.
  - destruct (user_reachable env (ps_user_id s)); simpl; apply list_elem_of_here.
  - intros url a Hin.
    destruct (user_reachable env (ps_user_id s)); simpl in Hin;
      repeat (apply elem_of_cons in Hin as [?|Hin]; [done|]); by apply elem_of_nil in Hin.
  - destruct (user_reachable env (ps_user_id s)); simpl; split; try done.
    + intros _. apply list_elem_of_further, list_elem_of_here.
    + intros Hin. repeat (apply elem_of_cons in Hin as [?|Hin]; [done|]).
      by apply elem_of_nil in Hin.
Qed.

Lemma loop_purges (L : list PaymentSession) w s :
  NoDup (ps_id <$> L) → s ∈ L →
  (∀ n, (ticks w ≤ n)%nat → ps_expires_at s < time_at env n) →
  in_final (ps_status s) = false →
  let x := for_each L (process_session env) w in
  payment_sessions (store (world_of x)) !! ps_id s = None
  ∧ (OfSession (ps_id s),
     NotifyUser (ps_user_id s) "Payment Expired" "Payment session expired before completion.")
    ∈ events_of x
  ∧ (∀ url a, (OfSession (ps_id s), FetchStatus url a) ∉ events_of x)
  ∧ ((OfSession (ps_id s),
      SendEmbed (ps_user_id s) "Payment Expired" "Payment session expired before completion.")
       ∈ events_of x
     ↔ user_reachable env (ps_user_id s) = true).
Proof.
  revert w. induction L as [|s' L IH]; intros w Hnd Hs Hexp Hnf; [by apply elem_of_nil in Hs|].
  rewrite fmap_cons in Hnd. apply NoDup_cons in Hnd as [Hs' Hnd].
  destruct (process_session_step env s' w) as (Hok & Hk & Hev).
  cbn zeta. rewrite for_each_cons_run by done. cbn [result_of world_of events_of fst snd].
  apply elem_of_cons in Hs as [->|Hs].
  - destruct (process_session_purges s' w) as (Hnone & Hnote & Hfetch & Hsend);
      [by apply Hexp|done|].
    destruct (sessions_loop env L (world_of (process_session env s' w))) as (_ & Hk' & _).
    destruct Hk' as (_ & Hfr & _). split_and!.
    + by rewrite Hfr.
    + apply elem_of_app. by left.
    + intros url a [Hin|Hin]%elem_of_app; [by eapply Hfetch|].
      by apply (sessions_loop_silent env L _ _ _ Hs') in Hin.
    + rewrite <- Hsend. split; [|intros Hin; apply elem_of_app; by left].
      intros [Hin|Hin]%elem_of_app; [done|].
      by apply (sessions_loop_silent env L _ _ _ Hs') in Hin.
  - assert (Hne : ps_id s ≠ ps_id s').
    { intros Heq. apply Hs'. rewrite <- Heq. apply list_elem_of_fmap. eauto. }
    destruct (IH (world_of (process_session env s' w))) as (Hnone & Hnote & Hfetch & Hsend);
      [done|done| |done|].
    { intros n Hn. apply Hexp. destruct Hk as (_ & _ & _ & Ht). lia. }
    split_and!; [done|apply elem_of_app; by right| |].
    + intros url a [Hin|Hin]%elem_of_app; [|by eapply Hfetch].
      destruct (Forall_only_elem _ _ _ _ _ Hev Hin) as [Ho _]. by injection Ho.
    + rewrite <- Hsend. split; [|intros Hin; apply elem_of_app; by right].
      intros [Hin|Hin]%elem_of_app; [|done].
      destruct (Forall_only_elem _ _ _ _ _ Hev Hin) as [Ho _]. by injection Ho.
Qed.

(** C8.  A session that the pass loads (its expiry is not older than twice
    the time-to-live), whose expiry lies before every reading of the clock
    that follows the loading, and whose stored status is not in
    [FINAL_STATUSES], is deleted by the pass, the "Payment Expired" notice
    is handed to [_notify_user], and no fetch-status call is made for it.
    [_notify_user] sends the notice to the user as a direct message exactly
    when the user can be reached (through the cache or by a fetch). *)
Theorem expired_session_purged_without_poll w sid row :
  payment_sessions (store w) !! sid = Some row →
  time_at env (ticks w) - minutes (session_ttl_minutes env * 2) ≤ sr_expires_at row →
  (∀ n, (ticks w < n)%nat → sr_expires_at row < time_at env n) →
  in_final (sr_status row) = false →
  let x := _process_payment_updates env w in
  payment_sessions (store (world_of x)) !! sid = None
  ∧ (OfSession sid,
     NotifyUser (sr_user_id row) "Payment Expired" "Payment session expired before completion.")
    ∈ events_of x
  ∧ (∀ url a, (OfSession sid, FetchStatus url a) ∉ events_of x)
  ∧ ((OfSession sid,
      SendEmbed (sr_user_id row) "Payment Expired" "Payment session expired before completion.")
       ∈ events_of x
     ↔ user_reachable env (sr_user_id row) = true).
Proof.
  intros Hrow Hcut Hexp Hnf. cbn zeta. rewrite process_payment_updates_run.
  apply (loop_purges (loaded env w) (tick w) (as_session (sid, row))).
  - apply NoDup_loaded.
  - apply elem_of_loaded. exists row. done.
  - intros n Hn. simpl in *. apply Hexp. lia.
  - done.
Qed.
End Reconcile.

(** ** Status changes *)

Section Transitions.
Context (env : Env).

Lemma after_fetch_unchanged s payload w :
  fetched_status s payload = ps_status s →
  after_fetch env s payload w =
    if in_final (ps_status s) then
      (Ok tt, {| store := with_sessions (delete (ps_id s) (payment_sessions (store w)))
                            (session_seq (store w)) (store w);
                 ticks := ticks w; calls := calls w |}, [])
    else (Ok tt, w, []).
Proof.
  intros H. unfold after_fetch. rewrite H, String.eqb_refl. simpl.
  destruct (in_final (ps_status s)); reflexivity.
Qed.

Lemma after_fetch_changed s payload w :
  fetched_status s payload ≠ ps_status s →
  let o := OfSession (ps_id s) in
  let x := after_fetch env s payload w in
  ∃ rest,
    events_of x = (o, StatusChange (fetched_status s payload)) :: rest
    ∧ Forall (only o effect_kinds) rest
    ∧ (fetched_status s payload ≠ "finished"%string →
         Forall (only o notice_kinds) rest
         ∧ subscriptions (store (world_of x)) = subscriptions (store w)).
Proof.
  intros H o x. subst x. unfold after_fetch. apply String.eqb_neq in H. rewrite H. simpl.
  rewrite bind_run.
  destruct (handle_status_change_run env
              (refreshed (fetched_status s payload) payload s)
              (fetched_status s payload) payload w)
    as (rest & Hev & Hok & Hrest & Hk & Hother).
  simpl in *. rewrite Hok. cbn [result_of world_of events_of fst snd].
  assert (Hpurge : ∀ w', events_of (when (in_final (fetched_status s payload))
                                    (purge_session (ps_id s)) w') = []
                        ∧ subscriptions (store (world_of
                            (when (in_final (fetched_status s payload))
                               (purge_session (ps_id s)) w'))) = subscriptions (store w')).
  { intros w'. by destruct (in_final _). }
  destruct (Hpurge (world_of (_handle_status_change env
              (refreshed (fetched_status s payload) payload s)
              (fetched_status s payload) payload w))) as [Hpe Hps].
  exists rest. rewrite Hpe, app_nil_r. split_and!; [done|done|].
  intros Hne. destruct (Hother Hne) as [Hr Hkk]. split; [done|].
  rewrite Hps. by apply keeps_subscriptions in Hkk.
Qed.

(** What one turn of the loop emits about the status, by cases. *)
Lemma process_session_status_events s w :
  let o := OfSession (ps_id s) in
  let x := process_session env s w in
  (∀ st, (o, StatusChange st) ∈ events_of x →
     ∃ payload, status_at env (calls w) (ps_status_url s) = Reply payload
                ∧ st = fetched_status s payload ∧ st ≠ ps_status s)
  ∧ (∀ g m r, (o, AddRoles g m r) ∈ events_of x →
       (o, StatusChange "finished") ∈ events_of x)
  ∧ ((o, StatusChange "finished") ∉ events_of x →
       subscriptions (store (world_of x)) = subscriptions (store w)).
Proof.
  intros o x. subst x.
  destruct (expired_locally s (time_at env (ticks w))) eqn:Hexp.
  - assert (Hfr : frames (only o [KNotify; KSend]) (other (ps_id s)) any
              (bind (purge_session (ps_id s))
                 (λ _, _notify_user env s "Payment session expired before completion."
                         "Payment Expired"))).
    { frames_tac; [apply frames_delete_payment_session|apply frames_notify_user]. }
    rewrite process_session_expired by done.
    destruct (Hfr (tick w)) as [Hk Hev]. split_and!.
    + intros st Hin. destruct (Forall_only_elem _ _ _ _ _ Hev Hin) as [_ Hkd]. simpl in Hkd.
      repeat (apply elem_of_cons in Hkd as [?|Hkd]; [done|]). by apply elem_of_nil in Hkd.
    + intros g m r Hin. destruct (Forall_only_elem _ _ _ _ _ Hev Hin) as [_ Hkd]. simpl in Hkd.
      repeat (apply elem_of_cons in Hkd as [?|Hkd]; [done|]). by apply elem_of_nil in Hkd.
    + intros _. destruct Hk as (_ & _ & Hu & _). apply map_eq. intros j. by apply Hu.
  - destruct (status_at env (calls w) (ps_status_url s)) as [payload|msg'] eqn:Hf.
    + rewrite (process_session_fetched env s w payload) by done.
      cbn [result_of world_of events_of fst snd].
      destruct (decide (fetched_status s payload = ps_status s)) as [Heq|Hne].
      * rewrite after_fetch_unchanged by done.
        assert (Hev : events_of (if in_final (ps_status s) then
           (Ok tt, {| store := with_sessions (delete (ps_id s)
                                 (payment_sessions (store (after_refresh env s payload w))))
                                 (session_seq (store (after_refresh env s payload w)))
                                 (store (after_refresh env s payload w));
                      ticks := ticks (after_refresh env s payload w);
                      calls := calls (after_refresh env s payload w) |}, [])
           else (Ok tt, after_refresh env s payload w, [])) = []) by (by destruct (in_final _)).
        rewrite Hev. split_and!.
        -- intros st Hin. apply elem_of_cons in Hin as [?|Hin]; [done|]. by apply elem_of_nil in Hin.
        -- intros g m r Hin. apply elem_of_cons in Hin as [?|Hin]; [done|]. by apply elem_of_nil in Hin.
        -- intros _. by destruct (in_final _).
      * destruct (after_fetch_changed s payload (after_refresh env s payload w) Hne)
          as (rest & Hev & Hrest & Hother).
        rewrite Hev. split_and!.
        -- intros st Hin. exists payload. split; [done|].
           apply elem_of_cons in Hin as [?|Hin]; [done|].
           apply elem_of_cons in Hin as [Heq|Hin]; [injection Heq as ->; done|].
           destruct (Forall_only_elem _ _ _ _ _ Hrest Hin) as [_ Hkd]. simpl in Hkd.
           repeat (apply elem_of_cons in Hkd as [?|Hkd]; [done|]). by apply elem_of_nil in Hkd.
        -- intros g m r Hin.
           destruct (decide (fetched_status s payload = "finished"%string)) as [->|Hnf].
           { apply list_elem_of_further, list_elem_of_here. }
           destruct (Hother Hnf) as [Hnot _].
           apply elem_of_cons in Hin as [?|Hin]; [done|].
           apply elem_of_cons in Hin as [?|Hin]; [done|].
           destruct (Forall_only_elem _ _ _ _ _ Hnot Hin) as [_ Hkd]. simpl in Hkd.
           repeat (apply elem_of_cons in Hkd as [?|Hkd]; [done|]). by apply elem_of_nil in Hkd.
        -- intros Hnin.
           destruct (decide (fetched_status s payload = "finished"%string)) as [Hfin|Hnf].
           { exfalso. apply Hnin. rewrite Hfin. apply list_elem_of_further, list_elem_of_here. }
           destruct (Hother Hnf) as [_ Hsub]. rewrite Hsub. done.
    + rewrite (process_session_failed env s w msg') by done.
      cbn [result_of world_of events_of fst snd]. split_and!.
      * intros st Hin. repeat (apply elem_of_cons in Hin as [?|Hin]; [done|]).
        by apply elem_of_nil in Hin.
      * intros g m r Hin. repeat (apply elem_of_cons in Hin as [?|Hin]; [done|]).
        by apply elem_of_nil in Hin.
      * done.
Qed.
End Transitions.

(** ** Role grants, subscriptions and unchanged statuses *)

Section Passes.
Context (env : Env).

Lemma loop_grant_needs_finished (L : list PaymentSession) w sid g m r :
  (OfSession sid, AddRoles g m r) ∈ events_of (for_each L (process_session env) w) →
  (OfSession sid, StatusChange "finished") ∈ events_of (for_each L (process_session env) w).
Proof.
  revert w. induction L as [|s L IH]; intros w; [intros Hin; by apply elem_of_nil in Hin|].
  destruct (process_session_step env s w) as (Hok & Hk & Hev).
  rewrite for_each_cons_run by done. cbn [result_of world_of events_of fst snd].
  intros [Hin|Hin]%elem_of_app; apply elem_of_app.
  - left. destruct (Forall_only_elem _ _ _ _ _ Hev Hin) as [Ho _]. injection Ho as ->.
    destruct (process_session_status_events env s w) as (_ & Hg & _). by eapply Hg.
  - right. by apply IH.
Qed.

Lemma loop_status_unique (L : list PaymentSession) w sid st st' :
  NoDup (ps_id <$> L) →
  (OfSession sid, StatusChange st) ∈ events_of (for_each L (process_session env) w) →
  (OfSession sid, StatusChange st') ∈ events_of (for_each L (process_session env) w) →
  st = st'.
Proof.
  revert w. induction L as [|s L IH]; intros w Hnd; [intros Hin; by apply elem_of_nil in Hin|].
  rewrite fmap_cons in Hnd. apply NoDup_cons in Hnd as [Hs Hnd].
  destruct (process_session_step env s w) as (Hok & Hk & Hev).
  rewrite for_each_cons_run by done. cbn [result_of world_of events_of fst snd].
  intros [Hin|Hin]%elem_of_app [Hin'|Hin']%elem_of_app.
  - destruct (Forall_only_elem _ _ _ _ _ Hev Hin) as [Ho _]. injection Ho as ->.
    destruct (process_session_status_events env s w) as (Hst & _ & _).
    destruct (Hst _ Hin) as (p & Hp & -> & _). destruct (Hst _ Hin') as (p' & Hp' & -> & _).
    congruence.
  - destruct (Forall_only_elem _ _ _ _ _ Hev Hin) as [Ho _]. injection Ho as ->.
    by apply (sessions_loop_silent env L _ _ _ Hs) in Hin'.
  - destruct (Forall_only_elem _ _ _ _ _ Hev Hin') as [Ho _]. injection Ho as ->.
    by apply (sessions_loop_silent env L _ _ _ Hs) in Hin.
  - by eapply IH.
Qed.

Lemma loop_subscriptions (L : list PaymentSession) w :
  (∀ sid, (OfSession sid, StatusChange "finished")
            ∉ events_of (for_each L (process_session env) w)) →
  subscriptions (store (world_of (for_each L (process_session env) w)))
  = subscriptions (store w).
Proof.
  revert w. induction L as [|s L IH]; intros w; [done|].
  destruct (process_session_step env s w) as (Hok & Hk & Hev).
  rewrite for_each_cons_run by done. cbn [result_of world_of events_of fst snd].
  intros Hnone. rewrite IH.
  - destruct (process_session_status_events env s w) as (_ & _ & Hsub). apply Hsub.
    intros Hin. apply (Hnone (ps_id s)), elem_of_app. by left.
  - intros sid Hin. apply (Hnone sid), elem_of_app. by right.
Qed.

(** one turn: a reply in the trace is the reply the gateway gave *)
Lemma process_session_fetch_reply s w url payload :
  (OfSession (ps_id s), FetchStatus url (Reply payload)) ∈ events_of (process_session env s w) →
  url = ps_status_url s ∧ status_at env (calls w) (ps_status_url s) = Reply payload.
Proof.
  destruct (expired_locally s (time_at env (ticks w))) eqn:Hexp.
  - rewrite process_session_expired by done. intros Hin.
    assert (Hfr : frames (only (OfSession (ps_id s)) [KNotify; KSend]) (other (ps_id s)) none
              (bind (purge_session (ps_id s))
                 (λ _, _notify_user env s "Payment session expired before completion."
                         "Payment Expired"))).
    { frames_tac; [apply frames_delete_payment_session|apply frames_notify_user]. }
    destruct (Hfr (tick w)) as [_ Hev].
    destruct (Forall_only_elem _ _ _ _ _ Hev Hin) as [_ Hk]. simpl in Hk.
    repeat (apply elem_of_cons in Hk as [?|Hk]; [done|]). by apply elem_of_nil in Hk.
  - destruct (status_at env (calls w) (ps_status_url s)) as [payload'|msg'] eqn:Hf.
    + rewrite (process_session_fetched env s w payload') by done. cbn zeta.
      unfold events_of at 1. simpl. intros Hin.
      apply elem_of_cons in Hin as [Heq|Hin]; [by injection Heq as -> ->|].
      destruct (frames_after_fetch env s payload' (after_refresh env s payload' w)) as [_ Hev].
      destruct (Forall_only_elem _ _ _ _ _ Hev Hin) as [_ Hk]. simpl in Hk.
      repeat (apply elem_of_cons in Hk as [?|Hk]; [done|]). by apply elem_of_nil in Hk.
    + rewrite (process_session_failed env s w msg') by done. intros Hin.
      repeat (apply elem_of_cons in Hin as [?|Hin]; [done|]). by apply elem_of_nil in Hin.
Qed.

(** one turn: a role is granted only after a fetch that reported
    "finished" for a session stored with another status *)
Lemma process_session_grant_fetched s w g m r :
  (OfSession (ps_id s), AddRoles g m r) ∈ events_of (process_session env s w) →
  ∃ payload,
    (OfSession (ps_id s), FetchStatus (ps_status_url s) (Reply payload))
      ∈ events_of (process_session env s w)
    ∧ fetched_status s payload = "finished"%string
    ∧ ps_status s ≠ "finished"%string.
Proof.
  intros Hin. destruct (process_session_status_events env s w) as (Hst & Hg & _).
  pose proof (Hg _ _ _ Hin) as Hfin. destruct (Hst _ Hfin) as (payload & Hp & Hf & Hne).
  exists payload. split_and!; [|done|done].
  destruct (expired_locally s (time_at env (ticks w))) eqn:Hexp.
  - exfalso. rewrite process_session_expired in Hin by done.
    assert (Hfr : frames (only (OfSession (ps_id s)) [KNotify; KSend]) (other (ps_id s)) none
              (bind (purge_session (ps_id s))
                 (λ _, _notify_user env s "Payment session expired before completion."
                         "Payment Expired"))).
    { frames_tac; [apply frames_delete_payment_session|apply frames_notify_user]. }
    destruct (Hfr (tick w)) as [_ Hev].
    destruct (Forall_only_elem _ _ _ _ _ Hev Hin) as [_ Hk]. simpl in Hk.
    repeat (apply elem_of_cons in Hk as [?|Hk]; [done|]). by apply elem_of_nil in Hk.
  - rewrite (process_session_fetched env s w payload) by done. apply list_elem_of_here.
Qed.

Lemma loop_grant_fetched (L : list PaymentSession) w sid g m r :
  (OfSession sid, AddRoles g m r) ∈ events_of (for_each L (process_session env) w) →
  ∃ s payload, s ∈ L ∧ ps_id s = sid
    ∧ (OfSession sid, FetchStatus (ps_status_url s) (Reply payload))
        ∈ events_of (for_each L (process_session env) w)
    ∧ fetched_status s payload = "finished"%string
    ∧ ps_status s ≠ "finished"%string.
Proof.
  revert w. induction L as [|s L IH]; intros w; [intros Hin; by apply elem_of_nil in Hin|].
  destruct (process_session_step env s w) as (Hok & Hk & Hev).
  rewrite for_each_cons_run by done. cbn [result_of world_of events_of fst snd].
  intros [Hin|Hin]%elem_of_app.
  - destruct (Forall_only_elem _ _ _ _ _ Hev Hin) as [Ho _]. injection Ho as ->.
    destruct (process_session_grant_fetched s w g m r Hin) as (payload & Hf & Hst & Hne).
    exists s, payload. split_and!; try done; [apply list_elem_of_here|].
    apply elem_of_app. by left.
  - destruct (IH _ Hin) as (s' & payload & Hs' & Hid & Hf & Hst & Hne).
    exists s', payload. split_and!; try done; [by apply list_elem_of_further|].
    apply elem_of_app. by right.
Qed.

Lemma loop_fetch_unique (L : list PaymentSession) w sid url url' payload payload' :
  NoDup (ps_id <$> L) →
  (OfSession sid, FetchStatus url (Reply payload))
    ∈ events_of (for_each L (process_session env) w) →
  (OfSession sid, FetchStatus url' (Reply payload'))
    ∈ events_of (for_each L (process_session env) w) →
  payload = payload'.
Proof.
  revert w. induction L as [|s L IH]; intros w Hnd; [intros Hin; by apply elem_of_nil in Hin|].
  rewrite fmap_cons in Hnd. apply NoDup_cons in Hnd as [Hs Hnd].
  destruct (process_session_step env s w) as (Hok & Hk & Hev).
  rewrite for_each_cons_run by done. cbn [result_of world_of events_of fst snd].
  intros [Hin|Hin]%elem_of_app [Hin'|Hin']%elem_of_app.
  - destruct (Forall_only_elem _ _ _ _ _ Hev Hin) as [Ho _]. injection Ho as ->.
    apply process_session_fetch_reply in Hin as [_ Hin].
    apply process_session_fetch_reply in Hin' as [_ Hin']. congruence.
  - destruct (Forall_only_elem _ _ _ _ _ Hev Hin) as [Ho _]. injection Ho as ->.
    by apply (sessions_loop_silent env L _ _ _ Hs) in Hin'.
  - destruct (Forall_only_elem _ _ _ _ _ Hev Hin') as [Ho _]. injection Ho as ->.
    by apply (sessions_loop_silent env L _ _ _ Hs) in Hin.
  - by eapply IH.
Qed.

(** the pass: a role is granted only for a stored session whose fetch
    reported "finished" and whose stored status was another *)
Lemma pass_grant_fetched w sid g m r :
  (OfSession sid, AddRoles g m r)
    ∈ events_of (for_each (loaded env w) (process_session env) (tick w)) →
  ∃ row payload,
    payment_sessions (store w) !! sid = Some row
    ∧ (OfSession sid, FetchStatus (sr_status_url row) (Reply payload))
        ∈ events_of (for_each (loaded env w) (process_session env) (tick w))
    ∧ lower (py_str (dict_get_or payload "status" (PyStr (sr_status row)))) = "finished"%string
    ∧ sr_status row ≠ "finished"%string.
Proof.
  intros Hin.
  destruct (loop_grant_fetched _ _ _ _ _ _ Hin) as (s & payload & Hs & <- & Hf & Hst & Hne).
  apply elem_of_loaded in Hs as (row & Hrow & Hs & _).
  exists row, payload. unfold fetched_status in Hst. rewrite Hs in Hf, Hst, Hne.
  simpl in Hf, Hst, Hne. done.
Qed.

(** C9.  In every pass a role is granted for a session only if the
    transition handler ran for it with the status ["finished"]; a session
    whose handler ran with any other status (["paid partially"] among them)
    gets no role; the subscriptions change only if some handler ran with
    ["finished"]; and the handler itself, called with a status other than
    ["finished"], grants no role and leaves the subscriptions as they are.
    In terms of the statuses themselves: a role is granted in a pass only
    for a stored session for which the pass fetched a reply whose status,
    in lower case, is ["finished"] (the stored status, when the reply has
    none), the stored status being another; and a session for which the
    pass fetched any other status, ["paid partially"] among them, gets no
    role. *)
Theorem role_grant_only_when_finished w :
  let x := _process_payment_updates env w in
  (∀ sid g m r, (OfSession sid, AddRoles g m r) ∈ events_of x →
     (OfSession sid, StatusChange "finished") ∈ events_of x)
  ∧ (∀ sid st, (OfSession sid, StatusChange st) ∈ events_of x → st ≠ "finished"%string →
       ∀ g m r, (OfSession sid, AddRoles g m r) ∉ events_of x)
  ∧ ((∀ sid, (OfSession sid, StatusChange "finished") ∉ events_of x) →
       subscriptions (store (world_of x)) = subscriptions (store w))
  ∧ (∀ s st payload w0, st ≠ "finished"%string →
       let y := _handle_status_change env s st payload w0 in
       subscriptions (store (world_of y)) = subscriptions (store w0)
       ∧ ∀ o g m r, (o, AddRoles g m r) ∉ events_of y)
  ∧ (∀ sid g m r, (OfSession sid, AddRoles g m r) ∈ events_of x →
       ∃ row payload,
         payment_sessions (store w) !! sid = Some row
         ∧ (OfSession sid, FetchStatus (sr_status_url row) (Reply payload)) ∈ events_of x
         ∧ lower (py_str (dict_get_or payload "status" (PyStr (sr_status row))))
           = "finished"%string
         ∧ sr_status row ≠ "finished"%string)
  ∧ (∀ sid row url payload,
       payment_sessions (store w) !! sid = Some row →
       (OfSession sid, FetchStatus url (Reply payload)) ∈ events_of x →
       lower (py_str (dict_get_or payload "status" (PyStr (sr_status row))))
       ≠ "finished"%string →
       ∀ g m r, (OfSession sid, AddRoles g m r) ∉ events_of x).
Proof.
  cbn zeta. rewrite process_payment_updates_run. split_and!.
  - intros sid g m r. apply loop_grant_needs_finished.
  - intros sid st Hst Hne g m r Hadd. apply Hne.
    apply (loop_status_unique _ _ _ _ _ (NoDup_loaded env w) Hst).
    by apply loop_grant_needs_finished in Hadd.
  - intros Hnone. by rewrite loop_subscriptions.
  - intros s st payload w0 Hne.
    destruct (handle_status_change_run env s st payload w0)
      as (rest & Hev & _ & _ & _ & Hother).
    destruct (Hother Hne) as [Hrest Hk]. split; [by apply keeps_subscriptions in Hk|].
    intros o g m r Hin. rewrite Hev in Hin.
    apply elem_of_cons in Hin as [?|Hin]; [done|].
    destruct (Forall_only_elem _ _ _ _ _ Hrest Hin) as [_ Hkd]. simpl in Hkd.
    repeat (apply elem_of_cons in Hkd as [?|Hkd]; [done|]). by apply elem_of_nil in Hkd.
  - intros sid g m r. apply pass_grant_fetched.
  - intros sid row url payload Hrow Hfetch Hnf g m r Hadd.
    destruct (pass_grant_fetched _ _ _ _ _ Hadd) as (row' & payload' & Hrow' & Hf' & Hst & _).
    rewrite Hrow in Hrow'. injection Hrow' as <-.
    rewrite (loop_fetch_unique _ _ _ _ _ _ _ (NoDup_loaded env w) Hfetch Hf') in Hnf. done.
Qed.

(** The test that decides whether the handler runs: the fetched status is
    lower-cased, the stored one is taken as it is. *)
Lemma handler_runs_iff_status_differs s w payload :
  expired_locally s (time_at env (ticks w)) = false →
  status_at env (calls w) (ps_status_url s) = Reply payload →
  (∃ st, (OfSession (ps_id s), StatusChange st) ∈ events_of (process_session env s w))
  ↔ lower (py_str (dict_get_or payload "status" (PyStr (ps_status s)))) ≠ ps_status s.
Proof.
  intros Hexp Hf. fold (fetched_status s payload). split.
  - intros [st Hin].
    destruct (process_session_status_events env s w) as (Hst & _ & _).
    destruct (Hst _ Hin) as (payload' & Hf' & -> & Hne).
    rewrite Hf in Hf'. by injection Hf' as <-.
  - intros Hne. exists (fetched_status s payload).
    rewrite (process_session_fetched env s w payload) by done.
    cbn [result_of world_of events_of fst snd].
    destruct (after_fetch_changed env s payload (after_refresh env s payload w) Hne)
      as (rest & -> & _).
    apply list_elem_of_further, list_elem_of_here.
Qed.

(** When the stored status is in lower case already, that test compares
    the two statuses ignoring case. *)
Lemma lowercase_status_compared_ignoring_case s payload :
  lower (ps_status s) = ps_status s →
  lower (py_str (dict_get_or payload "status" (PyStr (ps_status s)))) ≠ ps_status s
  ↔ lower (py_str (dict_get_or payload "status" (PyStr (ps_status s))))
    ≠ lower (ps_status s).
Proof. intros H. by rewrite H. Qed.



End Passes.

(** ** One turn of each loop of the sweep *)

Section Sweep.
Context (env : Env).

Lemma notify_subscription_expiring_run sub w :
  let o := OfSubscription (subscription_id sub) in
  let row := subscription_row sub in
  let x := _notify_subscription_expiring env sub w in
  result_of x = Ok tt
  ∧ store (world_of x) = store w
  ∧ ticks (world_of x) = ticks w
  ∧ Forall (only o [KWebhook; KLog]) (events_of x)
  ∧ (guilds env !! sub_guild_id row = None → events_of x = [])
  ∧ (∀ guild url,
       guilds env !! sub_guild_id row = Some guild →
       sub_webhook_url row = Some url → url ≠ ""%string →
       (o, PostWebhook url
             (subscription_event env "subscription_expiring" "expires_at" sub guild
                (profile_of (store w) (sub_payment_profile_id row)))) ∈ events_of x).
Proof.
  intros o row x. subst x. unfold _notify_subscription_expiring, get_guild. fold row. fold o.
  destruct (guilds env !! sub_guild_id row) as [guild|] eqn:Hg.
  2:{ split_and!; first [done | constructor]. }
  unfold get_payment_profile_by_id, db_get_payment_profile_by_id.
  rewrite bind_run. unfold bind at 1. simpl. fold (profile_of (store w) (sub_payment_profile_id row)).
  destruct (sub_webhook_url row) as [url|] eqn:Hu.
  2:{ split_and!; first [done | constructor]. }
  destruct (String.eqb_spec url "") as [->|Hne]; simpl.
  { split_and!; try first [done | constructor]. by intros g u _ [= <-]. }
  unfold try_except, post_webhook, outbound. simpl.
  match goal with
  | |- context [webhook_at env ?n ?u ?p] => destruct (webhook_at env n u p) as [[]|msg]
  end; simpl.
  - split_and!; try done.
    + repeat constructor; simpl; solve_elem.
    + intros g u [= <-] [= <-] _. apply list_elem_of_here.
  - split_and!; try done.
    + repeat constructor; simpl; solve_elem.
    + intros g u [= <-] [= <-] _. apply list_elem_of_here.
Qed.

Lemma notify_expiring_skip sub w :
  sub_last_notified_at (subscription_row sub) ≠ None →
  notify_expiring env sub w = (Ok tt, w, []).
Proof. intros H. unfold notify_expiring. by destruct (sub_last_notified_at _). Qed.

Lemma notify_expiring_run sub w :
  sub_last_notified_at (subscription_row sub) = None →
  notify_expiring env sub w =
    (Ok tt,
     marked env (subscription_id sub) (world_of (_notify_subscription_expiring env sub w)),
     events_of (_notify_subscription_expiring env sub w)).
Proof.
  intros H. unfold notify_expiring. rewrite H. rewrite bind_run.
  destruct (notify_subscription_expiring_run sub w) as (Hok & _). rewrite Hok.
  unfold mark_subscription_notified, db_mark_subscription_notified, marked.
  cbn. by rewrite app_nil_r.
Qed.

Lemma notify_expiring_step sub w :
  let x := notify_expiring env sub w in
  result_of x = Ok tt
  ∧ keeps any (other (subscription_id sub)) w (world_of x)
  ∧ Forall (only (OfSubscription (subscription_id sub)) [KWebhook; KLog]) (events_of x).
Proof.
  intros x. subst x.
  destruct (sub_last_notified_at (subscription_row sub)) as [t|] eqn:Hn.
  - rewrite notify_expiring_skip by congruence. split_and!; [done|reflexivity|constructor].
  - rewrite notify_expiring_run by done.
    destruct (notify_subscription_expiring_run sub w) as (_ & Hst & Ht & Hev & _).
    cbn [result_of world_of events_of fst snd]. split_and!; [done| |done].
    unfold marked. rewrite Hst, Ht. repeat split; simpl; auto.
    intros j Hj. by rewrite lookup_alter_ne.
Qed.

Lemma expire_subscription_run sub w :
  let o := OfSubscription (subscription_id sub) in
  let x := _expire_subscription env sub w in
  result_of x = Ok tt
  ∧ keeps any any w (world_of x)
  ∧ Forall (only o [KRemoveRoles; KWebhook; KLog]) (events_of x)
  ∧ (guilds env !! sub_guild_id (subscription_row sub) = None → events_of x = []).
Proof.
  intros o x. subst x.
  assert (Hfr : frames (only o [KRemoveRoles; KWebhook; KLog]) any any
                  (_expire_subscription env sub)).
  { unfold _expire_subscription. frames_tac. }
  assert (Htot : total (_expire_subscription env sub)).
  { unfold _expire_subscription. total_tac; first [done | apply total_delivery]. }
  destruct (Hfr w) as [Hk Hev]. destruct (total_ok _ w Htot) as [[] Hok].
  split_and!; [done|done|done|].
  intros Hg. unfold _expire_subscription, get_guild. by rewrite Hg.
Qed.

Lemma expire_step sub w :
  let x := expire env sub w in
  result_of x = Ok tt
  ∧ keeps any (other (subscription_id sub)) w (world_of x)
  ∧ subscriptions (store (world_of x)) !! subscription_id sub = None
  ∧ Forall (only (OfSubscription (subscription_id sub)) [KRemoveRoles; KWebhook; KLog])
      (events_of x)
  ∧ (guilds env !! sub_guild_id (subscription_row sub) = None → events_of x = []).
Proof.
  intros x. subst x. unfold expire. rewrite bind_run.
  destruct (expire_subscription_run sub w) as (Hok & Hk & Hev & Hnone).
  rewrite Hok. unfold delete_subscription, db_delete_subscription.
  cbn. rewrite app_nil_r. split_and!; [done| |apply lookup_delete_eq|done|done].
  etrans; [eapply keeps_weaken; [| |exact Hk]; done|].
  repeat split; simpl; auto. intros j Hj. by rewrite lookup_delete_ne.
Qed.

End Sweep.

Lemma remarked_trans r1 r2 r3 : remarked r1 r2 → remarked r2 r3 → remarked r1 r3.
Proof.
  intros [->|[t ->]] [->|[t' ->]]; [by left|right; eauto|right; eauto|].
  right. exists t'. done.
Qed.

Lemma remarked_fields r r' :
  remarked r r' →
  sub_guild_id r' = sub_guild_id r ∧ sub_expires_at r' = sub_expires_at r.
Proof. by intros [->|[t ->]]. Qed.

Lemma elem_of_expiring now w sub :
  sub ∈ expiring now w ↔
  subscriptions (store w) !! subscription_id sub = Some (subscription_row sub)
  ∧ is_expiring now 1 (subscription_row sub) = true.
Proof.
  unfold expiring. rewrite list_elem_of_fmap. split.
  - intros ([k row] & -> & Hin). apply list_elem_of_In, filter_In in Hin as [Hin Hc].
    apply list_elem_of_In, elem_of_map_to_list in Hin. done.
  - intros [Hrow Hc]. exists (subscription_id sub, subscription_row sub).
    split; [by destruct sub|].
    apply list_elem_of_In, filter_In. split; [|done].
    by apply list_elem_of_In, elem_of_map_to_list.
Qed.

Lemma elem_of_expired now w sub :
  sub ∈ expired now w ↔
  subscriptions (store w) !! subscription_id sub = Some (subscription_row sub)
  ∧ sub_expires_at (subscription_row sub) ≤ now.
Proof.
  unfold expired. rewrite list_elem_of_fmap. split.
  - intros ([k row] & -> & Hin). apply list_elem_of_In, filter_In in Hin as [Hin Hc].
    apply list_elem_of_In, elem_of_map_to_list in Hin. split; [done|]. simpl in *. lia.
  - intros [Hrow Hc]. exists (subscription_id sub, subscription_row sub).
    split; [by destruct sub|].
    apply list_elem_of_In, filter_In. split; [|simpl; lia].
    by apply list_elem_of_In, elem_of_map_to_list.
Qed.

Lemma NoDup_expiring now w : NoDup (subscription_id <$> expiring now w).
Proof.
  unfold expiring. rewrite <- list_fmap_compose.
  apply (NoDup_fst_filter _ _ (NoDup_fst_map_to_list (subscriptions (store w)))).
Qed.

Lemma NoDup_expired now w : NoDup (subscription_id <$> expired now w).
Proof.
  unfold expired. rewrite <- list_fmap_compose.
  apply (NoDup_fst_filter _ _ (NoDup_fst_map_to_list (subscriptions (store w)))).
Qed.

(** ** The two loops of the sweep *)

Section SweepLoops.
Context (env : Env).

Lemma total_notify_expiring sub : total (notify_expiring env sub).
Proof. intros w. destruct (notify_expiring_step env sub w) as (H & _). by rewrite H. Qed.


Lemma process_subscriptions_run w :
  let now := time_at env (ticks w) in
  let x1 := for_each (expiring now (tick w)) (notify_expiring env) (tick w) in
  let x2 := for_each (expired now (world_of x1)) (expire env) (world_of x1) in
  _process_subscriptions env w
  = (result_of x2, world_of x2, events_of x1 ++ events_of x2).
Proof.
  intros now x1 x2. unfold _process_subscriptions.
  unfold list_expiring_subscriptions, db_list_expiring_subscriptions,
    list_expired_subscriptions, db_list_expired_subscriptions.
  unfold bind at 1. cbn [utc_now]. fold (tick w). fold now.
  rewrite bind_query. fold (expiring now (tick w)).
  rewrite bind_run. fold x1.
  destruct (total_ok _ (tick w) (total_for_each (expiring now (tick w)) _ total_notify_expiring))
    as [[] Hok].
  fold x1 in Hok. rewrite Hok.
  rewrite bind_query. fold (expired now (world_of x1)). fold x2.
  by destruct x2 as [[r2 w2] ev2].
Qed.

(** first loop: rows are kept up to their mark *)
Lemma notify_loop_rows (L : list Subscription) w j r :
  subscriptions (store w) !! j = Some r →
  ∃ r', subscriptions (store (world_of (for_each L (notify_expiring env) w))) !! j = Some r'
        ∧ remarked r r'.
Proof.
  revert w r. induction L as [|sub L IH]; intros w r Hr; [exists r; split; [done|by left]|].
  destruct (notify_expiring_step env sub w) as (Hok & Hk & Hev).
  rewrite for_each_cons_run by done. cbn [result_of world_of events_of fst snd].
  assert (∃ r1, subscriptions (store (world_of (notify_expiring env sub w))) !! j = Some r1
                ∧ remarked r r1) as (r1 & Hr1 & Hm1).
  { destruct (sub_last_notified_at (subscription_row sub)) as [t|] eqn:Hn.
    - rewrite notify_expiring_skip by congruence. exists r. split; [done|by left].
    - rewrite notify_expiring_run by done. cbn [world_of fst snd].
      destruct (notify_subscription_expiring_run env sub w) as (_ & Hst & _).
      unfold marked. simpl. rewrite Hst.
      destruct (decide (subscription_id sub = j)) as [->|Hne].
      + rewrite lookup_alter_eq, Hr. simpl. eexists. split; [done|]. right. eauto.
      + rewrite lookup_alter_ne by done. exists r. split; [done|by left]. }
  destruct (IH _ _ Hr1) as (r' & Hr' & Hm'). exists r'. split; [done|].
  by eapply remarked_trans.
Qed.

Lemma notify_loop_frame (L : list Subscription) w :
  let x := for_each L (notify_expiring env) w in
  keeps any (λ j, j ∉ subscription_id <$> L) w (world_of x)
  ∧ Forall (λ e, ∃ sub, sub ∈ L ∧ e.1 = OfSubscription (subscription_id sub)) (events_of x).
Proof.
  apply (frames_for_each (λ e, ∃ sub, sub ∈ L ∧ e.1 = OfSubscription (subscription_id sub))
           any (λ j, j ∉ subscription_id <$> L)).
  intros sub Hsub w'. destruct (notify_expiring_step env sub w') as (_ & Hk & Hev). split.
  - eapply keeps_weaken; [| |exact Hk]; [done|].
    intros j Hj ->. apply Hj, list_elem_of_fmap. eauto.
  - eapply Forall_impl; [done|]. intros e [Ho _]. eauto.
Qed.

Lemma expire_loop_frame (L : list Subscription) w :
  let x := for_each L (expire env) w in
  keeps any (λ j, j ∉ subscription_id <$> L) w (world_of x)
  ∧ Forall (λ e, ∃ sub, sub ∈ L ∧ e.1 = OfSubscription (subscription_id sub)) (events_of x).
Proof.
  apply (frames_for_each (λ e, ∃ sub, sub ∈ L ∧ e.1 = OfSubscription (subscription_id sub))
           any (λ j, j ∉ subscription_id <$> L)).
  intros sub Hsub w'. destruct (expire_step env sub w') as (_ & Hk & _ & Hev & _). split.
  - eapply keeps_weaken; [| |exact Hk]; [done|].
    intros j Hj ->. apply Hj, list_elem_of_fmap. eauto.
  - eapply Forall_impl; [done|]. intros e [Ho _]. eauto.
Qed.

Lemma loop_silent (L : list Subscription) (body : Subscription → M unit) w k e :
  Forall (λ e, ∃ sub, sub ∈ L ∧ e.1 = OfSubscription (subscription_id sub))
    (events_of (for_each L body w)) →
  k ∉ subscription_id <$> L →
  (OfSubscription k, e) ∉ events_of (for_each L body w).
Proof.
  intros Hev Hk Hin. rewrite Forall_forall in Hev.
  destruct (Hev _ Hin) as (sub & Hsub & Ho). simpl in Ho. injection Ho as ->.
  apply Hk, list_elem_of_fmap. eauto.
Qed.

(** first loop: nothing is emitted for a subscription that is skipped or
  whose guild is not in the cache *)
Lemma notify_loop_quiet (L : list Subscription) w k :
  (∀ sub, sub ∈ L → subscription_id sub = k →
     sub_last_notified_at (subscription_row sub) ≠ None
     ∨ guilds env !! sub_guild_id (subscription_row sub) = None) →
  ∀ e, (OfSubscription k, e) ∉ events_of (for_each L (notify_expiring env) w).
Proof.
  revert w. induction L as [|sub L IH]; intros w HL e Hin; [by apply elem_of_nil in Hin|].
  destruct (notify_expiring_step env sub w) as (Hok & Hk & Hev).
  rewrite for_each_cons_run in Hin by done. cbn [events_of snd] in Hin.
  apply elem_of_app in Hin as [Hin|Hin].
  - destruct (Forall_only_elem _ _ _ _ _ Hev Hin) as [Ho _]. injection Ho as ->.
    destruct (HL sub) as [Hn|Hg]; [apply list_elem_of_here|done| |].
    + rewrite notify_expiring_skip in Hin by done. by apply elem_of_nil in Hin.
    + destruct (sub_last_notified_at (subscription_row sub)) eqn:Hn.
      * rewrite notify_expiring_skip in Hin by congruence. by apply elem_of_nil in Hin.
      * rewrite notify_expiring_run in Hin by done. cbn [events_of snd] in Hin.
        destruct (notify_subscription_expiring_run env sub w) as (_ & _ & _ & _ & Hnone & _).
        rewrite Hnone in Hin by done. by apply elem_of_nil in Hin.
  - eapply IH; [|done]. intros sub' Hsub'. apply HL. by apply list_elem_of_further.
Qed.

(** second loop: a listed subscription is deleted *)
Lemma expire_loop_deletes (L : list Subscription) w sub :
  NoDup (subscription_id <$> L) → sub ∈ L →
  let x := for_each L (expire env) w in
  subscriptions (store (world_of x)) !! subscription_id sub = None
  ∧ (guilds env !! sub_guild_id (subscription_row sub) = None →
       ∀ e, (OfSubscription (subscription_id sub), e) ∉ events_of x).
Proof.
  revert w. induction L as [|sub' L IH]; intros w Hnd Hsub; [by apply elem_of_nil in Hsub|].
  rewrite fmap_cons in Hnd. apply NoDup_cons in Hnd as [Hs' Hnd].
  destruct (expire_step env sub' w) as (Hok & Hk & Hdel & Hev & Hnone).
  cbn zeta. rewrite for_each_cons_run by done. cbn [result_of world_of events_of fst snd].
  destruct (expire_loop_frame L (world_of (expire env sub' w))) as [Hk' Hev'].
  apply elem_of_cons in Hsub as [->|Hsub].
  - split.
    + destruct Hk' as (_ & _ & Hfr & _). by rewrite Hfr.
    + intros Hg e [Hin|Hin]%elem_of_app.
      * rewrite Hnone in Hin by done. by apply elem_of_nil in Hin.
      * by eapply loop_silent.
  - assert (Hne : subscription_id sub ≠ subscription_id sub').
    { intros E. apply Hs'. rewrite <- E. apply list_elem_of_fmap. eauto. }
    destruct (IH (world_of (expire env sub' w)) Hnd Hsub) as [Hgone Hquiet].
    split; [done|]. intros Hg e [Hin|Hin]%elem_of_app; [|by eapply Hquiet].
    destruct (Forall_only_elem _ _ _ _ _ Hev Hin) as [Ho _]. by injection Ho.
Qed.

(** C10.  A subscription whose expiry has passed and whose guild is not in
    the cache is deleted by the sweep, and the sweep performs no effect for
    it: no role is removed and no webhook is posted. *)
Theorem unresolved_guild_subscription_deleted w id row :
  subscriptions (store w) !! id = Some row →
  sub_expires_at row ≤ time_at env (ticks w) →
  guilds env !! sub_guild_id row = None →
  let x := _process_subscriptions env w in
  subscriptions (store (world_of x)) !! id = None
  ∧ ∀ e, (OfSubscription id, e) ∉ events_of x.
Proof.
  intros Hrow Hexp Hg. cbn zeta. rewrite process_subscriptions_run.
  cbn [result_of world_of events_of fst snd].
  set (now := time_at env (ticks w)) in *.
  set (x1 := for_each (expiring now (tick w)) (notify_expiring env) (tick w)).
  destruct (notify_loop_rows (expiring now (tick w)) (tick w) id row Hrow)
    as (row' & Hrow' & Hm). fold x1 in Hrow'.
  destruct (remarked_fields _ _ Hm) as [Hguild Hexpires].
  assert (Hin : as_subscription (id, row') ∈ expired now (world_of x1)).
  { apply elem_of_expired. simpl. split; [done|lia]. }
  destruct (expire_loop_deletes _ (world_of x1) _ (NoDup_expired now (world_of x1)) Hin)
    as [Hgone Hquiet].
  split; [done|].
  intros e [He|He]%elem_of_app.
  - revert He. apply notify_loop_quiet. intros sub Hsub Hid. right.
    apply elem_of_expiring in Hsub as [Hsub _]. rewrite Hid in Hsub. simpl in Hsub.
    rewrite Hrow in Hsub. injection Hsub as <-. done.
  - revert He. apply Hquiet. simpl. by rewrite Hguild.
Qed.
End SweepLoops.


(** ** The expiring-soon notice *)

Section Expiring.
Context (env : Env).

Lemma profile_of_keeps I J w w' k :
  keeps I J w w' → profile_of (store w') k = profile_of (store w) k.
Proof. intros (Hp & _). unfold profile_of. by rewrite Hp. Qed.

Lemma notify_loop_marks (L : list Subscription) w sub :
  NoDup (subscription_id <$> L) → sub ∈ L →
  subscriptions (store w) !! subscription_id sub = Some (subscription_row sub) →
  sub_last_notified_at (subscription_row sub) = None →
  let o := OfSubscription (subscription_id sub) in
  let row := subscription_row sub in
  let x := for_each L (notify_expiring env) w in
  (∃ n, (ticks w ≤ n < ticks (world_of x))%nat
        ∧ subscriptions (store (world_of x)) !! subscription_id sub
          = Some (set_notified (time_at env n) row))
  ∧ (∀ guild url,
       guilds env !! sub_guild_id row = Some guild →
       sub_webhook_url row = Some url → url ≠ ""%string →
       (o, PostWebhook url
             (subscription_event env "subscription_expiring" "expires_at" sub guild
                (profile_of (store w) (sub_payment_profile_id row)))) ∈ events_of x).
Proof.
  revert w. induction L as [|sub' L IH]; intros w Hnd Hsub Hrow Hn;
    [by apply elem_of_nil in Hsub|].
  rewrite fmap_cons in Hnd. apply NoDup_cons in Hnd as [Hs' Hnd].
  destruct (notify_expiring_step env sub' w) as (Hok & Hk & Hev).
  cbn zeta. rewrite for_each_cons_run by done. cbn [result_of world_of events_of fst snd].
  destruct (notify_loop_frame env L (world_of (notify_expiring env sub' w))) as [Hk' Hev'].
  apply elem_of_cons in Hsub as [->|Hsub].
  - clear IH. revert Hk' Hev'. rewrite notify_expiring_run by done.
    cbn [result_of world_of events_of fst snd]. intros Hk' Hev'.
    destruct (notify_subscription_expiring_run env sub' w) as (_ & Hst & Ht & _ & _ & Hpost).
    split.
    + exists (ticks w). destruct Hk' as (_ & _ & Hfr & Hticks).
      rewrite Hfr by done. unfold marked in *. simpl in *. rewrite Hst, Ht in *.
      rewrite lookup_alter_eq, Hrow. simpl. split; [lia|done].
    + intros guild url Hg Hu Hne. apply elem_of_app. left. by apply Hpost.
  - assert (Hne : subscription_id sub ≠ subscription_id sub').
    { intros E. apply Hs'. rewrite <- E. apply list_elem_of_fmap. eauto. }
    destruct (IH (world_of (notify_expiring env sub' w))) as [(n & Hn' & Hmark) Hpost];
      [done|done| |done|].
    { destruct Hk as (_ & _ & Hfr & _). by rewrite Hfr. }
    split.
    + exists n. split; [|done]. destruct Hk as (_ & _ & _ & Hticks). lia.
    + intros guild url Hg Hu Hurl. apply elem_of_app. right.
      rewrite <- (profile_of_keeps _ _ _ _ _ Hk). by apply Hpost.
Qed.

Lemma notify_loop_skips (L : list Subscription) w k :
  (∀ sub, sub ∈ L → subscription_id sub = k →
     sub_last_notified_at (subscription_row sub) ≠ None) →
  subscriptions (store (world_of (for_each L (notify_expiring env) w))) !! k
  = subscriptions (store w) !! k.
Proof.
  revert w. induction L as [|sub L IH]; intros w HL; [done|].
  destruct (notify_expiring_step env sub w) as (Hok & Hk & Hev).
  rewrite for_each_cons_run by done. cbn [result_of world_of events_of fst snd].
  rewrite IH by (intros sub' Hsub'; apply HL; by apply list_elem_of_further).
  destruct (decide (subscription_id sub = k)) as [E|E].
  - rewrite notify_expiring_skip; [done|]. apply HL; [apply list_elem_of_here|done].
  - destruct Hk as (_ & _ & Hfr & _). by apply Hfr.
Qed.

Lemma expire_loop_spares (now : Z) w k r :
  subscriptions (store w) !! k = Some r → now < sub_expires_at r →
  let x := for_each (expired now w) (expire env) w in
  subscriptions (store (world_of x)) !! k = Some r
  ∧ (ticks w ≤ ticks (world_of x))%nat
  ∧ ∀ e, (OfSubscription k, e) ∉ events_of x.
Proof.
  intros Hr Hlt x. subst x.
  assert (Hk : k ∉ subscription_id <$> expired now w).
  { intros (sub & -> & Hsub)%list_elem_of_fmap.
    apply elem_of_expired in Hsub as [Hrow Hle]. rewrite Hr in Hrow.
    injection Hrow as ->. lia. }
  destruct (expire_loop_frame env (expired now w) w) as [(_ & _ & Hfr & Hticks) Hev].
  split_and!; [by rewrite Hfr|done|].
  intros e. by eapply loop_silent.
Qed.

(** C3, amended.  For a subscription whose expiry falls within
    [[now, now + 1 day]]: when its last-notified mark is unset, the sweep
    posts the "subscription_expiring" event to its webhook (if the guild is
    in the cache and the webhook is set) and, unless the subscription also
    expires in this very sweep, leaves it marked with a reading of the
    clock taken during the sweep; when the mark is set, however old, the
    sweep performs no effect for it and leaves its row unchanged. *)
Theorem expiring_soon_notified_once w id row :
  subscriptions (store w) !! id = Some row →
  time_at env (ticks w) ≤ sub_expires_at row ≤ time_at env (ticks w) + days 1 →
  let now := time_at env (ticks w) in
  let x := _process_subscriptions env w in
  match sub_last_notified_at row with
  | None =>
      (∀ guild url,
         guilds env !! sub_guild_id row = Some guild →
         sub_webhook_url row = Some url → url ≠ ""%string →
         (OfSubscription id,
          PostWebhook url
            (subscription_event env "subscription_expiring" "expires_at"
               (as_subscription (id, row)) guild
               (profile_of (store w) (sub_payment_profile_id row)))) ∈ events_of x)
      ∧ (now < sub_expires_at row →
           ∃ n, (ticks w < n < ticks (world_of x))%nat
                ∧ subscriptions (store (world_of x)) !! id
                  = Some (set_notified (time_at env n) row))
  | Some _ =>
      now < sub_expires_at row →
      subscriptions (store (world_of x)) !! id = Some row
      ∧ ∀ e, (OfSubscription id, e) ∉ events_of x
  end.
Proof.
  intros Hrow Hwin now x. subst x. rewrite process_subscriptions_run.
  cbn [result_of world_of events_of fst snd]. fold now.
  set (x1 := for_each (expiring now (tick w)) (notify_expiring env) (tick w)).
  destruct (sub_last_notified_at row) as [t|] eqn:Hn.
  - intros Hlt.
    assert (Hrow1 : subscriptions (store (world_of x1)) !! id = Some row).
    { subst x1. rewrite notify_loop_skips; [done|].
      intros sub Hsub Hid. apply elem_of_expiring in Hsub as [Hsub _].
      rewrite Hid in Hsub. simpl in Hsub. rewrite Hrow in Hsub. injection Hsub as <-.
      congruence. }
    destruct (expire_loop_spares now (world_of x1) id row Hrow1 Hlt) as (Hkeep & _ & Hquiet).
    split; [done|]. intros e [He|He]%elem_of_app; [|by eapply Hquiet].
    revert He. apply notify_loop_quiet. intros sub Hsub Hid. left.
    apply elem_of_expiring in Hsub as [Hsub _].
    rewrite Hid in Hsub. simpl in Hsub. rewrite Hrow in Hsub. injection Hsub as <-.
    congruence.
  - assert (Hin : as_subscription (id, row) ∈ expiring now (tick w)).
    { apply elem_of_expiring. simpl. split; [done|].
      unfold is_expiring. rewrite Hn. subst now.
      repeat (apply andb_true_intro; split); try done; apply Z.leb_le; lia. }
    destruct (notify_loop_marks _ (tick w) _ (NoDup_expiring now (tick w)) Hin)
      as [(n & Hticks & Hmark) Hpost]; [done|done|].
    fold x1 in Hticks, Hmark, Hpost. simpl in *. split.
    + intros guild url Hg Hu Hne. apply elem_of_app. left. by apply Hpost.
    + intros Hlt.
      destruct (expire_loop_spares now (world_of x1) id _ Hmark Hlt) as (Hkeep & Ht & _).
      exists n. split; [lia|done].
Qed.
End Expiring.

(** ** The unused statement *)

(** [update_payment_session_status_check] touches the poll timestamp of a
    row and nothing else.  No function of the engine calls it. *)
Lemma update_payment_session_status_check_run env k w :
  update_payment_session_status_check env k w =
    (Ok tt,
     {| store := with_sessions
                   (alter (set_status_check (time_at env (ticks w))) k
                      (payment_sessions (store w)))
                   (session_seq (store w)) (store w);
        ticks := S (ticks w); calls := calls w |}, []).
Proof. reflexivity. Qed.

(** ** Scenarios *)


(** A reply without ["id"] is not refused: [str(None)] is ["None"]. *)
Lemma missing_identifier_is_accepted :
  reply_without_id !! "id" = None
  ∧ ∃ session,
      result_of (start_payment_session (gateway (Reply reply_without_id) down)
                   7 9 vip tenant (world ∅ ∅)) = Ok (session, reply_without_id)
      ∧ ps_anonpay_id session = "None"%string.
Proof. split; [reflexivity|]. eexists. split; [vm_compute; reflexivity|reflexivity]. Qed.


Lemma failed_creation_witness :
  store (world_of (start_payment_session (gateway down down) 7 9 vip tenant (world ∅ ∅)))
  = store (world ∅ ∅).
Proof.
  apply (failed_creation_persists_nothing (gateway down down) 7 9 vip tenant (world ∅ ∅)).
  reflexivity.
Defined.

(** C4, counterexample.  A profile parameter ["address"] replaces the
    payout address of the tenant in the request. *)
Lemma profile_address_overrides_tenant :
  checkout_params redirected tenant !! "address" = Some (PyStr "bc1qother")
  ∧ payout_address tenant = "bc1qtenant"%string.
Proof. split; reflexivity. Qed.



Lemma failed_poll_witness :
  payment_sessions (store (world_of (_process_payment_updates outage pending_world))) !! 1
  = payment_sessions (store pending_world) !! 1.
Proof.
  apply (failed_poll_leaves_session_untouched outage pending_world 1 status_url_abc
           "Timed out while fetching AnonPay status.").
  vm_compute. apply list_elem_of_here.
Defined.

Lemma expired_session_witness :
  payment_sessions (store (world_of (_process_payment_updates steady overdue_world))) !! 1 = None
  ∧ (OfSession 1, NotifyUser 9 "Payment Expired" "Payment session expired before completion.")
    ∈ events_of (_process_payment_updates steady overdue_world)
  ∧ (∀ url a, (OfSession 1, FetchStatus url a)
              ∉ events_of (_process_payment_updates steady overdue_world))
  ∧ ((OfSession 1, SendEmbed 9 "Payment Expired" "Payment session expired before completion.")
       ∈ events_of (_process_payment_updates steady overdue_world)
     ↔ user_reachable steady 9 = true).
Proof.
  apply (expired_session_purged_without_poll steady overdue_world 1 overdue).
  - reflexivity.
  - vm_compute. discriminate.
  - intros n Hn. simpl. unfold noon, minutes. lia.
  - reflexivity.
Defined.

(** C5, at the failing input.  The session was created from a reply whose
    status is ["Waiting"], stored as it came; the next poll answers
    ["Waiting"] again.  Only the fetched status is lower-cased, so the two
    compare as different and the transition handler runs. *)
Lemma capital_status_triggers_handler :
  sr_status <$> payment_sessions (store capital_world) !! 1 = Some "Waiting"%string
  ∧ status_at capital 1 status_url_abc = Reply (polled "Waiting")
  ∧ lower "Waiting" = lower "Waiting"
  ∧ events_of (_process_payment_updates capital capital_world)
    = [ (OfSession 1, FetchStatus status_url_abc (Reply (polled "Waiting")));
        (OfSession 1, StatusChange "waiting");
        (OfSession 1, PostWebhook "https://hook.example/pay"
                        (<["discord_id" := PyStr "9"]> (polled "Waiting"))) ].
Proof. split_and!; vm_compute; reflexivity. Qed.

(** C3, counterexample.  The subscription expires in twelve hours and was
    last notified two minutes ago: the query selects it, the loop skips
    it. *)
Lemma reminded_subscription_not_renotified :
  is_expiring (time_at outage 0) 1 reminded = true
  ∧ events_of (_process_subscriptions outage reminded_world) = []
  ∧ subscriptions (store (world_of (_process_subscriptions outage reminded_world)))
      !! 1 = Some reminded.
Proof. split_and!; vm_compute; reflexivity. Qed.

Lemma expiring_soon_witness :
  (∀ guild url,
     guilds outage !! 7 = Some guild →
     Some "https://hook.example/sub"%string = Some url → url ≠ ""%string →
     (OfSubscription 1,
      PostWebhook url
        (subscription_event outage "subscription_expiring" "expires_at"
           (as_subscription (1, fresh)) guild
           (profile_of (store fresh_world) 1)))
     ∈ events_of (_process_subscriptions outage fresh_world))
  ∧ (time_at outage 0 < sub_expires_at fresh →
       ∃ n, (0 < n < ticks (world_of (_process_subscriptions outage fresh_world)))%nat
            ∧ subscriptions
                (store (world_of (_process_subscriptions outage fresh_world))) !! 1
              = Some (set_notified (time_at outage n) fresh)).
Proof.
  apply (expiring_soon_notified_once outage fresh_world 1 fresh).
  - reflexivity.
  - vm_compute. split; discriminate.
Defined.

Lemma unresolved_guild_witness :
  subscriptions (store (world_of (_process_subscriptions outage orphan_world)))
    !! 1 = None
  ∧ ∀ e, (OfSubscription 1, e)
         ∉ events_of (_process_subscriptions outage orphan_world).
Proof.
  apply (unresolved_guild_subscription_deleted outage orphan_world 1 orphan).
  - reflexivity.
  - vm_compute. discriminate.
  - reflexivity.
Defined.

(** Two passes with the same answer: the second leaves the status and the
    payload of the row as the first wrote them. *)
Lemma second_poll_keeps_status_and_payload :
  (λ r, (sr_status r, sr_last_payload r)) <$>
    payment_sessions
      (store (world_of (_process_payment_updates steady
                          (world_of (_process_payment_updates steady pending_world))))) !! 1
  = (λ r, (sr_status r, sr_last_payload r)) <$>
      payment_sessions (store (world_of (_process_payment_updates steady pending_world))) !! 1.
Proof. vm_compute. reflexivity. Qed.

(** A payment that finishes: the role is granted, the session is retired
    and a subscription of thirty days is written. *)
Lemma finished_payment_grants_role_and_subscribes :
  (OfSession 1, AddRoles 7 9 5)
    ∈ events_of (_process_payment_updates settled pending_world)
  ∧ payment_sessions
      (store (world_of (_process_payment_updates settled
                          pending_world))) !! 1 = None
  ∧ sub_expires_at <$>
      subscriptions
        (store (world_of (_process_payment_updates settled
                            pending_world))) !! 1
    = Some (noon + 3 + days 30).
Proof.
  split_and!; [|vm_compute; reflexivity|vm_compute; reflexivity].
  vm_compute. do 3 apply list_elem_of_further. apply list_elem_of_here.
Qed.

(** * Further properties of the engine *)

(** ** The reconcile pass *)

Section PassOutcomes.

Context (env : Env).







(** X3.  A session whose expiry is older than twice the time-to-live at
    the start of a pass is not loaded: the pass leaves its row as it is
    (it is never purged by the engine) and performs no effect for it. *)
Theorem stale_session_ignored w sid row :
  payment_sessions (store w) !! sid = Some row →
  sr_expires_at row < time_at env (ticks w) - minutes (session_ttl_minutes env * 2) →
  let x := _process_payment_updates env w in
  payment_sessions (store (world_of x)) !! sid = Some row
  ∧ ∀ e, (OfSession sid, e) ∉ events_of x.
Proof.
  intros Hrow Hold. cbn zeta. rewrite process_payment_updates_run.
  assert (Hsid : sid ∉ ps_id <$> loaded env w).
  { intros (s & -> & Hs)%list_elem_of_fmap.
    apply elem_of_loaded in Hs as (row' & Hrow' & _ & Hc).
    rewrite Hrow in Hrow'. injection Hrow' as <-. lia. }
  destruct (sessions_loop env (loaded env w) (tick w)) as (_ & (_ & Hfr & _) & _).
  split; [by rewrite Hfr|]. intros e. by apply sessions_loop_silent.
Qed.

End PassOutcomes.

(** ** The sweep *)

Section SweepOutcomes.

Context (env : Env).

Lemma remarked_columns r r' :
  remarked r r' →
  sub_user_id r' = sub_user_id r
  ∧ sub_payment_profile_id r' = sub_payment_profile_id r
  ∧ sub_role_id r' = sub_role_id r
  ∧ sub_webhook_url r' = sub_webhook_url r.
Proof. by intros [->|[t ->]]. Qed.

Lemma notify_loop_absent (L : list Subscription) w j :
  subscriptions (store w) !! j = None →
  subscriptions (store (world_of (for_each L (notify_expiring env) w))) !! j = None.
Proof.
  revert w. induction L as [|sub L IH]; intros w Hj; [done|].
  destruct (notify_expiring_step env sub w) as (Hok & _ & _).
  rewrite for_each_cons_run by done. cbn [result_of world_of events_of fst snd].
  apply IH.
  destruct (sub_last_notified_at (subscription_row sub)) eqn:Hm.
  - rewrite notify_expiring_skip by (by rewrite Hm). done.
  - rewrite notify_expiring_run by done. cbn [result_of world_of events_of fst snd].
    destruct (notify_subscription_expiring_run env sub w) as (_ & Hst & _).
    unfold marked. cbn. rewrite Hst.
    destruct (decide (j = subscription_id sub)) as [->|Hne].
    + rewrite lookup_alter_eq, Hj. done.
    + by rewrite lookup_alter_ne.
Qed.

Lemma notify_loop_kinds (L : list Subscription) w :
  Forall (λ e : Event, kind e.2 ∈ [KWebhook; KLog])
    (events_of (for_each L (notify_expiring env) w)).
Proof.
  revert w. induction L as [|sub L IH]; intros w; [constructor|].
  destruct (notify_expiring_step env sub w) as (Hok & _ & Hev).
  rewrite for_each_cons_run by done. cbn [result_of world_of events_of fst snd].
  apply Forall_app. split; [|apply IH].
  eapply Forall_impl; [exact Hev|]. by intros e [_ ?].
Qed.

(** X4.  The subscriptions after a sweep: a sweep creates no row, deletes
    exactly the rows whose expiry is not after the reading of the clock it
    starts with, and changes at most the notification mark of a row it
    keeps. *)
Theorem sweep_table w id :
  let now := time_at env (ticks w) in
  let after := subscriptions (store (world_of (_process_subscriptions env w))) in
  match subscriptions (store w) !! id with
  | None => after !! id = None
  | Some row =>
      if sub_expires_at row <=? now then after !! id = None
      else ∃ row', after !! id = Some row' ∧ remarked row row'
  end.
Proof.
  cbn zeta. rewrite process_subscriptions_run. cbn [result_of world_of events_of fst snd].
  set (now := time_at env (ticks w)).
  set (x1 := for_each (expiring now (tick w)) (notify_expiring env) (tick w)).
  destruct (subscriptions (store w) !! id) as [row|] eqn:Hrow.
  - destruct (notify_loop_rows env (expiring now (tick w)) (tick w) id row Hrow)
      as (row' & Hrow' & Hre). fold x1 in Hrow'.
    destruct (remarked_fields _ _ Hre) as (_ & Hex).
    destruct (Z.leb_spec (sub_expires_at row) now) as [Hle|Hgt].
    + destruct (expire_loop_deletes env (expired now (world_of x1)) (world_of x1)
                  {| subscription_id := id; subscription_row := row' |}) as [Hdel _].
      * apply NoDup_expired.
      * apply elem_of_expired. simpl. split; [done|lia].
      * done.
    + destruct (expire_loop_spares env now (world_of x1) id row' Hrow') as (Hk & _); [lia|].
      eauto.
  - pose proof (notify_loop_absent (expiring now (tick w)) (tick w) id Hrow) as Hn.
    fold x1 in Hn.
    destruct (expire_loop_frame env (expired now (world_of x1)) (world_of x1))
      as [(_ & _ & Hfr & _) _].
    rewrite Hfr; [done|].
    intros (sub & -> & Hs)%list_elem_of_fmap.
    apply elem_of_expired in Hs as [Hs _]. by rewrite Hn in Hs.
Qed.

(** X5.  A subscription that expires more than a day after the start of a
    sweep keeps its row and causes no effect in that sweep. *)
Theorem distant_subscription_untouched w id row :
  subscriptions (store w) !! id = Some row →
  time_at env (ticks w) + days 1 < sub_expires_at row →
  let x := _process_subscriptions env w in
  subscriptions (store (world_of x)) !! id = Some row
  ∧ ∀ e, (OfSubscription id, e) ∉ events_of x.
Proof.
  intros Hrow Hfar. cbn zeta. rewrite process_subscriptions_run.
  cbn [result_of world_of events_of fst snd].
  set (now := time_at env (ticks w)) in *.
  set (x1 := for_each (expiring now (tick w)) (notify_expiring env) (tick w)).
  assert (Hid : id ∉ subscription_id <$> expiring now (tick w)).
  { intros (sub & -> & Hs)%list_elem_of_fmap.
    apply elem_of_expiring in Hs as [Hs Hexp]. simpl in Hs.
    rewrite Hrow in Hs. injection Hs as E. rewrite <- E in Hexp.
    unfold is_expiring in Hexp. apply andb_prop in Hexp as [Hexp _].
    apply andb_prop in Hexp as [_ Hexp]. apply Z.leb_le in Hexp. lia. }
  destruct (notify_loop_frame env (expiring now (tick w)) (tick w)) as [(_ & _ & Hfr & _) Hev1].
  fold x1 in Hfr, Hev1.
  assert (Hrow1 : subscriptions (store (world_of x1)) !! id = Some row).
  { by rewrite Hfr. }
  assert (0 <= days 1) by (unfold days; lia).
  destruct (expire_loop_spares env now (world_of x1) id row Hrow1) as (Hk & _ & Hq); [lia|].
  split; [done|]. intros e [Hin|Hin]%elem_of_app.
  - by apply (loop_silent _ _ _ id e Hev1 Hid).
  - by apply (Hq e).
Qed.

(** the events of one subscription in the second loop are those of its turn *)
Lemma expire_loop_turn (L : list Subscription) w sub :
  NoDup (subscription_id <$> L) → sub ∈ L →
  ∃ w', payment_profiles (store w') = payment_profiles (store w)
    ∧ ∀ e, (OfSubscription (subscription_id sub), e)
             ∈ events_of (for_each L (expire env) w)
           ↔ (OfSubscription (subscription_id sub), e)
             ∈ events_of (_expire_subscription env sub w').
Proof.
  revert w. induction L as [|s' L IH]; intros w Hnd Hs; [by apply elem_of_nil in Hs|].
  rewrite fmap_cons in Hnd. apply NoDup_cons in Hnd as [Hs' Hnd].
  destruct (expire_step env s' w) as (Hok & Hk & _ & Hev & _).
  apply elem_of_cons in Hs as [->|Hs].
  - exists w. split; [done|]. intros e.
    rewrite for_each_cons_run by done. cbn [result_of world_of events_of fst snd].
    destruct (expire_loop_frame env L (world_of (expire env s' w))) as [_ Hev'].
    assert (Hexp : events_of (expire env s' w) = events_of (_expire_subscription env s' w)).
    { unfold expire. rewrite bind_run.
      destruct (expire_subscription_run env s' w) as (Hok' & _). rewrite Hok'.
      cbn [result_of world_of events_of fst snd].
      unfold delete_subscription, db_delete_subscription, bind, get_store, set_store. simpl.
      by rewrite app_nil_r. }
    rewrite Hexp. split.
    + intros [?|Hin]%elem_of_app; [done|].
      by apply (loop_silent _ _ _ _ e Hev' Hs') in Hin.
    + intros ?. apply elem_of_app. by left.
  - assert (Hne : subscription_id sub ≠ subscription_id s').
    { intros E. apply Hs'. rewrite <- E. apply list_elem_of_fmap. eauto. }
    destruct (IH (world_of (expire env s' w)) Hnd Hs) as (w' & Hp & Hiff).
    exists w'. split.
    { destruct Hk as (Hp' & _). congruence. }
    intros e. rewrite <- Hiff.
    rewrite for_each_cons_run by done. cbn [result_of world_of events_of fst snd].
    split.
    + intros [Hin|?]%elem_of_app; [|done].
      destruct (Forall_only_elem _ _ _ _ _ Hev Hin) as [Ho _]. by injection Ho.
    + intros ?. apply elem_of_app. by right.
Qed.

Lemma expire_subscription_events sub w :
  let o := OfSubscription (subscription_id sub) in
  let row := subscription_row sub in
  (∀ g m r, (o, RemoveRoles g m r) ∈ events_of (_expire_subscription env sub w)
     ↔ g = sub_guild_id row ∧ m = sub_user_id row
       ∧ sub_role_id row = Some r ∧ r ≠ 0
       ∧ ∃ guild, guilds env !! g = Some guild
                  ∧ r ∈ guild_roles guild ∧ m ∈ guild_members guild)
  ∧ (∀ guild url, guilds env !! sub_guild_id row = Some guild →
       sub_webhook_url row = Some url → url ≠ ""%string →
       (o, PostWebhook url
             (subscription_event env "subscription_expired" "expired_at" sub guild
                (profile_of (store w) (sub_payment_profile_id row))))
         ∈ events_of (_expire_subscription env sub w)).
Proof.
  cbn zeta. unfold _expire_subscription, get_guild.
  destruct (guilds env !! sub_guild_id (subscription_row sub)) as [guild|] eqn:Hg.
  2:{ split.
      - intros g m r. split; [by intros ?%elem_of_nil|].
        intros (-> & _ & _ & _ & guild & Hg' & _). congruence.
      - intros ???; done. }
  unfold get_payment_profile_by_id, db_get_payment_profile_by_id.
  rewrite bind_query. fold (profile_of (store w) (sub_payment_profile_id (subscription_row sub))).
  set (profile := profile_of _ _).
  set (hook := match sub_webhook_url (subscription_row sub) with Some url => _ | None => _ end).
  assert (Hhook : ∀ w0, Forall (only (OfSubscription (subscription_id sub)) [KWebhook; KLog])
                          (events_of (hook w0))).
  { intros w0. subst hook. destruct (sub_webhook_url (subscription_row sub)) as [url|].
    - assert (Hfr : frames (only (OfSubscription (subscription_id sub)) [KWebhook; KLog]) any any
                (when (negb (String.eqb url ""))
                   (try_except
                      (post_webhook env (OfSubscription (subscription_id sub)) url
                         (subscription_event env "subscription_expired" "expired_at" sub guild profile))
                      (λ _, emit (OfSubscription (subscription_id sub))
                                 (LogWarning "Webhook delivery failed for subscription expired"))))).
      { frames_tac. }
      apply Hfr.
    - constructor. }
  rewrite bind_run.
  set (role := if int_truthy (sub_role_id (subscription_row sub))
               then sub_role_id (subscription_row sub) ≫= get_role guild else None).
  set (member := get_member guild (sub_user_id (subscription_row sub))).
  split.
  - intros g m r.
    assert (Hrole : ∀ r', role = Some r' ↔
              sub_role_id (subscription_row sub) = Some r' ∧ r' ≠ 0 ∧ r' ∈ guild_roles guild).
    { intros r'. subst role. destruct (sub_role_id (subscription_row sub)) as [r0|]; simpl.
      - destruct (Z.eqb_spec r0 0) as [->|Hnz]; simpl.
        + split; [done|]. intros (E & Hnz & _). by injection E as <-.
        + unfold get_role. case_bool_decide as Hin.
          * split; [by intros [= <-]|by intros (E & _)].
          * split; [done|]. intros (E & _ & Hin'). injection E as <-. done.
      - split; [done|by intros (E & _)]. }
    assert (Hmem : ∀ m', member = Some m' ↔
              m' = sub_user_id (subscription_row sub) ∧ m' ∈ guild_members guild).
    { intros m'. subst member. unfold get_member. case_bool_decide as Hin.
      - split; [by intros [= <-]|by intros [-> _]].
      - split; [done|]. by intros [-> ?]. }
    destruct member as [m0|] eqn:Em; destruct role as [r0|] eqn:Er;
      cbn [emit ret result_of world_of events_of fst snd].
    2,3,4: split;
      [ intros Hin; rewrite app_nil_l in Hin;
        destruct (Forall_only_elem _ _ _ _ _ (Hhook _) Hin) as [_ Hk]; simpl in Hk;
        repeat (apply elem_of_cons in Hk as [?|Hk]; [done|]); by apply elem_of_nil in Hk
      | intros (-> & -> & Hr & Hnz & guild' & Hg' & Hin1 & Hin2);
        rewrite Hg in Hg'; injection Hg' as <- ].
    + split.
      * intros [Hin|Hin]%elem_of_app.
        -- apply list_elem_of_singleton in Hin. injection Hin as -> -> ->.
           destruct (proj1 (Hrole r0) eq_refl) as (? & ? & ?).
           destruct (proj1 (Hmem m0) eq_refl) as (? & ?).
           split_and!; try done. exists guild. by rewrite Hg.
        -- destruct (Forall_only_elem _ _ _ _ _ (Hhook _) Hin) as [_ Hk]. simpl in Hk.
           repeat (apply elem_of_cons in Hk as [?|Hk]; [done|]). by apply elem_of_nil in Hk.
      * intros (-> & -> & Hr & Hnz & guild' & Hg' & Hin1 & Hin2).
        rewrite Hg in Hg'. injection Hg' as <-.
        apply elem_of_app. left.
        assert (E1 : Some r0 = Some r) by (by apply Hrole).
        assert (E2 : Some m0 = Some (sub_user_id (subscription_row sub))) by (by apply Hmem).
        injection E1 as ->. injection E2 as ->. apply list_elem_of_here.
    + assert (E : (None : option Z) = Some r) by (by apply Hrole). done.
    + assert (E : (None : option Z) = Some (sub_user_id (subscription_row sub)))
        by (by apply Hmem).
      done.
    + assert (E : (None : option Z) = Some r) by (by apply Hrole). done.
  - intros guild' url [= <-] Hurl Hne.
    assert (Hok : ∀ w0, result_of
              (match member, role with
               | Some member, Some role =>
                   emit (OfSubscription (subscription_id sub))
                     (RemoveRoles (sub_guild_id (subscription_row sub)) member role)
               | _, _ => ret tt
               end w0) = Ok tt ∧
              world_of (match member, role with
               | Some member, Some role =>
                   emit (OfSubscription (subscription_id sub))
                     (RemoveRoles (sub_guild_id (subscription_row sub)) member role)
               | _, _ => ret tt
               end w0) = w0).
    { intros w0. by destruct member, role. }
    destruct (Hok w) as [-> ->]. cbn [result_of world_of events_of fst snd].
    apply elem_of_app. right. subst hook. rewrite Hurl.
    assert (Hb : negb (String.eqb url "") = true).
    { apply negb_true_iff. by apply String.eqb_neq. }
    rewrite Hb. unfold when, try_except, post_webhook, outbound. simpl.
    match goal with |- context [webhook_at env ?n ?u ?p] => destruct (webhook_at env n u p) end;
      simpl; apply list_elem_of_here.
Qed.

(** X6.  A sweep calls [member.remove_roles] for a subscription exactly
    when the subscription has lapsed (its expiry is not after the start of
    the sweep), its guild is in the cache, its role id is set and not zero,
    and the guild has that role and that member; the call names the guild,
    the user and the role of the row. *)
Theorem role_removed_iff_lapsed w id g m r :
  (OfSubscription id, RemoveRoles g m r) ∈ events_of (_process_subscriptions env w)
  ↔ ∃ row, subscriptions (store w) !! id = Some row
      ∧ sub_expires_at row <= time_at env (ticks w)
      ∧ g = sub_guild_id row ∧ m = sub_user_id row
      ∧ sub_role_id row = Some r ∧ r ≠ 0
      ∧ ∃ guild, guilds env !! g = Some guild
                 ∧ r ∈ guild_roles guild ∧ m ∈ guild_members guild.
Proof.
  rewrite process_subscriptions_run. cbn [result_of world_of events_of fst snd].
  set (now := time_at env (ticks w)).
  set (x1 := for_each (expiring now (tick w)) (notify_expiring env) (tick w)).
  split.
  - intros [Hin|Hin]%elem_of_app.
    { pose proof (notify_loop_kinds (expiring now (tick w)) (tick w)) as Hk.
      rewrite Forall_forall in Hk. apply Hk in Hin. simpl in Hin.
      repeat (apply elem_of_cons in Hin as [?|Hin]; [done|]). by apply elem_of_nil in Hin. }
    destruct (expire_loop_frame env (expired now (world_of x1)) (world_of x1)) as [_ Hev].
    rewrite Forall_forall in Hev. destruct (Hev _ Hin) as (sub & Hs & Ho).
    simpl in Ho. injection Ho as ->.
    destruct (expire_loop_turn (expired now (world_of x1)) (world_of x1) sub
                (NoDup_expired _ _) Hs) as (w' & _ & Hiff).
    apply Hiff in Hin.
    apply (proj1 (expire_subscription_events sub w')) in Hin
      as (-> & -> & Hr & Hnz & guild & Hg & Hin1 & Hin2).
    apply elem_of_expired in Hs as [Hs Hle].
    destruct (subscriptions (store w) !! subscription_id sub) as [row|] eqn:Hrow.
    + destruct (notify_loop_rows env (expiring now (tick w)) (tick w) _ row Hrow)
        as (row' & Hrow' & Hre). fold x1 in Hrow'.
      rewrite Hs in Hrow'. injection Hrow' as <-.
      destruct (remarked_fields _ _ Hre) as (Hgd & Hex).
      destruct (remarked_columns _ _ Hre) as (Hu & _ & Hrl & _).
      exists row. rewrite <- Hgd, <- Hex, <- Hu, <- Hrl. split_and!; try done. eauto.
    + pose proof (notify_loop_absent (expiring now (tick w)) (tick w) _ Hrow) as Hn.
      fold x1 in Hn. by rewrite Hn in Hs.
  - intros (row & Hrow & Hle & -> & -> & Hr & Hnz & guild & Hg & Hin1 & Hin2).
    destruct (notify_loop_rows env (expiring now (tick w)) (tick w) _ row Hrow)
      as (row' & Hrow' & Hre). fold x1 in Hrow'.
    destruct (remarked_fields _ _ Hre) as (Hgd & Hex).
    destruct (remarked_columns _ _ Hre) as (Hu & _ & Hrl & _).
    set (sub := {| subscription_id := id; subscription_row := row' |}).
    assert (Hs : sub ∈ expired now (world_of x1)).
    { apply elem_of_expired. simpl. split; [done|lia]. }
    destruct (expire_loop_turn (expired now (world_of x1)) (world_of x1) sub
                (NoDup_expired _ _) Hs) as (w' & _ & Hiff).
    apply elem_of_app. right. apply (Hiff (RemoveRoles _ _ _)).
    apply (proj1 (expire_subscription_events sub w')). simpl.
    rewrite Hgd, Hu, Hrl. split_and!; try done. eauto.
Qed.

(** X7.  For a lapsed subscription whose guild is in the cache and whose
    webhook is set, the sweep posts the "subscription_expired" event, with
    the user, the guild, the name of the payment profile (or "unknown") and
    the expiry, to that webhook. *)
Theorem lapsed_subscription_webhook w id row guild url :
  subscriptions (store w) !! id = Some row →
  sub_expires_at row <= time_at env (ticks w) →
  guilds env !! sub_guild_id row = Some guild →
  sub_webhook_url row = Some url → url ≠ ""%string →
  (OfSubscription id,
   PostWebhook url
     (subscription_event env "subscription_expired" "expired_at"
        {| subscription_id := id; subscription_row := row |} guild
        (profile_of (store w) (sub_payment_profile_id row))))
    ∈ events_of (_process_subscriptions env w).
Proof.
  intros Hrow Hle Hg Hurl Hne.
  rewrite process_subscriptions_run. cbn [result_of world_of events_of fst snd].
  set (now := time_at env (ticks w)) in *.
  set (x1 := for_each (expiring now (tick w)) (notify_expiring env) (tick w)).
  destruct (notify_loop_rows env (expiring now (tick w)) (tick w) _ row Hrow)
    as (row' & Hrow' & Hre). fold x1 in Hrow'.
  destruct (remarked_fields _ _ Hre) as (Hgd & Hex).
  destruct (remarked_columns _ _ Hre) as (Hu & Hp & Hrl & Hwh).
  set (sub := {| subscription_id := id; subscription_row := row' |}).
  assert (Hs : sub ∈ expired now (world_of x1)).
  { apply elem_of_expired. simpl. split; [done|lia]. }
  destruct (expire_loop_turn (expired now (world_of x1)) (world_of x1) sub
              (NoDup_expired _ _) Hs) as (w' & Hprof & Hiff).
  apply elem_of_app. right.
  destruct (notify_loop_frame env (expiring now (tick w)) (tick w)) as [(Hp1 & _) _].
  fold x1 in Hp1.
  assert (Hpay : subscription_event env "subscription_expired" "expired_at"
                   {| subscription_id := id; subscription_row := row |} guild
                   (profile_of (store w) (sub_payment_profile_id row))
                 = subscription_event env "subscription_expired" "expired_at" sub guild
                     (profile_of (store w') (sub_payment_profile_id row'))).
  { unfold subscription_event, profile_of. simpl.
    rewrite Hgd, Hex, Hu, Hp, Hprof, Hp1. done. }
  rewrite Hpay. apply (Hiff (PostWebhook _ _)).
  apply (proj2 (expire_subscription_events sub w')); simpl; congruence.
Qed.

End SweepOutcomes.

(** ** Subscriptions of finished payments *)

Section Upsert.
Context (env : Env).

Lemma same_subscriber_spec g u p r :
  same_subscriber g u p r = true ↔ subscriber r = (g, u, p).
Proof.
  unfold same_subscriber, subscriber. rewrite !andb_true_iff, !Z.eqb_eq.
  split; [by intros [[-> ->] ->]|by intros [= -> -> ->]].
Qed.

Lemma existsb_conflict g u p (t : gmap Z SubscriptionRow) :
  existsb (λ kr : Z * SubscriptionRow, same_subscriber g u p kr.2) (map_to_list t) = true
  ↔ ∃ k r, t !! k = Some r ∧ subscriber r = (g, u, p).
Proof.
  rewrite existsb_exists. split.
  - intros ([k r] & Hin & Hc). exists k, r. split.
    + apply elem_of_map_to_list. by apply list_elem_of_In.
    + by apply same_subscriber_spec.
  - intros (k & r & Hk & Hc). exists (k, r). split.
    + apply list_elem_of_In. by apply elem_of_map_to_list.
    + by apply same_subscriber_spec.
Qed.

(** what the table holds after an upsert that the database accepts *)
Lemma db_upsert_subscription_table g u p role ex wh w :
  let t := subscriptions (store w) in
  let x := db_upsert_subscription env g u p role ex wh w in
  let t' := subscriptions (store (world_of x)) in
  is_Some (payment_profiles (store w) !! p)
  ∨ (∃ id row, t !! id = Some row ∧ subscriber row = (g, u, p)) →
  result_of x = Ok tt
  ∧ (∃ id row, t' !! id = Some row ∧ subscriber row = (g, u, p))
  ∧ (∀ id row, t' !! id = Some row → subscriber row = (g, u, p) →
       sub_role_id row = role ∧ sub_expires_at row = ex ∧ sub_webhook_url row = wh
       ∧ sub_last_notified_at row = None
       ∧ sub_created_at row = match t !! id with
                              | Some r => sub_created_at r
                              | None => time_at env (ticks w)
                              end)
  ∧ (∀ id row, subscriber row ≠ (g, u, p) → t' !! id = Some row ↔ t !! id = Some row)
  ∧ subscription_seq (store (world_of x)) = next_rowid (subscription_seq (store w)) t.
Proof.
  cbn zeta. intros Hp. rewrite db_upsert_subscription_run. cbn zeta.
  set (t := subscriptions (store w)).
  destruct (existsb _ _) eqn:Hex.
  - cbn [result_of world_of events_of fst snd store with_subscriptions subscriptions
         subscription_seq].
    apply existsb_conflict in Hex as (k & r & Hk & Hc).
    assert (Hfm : ∀ id row, ((λ r, if same_subscriber g u p r then renew role ex wh r else r) <$> t) !! id = Some row
              ↔ ∃ r0, t !! id = Some r0 ∧
                  row = if same_subscriber g u p r0 then renew role ex wh r0 else r0).
    { intros id row. rewrite lookup_fmap. destruct (t !! id) as [r0|]; simpl.
      - split; [intros [= <-]; eauto|]. by intros (r1 & [= <-] & ->).
      - split; [done|]. by intros (? & ? & _). }
    assert (Hsub : ∀ r0, subscriber (if same_subscriber g u p r0 then renew role ex wh r0 else r0)
                         = subscriber r0).
    { intros r0. by destruct (same_subscriber g u p r0). }
    split_and!; [done|..|done].
    + exists k, (renew role ex wh r). split; [|done].
      apply Hfm. exists r. split; [done|].
      by rewrite (proj2 (same_subscriber_spec g u p r) Hc).
    + intros id row (r0 & Hr0 & ->)%Hfm Hs. rewrite Hsub in Hs.
      rewrite (proj2 (same_subscriber_spec g u p r0) Hs), Hr0. done.
    + intros id row Hne. rewrite Hfm. split.
      * intros (r0 & Hr0 & ->). rewrite Hsub in Hne.
        destruct (same_subscriber g u p r0) eqn:E; [|done].
        by apply same_subscriber_spec in E.
      * intros Hr0. exists row. split; [done|].
        destruct (same_subscriber g u p row) eqn:E; [|done].
        by apply same_subscriber_spec in E.
  - assert (Hno : ∀ k r, t !! k = Some r → subscriber r ≠ (g, u, p)).
    { intros k r Hk Hc. assert (E : existsb (λ kr : Z * SubscriptionRow, same_subscriber g u p kr.2)
                                     (map_to_list t) = true).
      { apply existsb_conflict. eauto. }
      congruence. }
    assert (Hprof : is_Some (payment_profiles (store w) !! p)).
    { destruct Hp as [Hp|(k & r & Hk & Hc)]; [done|]. by destruct (Hno _ _ Hk). }
    rewrite (bool_decide_eq_true_2 _ Hprof).
    cbn [result_of world_of events_of fst snd store with_subscriptions subscriptions
         subscription_seq].
    set (rowid := next_rowid (subscription_seq (store w)) t).
    assert (Hfresh : t !! rowid = None).
    { apply next_rowid_fresh. }
    split_and!; [done|..|done].
    + eexists rowid, _. rewrite lookup_insert_eq. done.
    + intros id row Hid Hs. destruct (decide (id = rowid)) as [->|Hne].
      * rewrite lookup_insert_eq in Hid. injection Hid as <-. by rewrite Hfresh.
      * rewrite lookup_insert_ne in Hid by done. by destruct (Hno _ _ Hid).
    + intros id row Hne. destruct (decide (id = rowid)) as [->|Hni].
      * rewrite lookup_insert_eq, Hfresh. split; [|done]. by intros [= <-].
      * by rewrite lookup_insert_ne.
Qed.

(** an upsert for a profile without a row, by a subscriber without a row, is
    refused and writes nothing *)
Lemma db_upsert_subscription_refused g u p role ex wh w :
  payment_profiles (store w) !! p = None →
  (∀ id row, subscriptions (store w) !! id = Some row → subscriber row ≠ (g, u, p)) →
  db_upsert_subscription env g u p role ex wh w =
  (Raise (IntegrityError "FOREIGN KEY constraint failed"),
   {| store := store w; ticks := S (ticks w); calls := calls w |}, []).
Proof.
  intros Hp Hno. rewrite db_upsert_subscription_run. cbn zeta.
  destruct (existsb _ _) eqn:Hex.
  - apply existsb_conflict in Hex as (k & r & Hk & Hc). by destruct (Hno _ _ Hk).
  - rewrite bool_decide_eq_false_2; [done|]. rewrite Hp. by intros [? ?].
Qed.

(** an upsert never gives one subscriber two rows *)
Lemma db_upsert_subscription_unique g u p role ex wh w :
  unique_subscribers (subscriptions (store w)) →
  unique_subscribers
    (subscriptions (store (world_of (db_upsert_subscription env g u p role ex wh w)))).
Proof.
  intros Hun. rewrite db_upsert_subscription_run. cbn zeta.
  set (t := subscriptions (store w)) in *.
  destruct (existsb _ _) eqn:Hex.
  - cbn [world_of fst snd store with_subscriptions subscriptions].
    intros i j r1 r2 H1 H2. rewrite lookup_fmap in H1, H2.
    destruct (t !! i) as [r1'|] eqn:E1; [|done]. destruct (t !! j) as [r2'|] eqn:E2; [|done].
    simpl in H1, H2. injection H1 as <-. injection H2 as <-.
    intros Hs. apply (Hun i j r1' r2' E1 E2).
    by destruct (same_subscriber g u p r1'), (same_subscriber g u p r2').
  - assert (Hno : ∀ k r, t !! k = Some r → subscriber r ≠ (g, u, p)).
    { intros k r Hk Hc. assert (E : existsb (λ kr : Z * SubscriptionRow, same_subscriber g u p kr.2)
                                     (map_to_list t) = true).
      { apply existsb_conflict. eauto. }
      congruence. }
    destruct (bool_decide _); [|done].
    cbn [world_of fst snd store with_subscriptions subscriptions].
    set (rowid := next_rowid (subscription_seq (store w)) t).
    intros i j r1 r2 H1 H2 Hs.
    destruct (decide (i = rowid)) as [->|Hi]; destruct (decide (j = rowid)) as [->|Hj]; [done|..].
    + rewrite lookup_insert_eq in H1. injection H1 as <-.
      rewrite lookup_insert_ne in H2 by done. by destruct (Hno _ _ H2).
    + rewrite lookup_insert_eq in H2. injection H2 as <-.
      rewrite lookup_insert_ne in H1 by done. by destruct (Hno _ _ H1).
    + rewrite lookup_insert_ne in H1, H2 by done. by apply (Hun i j r1 r2).
Qed.

(** X8.  [Database.upsert_subscription], for a subscriber (guild, user,
    profile).  When the subscriber already has a row, or the profile has a
    row in [payment_profiles], the statement is carried out: afterwards the
    table has a row for the subscriber; every row of that subscriber carries
    the given role, expiry and webhook, has no notification mark, and keeps
    the creation time it had if it existed before; the rows of other
    subscribers are exactly those of before; and the row counter of the
    table has moved to the next free number, also when the statement only
    renewed a row.  When the subscriber has no row and the profile has none
    either, the foreign key refuses the statement: [IntegrityError] is
    raised and the tables are as before.  In every case, if no two rows had
    the same subscriber before, none have afterwards. *)
Theorem upsert_renews_the_one_subscription g u p role ex wh w :
  let t := subscriptions (store w) in
  let x := db_upsert_subscription env g u p role ex wh w in
  let t' := subscriptions (store (world_of x)) in
  (is_Some (payment_profiles (store w) !! p)
   ∨ (∃ id row, t !! id = Some row ∧ subscriber row = (g, u, p)) →
   result_of x = Ok tt
   ∧ (∃ id row, t' !! id = Some row ∧ subscriber row = (g, u, p))
   ∧ (∀ id row, t' !! id = Some row → subscriber row = (g, u, p) →
        sub_role_id row = role ∧ sub_expires_at row = ex ∧ sub_webhook_url row = wh
        ∧ sub_last_notified_at row = None
        ∧ sub_created_at row = match t !! id with
                               | Some r => sub_created_at r
                               | None => time_at env (ticks w)
                               end)
   ∧ (∀ id row, subscriber row ≠ (g, u, p) → t' !! id = Some row ↔ t !! id = Some row)
   ∧ subscription_seq (store (world_of x)) = next_rowid (subscription_seq (store w)) t)
  ∧ (payment_profiles (store w) !! p = None →
     (∀ id row, t !! id = Some row → subscriber row ≠ (g, u, p)) →
     result_of x = Raise (IntegrityError "FOREIGN KEY constraint failed")
     ∧ store (world_of x) = store w)
  ∧ (unique_subscribers t → unique_subscribers t').
Proof.
  cbn zeta. split_and!.
  - apply db_upsert_subscription_table.
  - intros Hp Hno. by rewrite db_upsert_subscription_refused.
  - apply db_upsert_subscription_unique.
Qed.

End Upsert.

Section Finished.
Context (env : Env).

Lemma handle_finished_run (s : PaymentSession) payload w :
  let o := OfSession (ps_id s) in
  let guild := guilds env !! ps_guild_id s in
  let profile := match guild with
                 | Some _ => profile_of (store w) (ps_profile_id s)
                 | None => None
                 end in
  ∃ w1 pre, store w1 = store w ∧ ticks w1 = ticks w
    ∧ Forall (only o [KWebhook; KLog]) pre
    ∧ _handle_status_change env s "finished" payload w =
      (let x := _handle_successful_payment env s guild profile payload w1 in
       (result_of x, world_of x, (o, StatusChange "finished") :: pre ++ events_of x)).
Proof.
  cbn zeta. destruct (session_webhook_run env s payload w) as (w1 & pre & Hrun & Hst & Htk & Hpre).
  exists w1, pre. split_and!; try done.
  unfold _handle_status_change. rewrite bind_run. cbn [emit result_of world_of events_of fst snd].
  rewrite bind_run. cbn zeta in Hrun. rewrite Hrun. cbn [result_of world_of events_of fst snd].
  unfold get_guild, get_payment_profile_by_id, db_get_payment_profile_by_id.
  destruct (guilds env !! ps_guild_id s) as [guild|].
  - rewrite bind_query. fold (profile_of (store w1) (ps_profile_id s)). rewrite Hst. simpl. done.
  - rewrite bind_run. cbn [ret result_of world_of events_of fst snd]. simpl. done.
Qed.

Lemma resolved_role guild role_id r' :
  (if int_truthy role_id then role_id ≫= get_role guild else None) = Some r'
  ↔ role_id = Some r' ∧ r' ≠ 0 ∧ r' ∈ guild_roles guild.
Proof.
  destruct role_id as [r0|]; simpl.
  - destruct (Z.eqb_spec r0 0) as [->|Hnz]; simpl.
    + split; [done|]. intros (E & Hnz & _). by injection E as <-.
    + unfold get_role. case_bool_decide as Hin.
      * split; [by intros [= <-]|by intros (E & _)].
      * split; [done|]. intros (E & _ & Hin'). injection E as <-. done.
  - split; [done|by intros (E & _)].
Qed.

Lemma resolved_member guild user m' :
  get_member guild user = Some m' ↔ m' = user ∧ m' ∈ guild_members guild.
Proof.
  unfold get_member. case_bool_decide as Hin.
  - split; [by intros [= <-]|by intros [-> _]].
  - split; [done|]. by intros [-> ?].
Qed.

(** after the role: the subscription and the activation webhook *)
Lemma activation_run (s : PaymentSession) (profile : Profile) payload w :
  let o := OfSession (ps_id s) in
  let duration_days := pp_duration_days (profile_row profile) in
  let webhook_url :=
    text_or (ps_webhook_url s) (dict_get (pp_parameters (profile_row profile)) "webhook") in
  let rest :=
    bind (when (int_truthy duration_days)
            (bind (upsert_subscription env s profile webhook_url) (λ _, ret tt)))
      (λ _, when (truthy webhook_url)
         (try_except
            (post_webhook env o (py_str webhook_url)
               (<["subscription_active" := PyBool true]>
                  (<["discord_id" := PyStr (pretty (ps_user_id s))]> payload)))
            (λ exc, emit o (LogWarning "Webhook delivery failed for subscription activation")))) in
  (is_Some (payment_profiles (store w) !! ps_profile_id s) → result_of (rest w) = Ok tt)
  ∧ Forall (only o [KWebhook; KLog]) (events_of (rest w))
  ∧ subscriptions (store (world_of (rest w))) =
      match duration_days with
      | Some d =>
          if d =? 0 then subscriptions (store w)
          else subscriptions (store (world_of
                 (db_upsert_subscription env (ps_guild_id s) (ps_user_id s) (ps_profile_id s)
                    (pp_role_id (profile_row profile)) (time_at env (ticks w) + days d)
                    (sql_text webhook_url) (tick w))))
      | None => subscriptions (store w)
      end.
Proof.
  cbn zeta.
  set (wh := text_or _ _).
  set (post := when (truthy wh) _).
  assert (Hpost : ∀ w0, result_of (post w0) = Ok tt ∧ store (world_of (post w0)) = store w0
                        ∧ Forall (only (OfSession (ps_id s)) [KWebhook; KLog]) (events_of (post w0))).
  { intros w0. subst post. destruct (truthy wh); simpl; [|by repeat split].
    unfold try_except, post_webhook, outbound, emit. simpl.
    match goal with |- context [webhook_at env ?n ?u ?p] =>
      destruct (webhook_at env n u p) as [[]|] end;
      simpl; split_and!; try done; repeat constructor; solve_elem. }
  rewrite bind_run.
  destruct (pp_duration_days (profile_row profile)) as [d|] eqn:Hd;
    cbn [int_truthy].
  - destruct (Z.eqb_spec d 0) as [->|Hnz];
      cbn [negb when ret result_of world_of events_of fst snd].
    + destruct (Hpost w) as (? & -> & ?). done.
    + unfold upsert_subscription. rewrite Hd.
      destruct (Z.eqb_spec d 0) as [|_]; [done|].
      rewrite !bind_run. cbn [utc_now result_of world_of events_of fst snd].
      rewrite !bind_run.
      destruct (db_upsert_subscription_cases env (ps_guild_id s) (ps_user_id s) (ps_profile_id s)
                  (pp_role_id (profile_row profile)) (time_at env (ticks w) + days d)
                  (sql_text wh) (tick w)) as (r & w' & Hrun & Hr).
      unfold tick in *. rewrite Hrun.
      destruct Hr as [->|[-> Hn]]; cbn [ret result_of world_of events_of fst snd].
      * match goal with |- context [post ?w0] => destruct (Hpost w0) as (Hr & Hs & He) end.
        rewrite Hr, Hs. split_and!; done.
      * split_and!; [|done..]. simpl in Hn. rewrite Hn. by intros [? ?].
  - cbn [when ret result_of world_of events_of fst snd].
    destruct (Hpost w) as (? & -> & ?). done.
Qed.

(** X9.  [_handle_status_change] calls [member.add_roles] exactly when the
    status is "finished", the guild of the session is in the cache, the
    payment profile of the session exists, its role id is set and not zero,
    and the guild has that role and the paying user as a member; the call
    names the guild and the user of the session and the role of the
    profile. *)
Theorem role_granted_iff_resolved (s : PaymentSession) status payload w g m r :
  (OfSession (ps_id s), AddRoles g m r)
    ∈ events_of (_handle_status_change env s status payload w)
  ↔ status = "finished"%string ∧ g = ps_guild_id s ∧ m = ps_user_id s
    ∧ ∃ guild row, guilds env !! g = Some guild
        ∧ payment_profiles (store w) !! ps_profile_id s = Some row
        ∧ pp_role_id row = Some r ∧ r ≠ 0
        ∧ r ∈ guild_roles guild ∧ m ∈ guild_members guild.
Proof.
  destruct (decide (status = "finished"%string)) as [->|Hne].
  2:{ split; [|by intros [? _]]. intros Hin.
      destruct (handle_status_change_run env s status payload w)
        as (rest & Hev & _ & _ & _ & Hother).
      destruct (Hother Hne) as [Hk _]. rewrite Hev in Hin.
      apply elem_of_cons in Hin as [?|Hin]; [done|].
      destruct (Forall_only_elem _ _ _ _ _ Hk Hin) as [_ Hkd]. simpl in Hkd.
      repeat (apply elem_of_cons in Hkd as [?|Hkd]; [done|]). by apply elem_of_nil in Hkd. }
  destruct (handle_finished_run s payload w) as (w1 & pre & Hst & Htk & Hpre & ->).
  cbn [result_of world_of events_of fst snd].
  assert (Hskip : ∀ evs, (OfSession (ps_id s), AddRoles g m r)
                           ∈ (OfSession (ps_id s), StatusChange "finished") :: pre ++ evs
                         ↔ (OfSession (ps_id s), AddRoles g m r) ∈ evs).
  { intros evs. split.
    - intros [?|[Hin|?]%elem_of_app]%elem_of_cons; [done| |done].
      destruct (Forall_only_elem _ _ _ _ _ Hpre Hin) as [_ Hkd]. simpl in Hkd.
      repeat (apply elem_of_cons in Hkd as [?|Hkd]; [done|]). by apply elem_of_nil in Hkd.
    - intros ?. apply list_elem_of_further, elem_of_app. by right. }
  rewrite Hskip. unfold _handle_successful_payment.
  destruct (guilds env !! ps_guild_id s) as [guild|] eqn:Hg.
  2:{ split; [by intros ?%elem_of_nil|].
      intros (_ & -> & _ & guild & ? & Hg' & _). congruence. }
  unfold profile_of.
  destruct (payment_profiles (store w) !! ps_profile_id s) as [prow|] eqn:Hp; simpl.
  2:{ split; [by intros ?%elem_of_nil|].
      intros (_ & _ & _ & ? & ? & _ & ? & _). congruence. }
  rewrite bind_run.
  set (profile := {| profile_id := ps_profile_id s; profile_row := prow |}).
  pose proof (resolved_role guild (pp_role_id prow)) as Hrole.
  pose proof (resolved_member guild (ps_user_id s)) as Hmem.
  assert (Hrest : ∀ w0 evs, events_of (bind (when (int_truthy (pp_duration_days prow))
               (bind (upsert_subscription env s profile
                  (text_or (ps_webhook_url s) (dict_get (pp_parameters prow) "webhook")))
                  (λ _, ret tt)))
            (λ _, when (truthy (text_or (ps_webhook_url s) (dict_get (pp_parameters prow) "webhook")))
               (try_except
                  (post_webhook env (OfSession (ps_id s))
                     (py_str (text_or (ps_webhook_url s) (dict_get (pp_parameters prow) "webhook")))
                     (<["subscription_active" := PyBool true]>
                        (<["discord_id" := PyStr (pretty (ps_user_id s))]> payload)))
                  (λ exc, emit (OfSession (ps_id s))
                     (LogWarning "Webhook delivery failed for subscription activation")))) w0) = evs →
            (OfSession (ps_id s), AddRoles g m r) ∉ evs).
  { intros w0 evs <- Hin.
    destruct (activation_run s profile payload w0) as (_ & Hk & _). cbn zeta in Hk.
    destruct (Forall_only_elem _ _ _ _ _ Hk Hin) as [_ Hkd]. simpl in Hkd.
    repeat (apply elem_of_cons in Hkd as [?|Hkd]; [done|]). by apply elem_of_nil in Hkd. }
  destruct (if int_truthy (pp_role_id prow) then pp_role_id prow ≫= get_role guild else None)
    as [r0|] eqn:Er;
    destruct (get_member guild (ps_user_id s)) as [m0|] eqn:Em;
    cbn [emit ret result_of world_of events_of fst snd].
  - split.
    + intros [Hin|Hin]%elem_of_app; [|by eapply Hrest in Hin].
      apply list_elem_of_singleton in Hin. injection Hin as -> -> ->.
      destruct (proj1 (Hrole r0) eq_refl) as (? & ? & ?).
      destruct (proj1 (Hmem m0) eq_refl) as (? & ?). subst m0.
      split_and!; try done. exists guild, prow. by rewrite Hg.
    + intros (_ & -> & -> & guild' & row' & Hg' & [= <-] & Hr & Hnz & Hin1 & Hin2).
      rewrite Hg in Hg'. injection Hg' as <-.
      assert (E1 : Some r0 = Some r) by (by apply Hrole).
      assert (E2 : Some m0 = Some (ps_user_id s)) by (by apply Hmem).
      injection E1 as ->. injection E2 as ->.
      apply elem_of_app. left. apply list_elem_of_here.
  - split; [intros Hin; rewrite app_nil_l in Hin; by eapply Hrest in Hin|].
    intros (_ & -> & -> & guild' & row' & Hg' & [= <-] & Hr & Hnz & Hin1 & Hin2).
    rewrite Hg in Hg'. injection Hg' as <-.
    assert (E2 : (None : option Z) = Some (ps_user_id s)) by (by apply Hmem). done.
  - split; [intros Hin; rewrite app_nil_l in Hin; by eapply Hrest in Hin|].
    intros (_ & -> & -> & guild' & row' & Hg' & [= <-] & Hr & Hnz & Hin1 & Hin2).
    rewrite Hg in Hg'. injection Hg' as <-.
    assert (E1 : (None : option Z) = Some r) by (by apply Hrole). done.
  - split; [intros Hin; rewrite app_nil_l in Hin; by eapply Hrest in Hin|].
    intros (_ & -> & -> & guild' & row' & Hg' & [= <-] & Hr & Hnz & Hin1 & Hin2).
    rewrite Hg in Hg'. injection Hg' as <-.
    assert (E1 : (None : option Z) = Some r) by (by apply Hrole). done.
Qed.

(** the subscriptions after the handler of a finished payment *)
Lemma handle_finished_subscriptions (s : PaymentSession) payload w :
  subscriptions (store (world_of (_handle_status_change env s "finished" payload w))) =
  match guilds env !! ps_guild_id s, payment_profiles (store w) !! ps_profile_id s with
  | Some _, Some row =>
      match pp_duration_days row with
      | Some d =>
          if d =? 0 then subscriptions (store w)
          else subscriptions (store (world_of
                 (db_upsert_subscription env (ps_guild_id s) (ps_user_id s) (ps_profile_id s)
                    (pp_role_id row) (time_at env (ticks w) + days d)
                    (sql_text (text_or (ps_webhook_url s) (dict_get (pp_parameters row) "webhook")))
                    (tick w))))
      | None => subscriptions (store w)
      end
  | _, _ => subscriptions (store w)
  end.
Proof.
  destruct (handle_finished_run s payload w) as (w1 & pre & Hst & Htk & Hpre & ->).
  cbn [result_of world_of events_of fst snd].
  unfold _handle_successful_payment.
  destruct (guilds env !! ps_guild_id s) as [guild|] eqn:Hg;
    [|unfold ret, world_of; simpl; by rewrite Hst].
  unfold profile_of.
  destruct (payment_profiles (store w) !! ps_profile_id s) as [prow|] eqn:Hp;
    cbn [fmap option_fmap option_map];
    [|unfold ret, world_of; simpl; by rewrite Hst].
  rewrite bind_run.
  set (profile := {| profile_id := ps_profile_id s; profile_row := prow |}).
  assert (Hrole : ∀ w0,
    let m := match (if int_truthy (pp_role_id (profile_row profile))
                    then pp_role_id (profile_row profile) ≫= get_role guild
                    else None), get_member guild (ps_user_id s) with
             | Some role, Some member =>
                 emit (OfSession (ps_id s)) (AddRoles (ps_guild_id s) member role)
             | _, _ => ret tt
             end in
    result_of (m w0) = Ok tt ∧ world_of (m w0) = w0).
  { intros w0. cbn zeta.
    destruct (if int_truthy (pp_role_id (profile_row profile)) then _ else _); [|done].
    by destruct (get_member guild (ps_user_id s)). }
  destruct (Hrole w1) as [-> ->]. cbn [result_of world_of events_of fst snd].
  destruct (activation_run s profile payload w1) as (_ & _ & Hsub). cbn zeta in Hsub.
  rewrite Hsub. simpl. rewrite Hst, Htk.
  destruct (pp_duration_days prow) as [d|]; [|done].
  destruct (d =? 0); [done|].
  rewrite !db_upsert_subscription_run. cbn zeta. unfold tick. simpl. rewrite ?Hst, ?Htk.
  destruct (existsb _ _); [done|]. by destruct (bool_decide _).
Qed.

(** X10.  When a payment finishes for a profile with a duration of [d]
    days, [d] not zero, and the guild is in the cache, the handler leaves a
    subscription of the payer to the profile that expires [d] days after
    the reading of the clock taken for it, carries the role of the profile
    and the webhook of the session (or of the profile), and has no
    notification mark; the subscriptions of other subscribers are those of
    before. *)
Theorem finished_payment_subscribes (s : PaymentSession) payload w guild prow d :
  guilds env !! ps_guild_id s = Some guild →
  payment_profiles (store w) !! ps_profile_id s = Some prow →
  pp_duration_days prow = Some d → d ≠ 0 →
  let after := subscriptions (store (world_of (_handle_status_change env s "finished" payload w))) in
  (∃ id row, after !! id = Some row
     ∧ subscriber row = (ps_guild_id s, ps_user_id s, ps_profile_id s))
  ∧ (∀ id row, after !! id = Some row →
       subscriber row = (ps_guild_id s, ps_user_id s, ps_profile_id s) →
       sub_role_id row = pp_role_id prow
       ∧ sub_expires_at row = time_at env (ticks w) + days d
       ∧ sub_last_notified_at row = None
       ∧ sub_webhook_url row
         = sql_text (text_or (ps_webhook_url s) (dict_get (pp_parameters prow) "webhook")))
  ∧ (∀ id row, subscriber row ≠ (ps_guild_id s, ps_user_id s, ps_profile_id s) →
       after !! id = Some row ↔ subscriptions (store w) !! id = Some row).
Proof.
  intros Hg Hp Hd Hnz. cbn zeta. rewrite handle_finished_subscriptions, Hg, Hp, Hd.
  destruct (Z.eqb_spec d 0) as [|_]; [done|].
  destruct (db_upsert_subscription_table env (ps_guild_id s) (ps_user_id s) (ps_profile_id s)
              (pp_role_id prow) (time_at env (ticks w) + days d)
              (sql_text (text_or (ps_webhook_url s) (dict_get (pp_parameters prow) "webhook")))
              (tick w)) as (_ & Hex & Hrow & Hoth & _).
  { left. simpl. by rewrite Hp. }
  split_and!; [done| |done].
  intros id row Hid Hs. destruct (Hrow id row Hid Hs) as (? & ? & ? & ? & _). done.
Qed.

(** X11.  A finished payment writes no subscription when the guild of the
    session is not in the cache, when the profile no longer exists, or when
    the profile has no duration (unset or zero). *)
Theorem finished_payment_without_subscription (s : PaymentSession) payload w :
  guilds env !! ps_guild_id s = None
  ∨ int_truthy (payment_profiles (store w) !! ps_profile_id s ≫= pp_duration_days) = false →
  subscriptions (store (world_of (_handle_status_change env s "finished" payload w)))
  = subscriptions (store w).
Proof.
  intros Hc. rewrite handle_finished_subscriptions.
  destruct Hc as [->|Hc]; [done|].
  destruct (guilds env !! ps_guild_id s); [|done].
  destruct (payment_profiles (store w) !! ps_profile_id s) as [row|]; [|done].
  simpl in Hc. destruct (pp_duration_days row) as [d|]; [|done].
  simpl in Hc. apply negb_false_iff in Hc. by rewrite Hc.
Qed.

End Finished.

(** ** What the passes keep *)

Section Preserved.
Context (Q : Store → Store → Prop) `{!PreOrder Q}.

Lemma preserves_same {A} (m : M A) :
  (∀ w, store (world_of (m w)) = store w) → preserves Q m.
Proof. intros H w. by rewrite H. Qed.

Lemma preserves_ret {A} (a : A) : preserves Q (ret a).
Proof. by apply preserves_same. Qed.

Lemma preserves_raise {A} e : preserves Q (raise e : M A).
Proof. by apply preserves_same. Qed.

Lemma preserves_emit o e : preserves Q (emit o e).
Proof. by apply preserves_same. Qed.

Lemma preserves_bind {A B} (m : M A) (k : A → M B) :
  preserves Q m → (∀ a, preserves Q (k a)) → preserves Q (bind m k).
Proof.
  intros Hm Hk w. rewrite bind_run. destruct (result_of (m w)) as [a|e];
    cbn [result_of world_of events_of fst snd]; [|apply Hm].
  transitivity (store (world_of (m w))); [apply Hm|apply Hk].
Qed.

Lemma preserves_when b (m : M unit) : preserves Q m → preserves Q (when b m).
Proof. destruct b; [done|]. intros _. apply preserves_ret. Qed.

Lemma preserves_try_except {A} (m : M A) h :
  preserves Q m → (∀ msg, preserves Q (h msg)) → preserves Q (try_except m h).
Proof.
  intros Hm Hh w. unfold try_except. specialize (Hm w). unfold world_of in *.
  destruct (m w) as [[[a|[msg|msg| |msg]] w1] ev1]; simpl in *; try done.
  specialize (Hh msg w1). destruct (h msg w1) as [[r w2] ev2]; simpl in *.
  by transitivity (store w1).
Qed.

Lemma preserves_for_each {A} (xs : list A) (body : A → M unit) :
  (∀ x, preserves Q (body x)) → preserves Q (for_each xs body).
Proof.
  intros Hb. induction xs as [|x xs IH]; simpl; [apply preserves_ret|].
  apply preserves_bind; [apply Hb|done].
Qed.

Lemma preserves_utc_now env : preserves Q (utc_now env).
Proof. by apply preserves_same. Qed.

Lemma preserves_outbound {A} o (answer : nat → Answer A) effect :
  preserves Q (outbound o answer effect).
Proof. by apply preserves_same. Qed.

Lemma preserves_get_store : preserves Q get_store.
Proof. by apply preserves_same. Qed.

Lemma preserves_notify_user env s msg title : preserves Q (_notify_user env s msg title).
Proof.
  unfold _notify_user. apply preserves_bind; [apply preserves_emit|intros _].
  destruct (user_reachable env (ps_user_id s)); [|apply preserves_ret].
  apply preserves_bind; [apply preserves_utc_now|intros _; apply preserves_emit].
Qed.

Lemma preserves_get_payment_profile_by_id k : preserves Q (get_payment_profile_by_id k).
Proof. by apply preserves_same. Qed.

(** what the statements of the two passes do to the store *)
Hypothesis sessions_written :
  ∀ s t, Q s (with_sessions t (session_seq s) s).
Hypothesis subscription_marked :
  ∀ s k now, Q s (with_subscriptions (alter (set_notified now) k (subscriptions s))
                    (subscription_seq s) s).
Hypothesis subscription_deleted :
  ∀ s k, Q s (with_subscriptions (delete k (subscriptions s)) (subscription_seq s) s).
Hypothesis subscription_upserted :
  ∀ env g u p role ex wh w,
    Q (store w) (store (world_of (db_upsert_subscription env g u p role ex wh w))).

Context (env : Env).

Lemma preserves_purge_session k : preserves Q (purge_session k).
Proof. intros w. apply sessions_written. Qed.

Lemma preserves_refresh_session_status s : preserves Q (refresh_session_status env s).
Proof.
  unfold refresh_session_status, fetch_status.
  apply preserves_bind; [apply preserves_outbound|intros payload].
  apply preserves_bind; [|intros _; apply preserves_ret].
  intros w. apply sessions_written.
Qed.

Lemma preserves_post_webhook o url payload msg :
  preserves Q (try_except (post_webhook env o url payload) (λ _, emit o (LogWarning msg))).
Proof.
  apply preserves_try_except; [apply preserves_outbound|intros _; apply preserves_emit].
Qed.

Lemma preserves_upsert_subscription s profile wh :
  preserves Q (upsert_subscription env s profile wh).
Proof.
  unfold upsert_subscription.
  destruct (pp_duration_days (profile_row profile)) as [d|]; [|apply preserves_raise].
  destruct (d =? 0); [apply preserves_raise|].
  apply preserves_bind; [apply preserves_utc_now|intros now].
  apply preserves_bind; [|intros _; apply preserves_ret].
  intros w. apply subscription_upserted.
Qed.

Lemma preserves_handle_successful_payment s guild profile payload :
  preserves Q (_handle_successful_payment env s guild profile payload).
Proof.
  unfold _handle_successful_payment.
  destruct guild as [guild|]; [|apply preserves_ret].
  destruct profile as [profile|]; [|apply preserves_ret].
  apply preserves_bind.
  { destruct (if int_truthy _ then _ else _); [|apply preserves_ret].
    destruct (get_member _ _); [apply preserves_emit|apply preserves_ret]. }
  intros _. apply preserves_bind.
  { apply preserves_when, preserves_bind; [apply preserves_upsert_subscription|].
    intros _. apply preserves_ret. }
  intros _. apply preserves_when, preserves_post_webhook.
Qed.

Lemma preserves_handle_status_change s status payload :
  preserves Q (_handle_status_change env s status payload).
Proof.
  unfold _handle_status_change.
  apply preserves_bind; [apply preserves_emit|intros _].
  apply preserves_bind.
  { destruct (ps_webhook_url s); [|apply preserves_ret].
    apply preserves_when, preserves_post_webhook. }
  intros _. apply preserves_bind.
  { destruct (get_guild env _); [apply preserves_get_payment_profile_by_id|apply preserves_ret]. }
  intros profile.
  destruct (String.eqb status "finished"); [apply preserves_handle_successful_payment|].
  destruct (String.eqb status "paid partially"); [apply preserves_notify_user|].
  case_bool_decide; [apply preserves_notify_user|apply preserves_ret].
Qed.

Lemma preserves_process_session s : preserves Q (process_session env s).
Proof.
  unfold process_session.
  apply preserves_bind; [apply preserves_utc_now|intros now].
  destruct (_ && _).
  { apply preserves_bind; [apply preserves_purge_session|intros _; apply preserves_notify_user]. }
  apply preserves_bind.
  { apply preserves_try_except.
    - apply preserves_bind; [apply preserves_refresh_session_status|intros ?; apply preserves_ret].
    - intros _. apply preserves_bind; [apply preserves_emit|intros _; apply preserves_ret]. }
  intros [[s' payload]|]; [|apply preserves_ret].
  apply preserves_bind.
  - apply preserves_when, preserves_handle_status_change.
  - intros _. apply preserves_when, preserves_purge_session.
Qed.

Lemma preserves_process_payment_updates : preserves Q (_process_payment_updates env).
Proof.
  unfold _process_payment_updates.
  apply preserves_bind.
  { unfold load_active_sessions.
    apply preserves_bind; [apply preserves_utc_now|intros now].
    apply preserves_bind; [by apply preserves_same|intros ?; apply preserves_ret]. }
  intros L. apply preserves_for_each. apply preserves_process_session.
Qed.

Lemma preserves_notify_expiring sub : preserves Q (notify_expiring env sub).
Proof.
  unfold notify_expiring.
  destruct (sub_last_notified_at _); [apply preserves_ret|].
  apply preserves_bind.
  { unfold _notify_subscription_expiring.
    destruct (get_guild env _); [|apply preserves_ret].
    apply preserves_bind; [apply preserves_get_payment_profile_by_id|intros profile].
    destruct (sub_webhook_url _); [|apply preserves_ret].
    apply preserves_when, preserves_post_webhook. }
  intros _ w. apply subscription_marked.
Qed.

Lemma preserves_expire sub : preserves Q (expire env sub).
Proof.
  unfold expire. apply preserves_bind.
  { unfold _expire_subscription.
    destruct (get_guild env _); [|apply preserves_ret].
    apply preserves_bind; [apply preserves_get_payment_profile_by_id|intros profile].
    apply preserves_bind.
    { destruct (get_member _ _); [|apply preserves_ret].
      destruct (if int_truthy _ then _ else _); [apply preserves_emit|apply preserves_ret]. }
    intros _. destruct (sub_webhook_url _); [|apply preserves_ret].
    apply preserves_when, preserves_post_webhook. }
  intros _ w. apply subscription_deleted.
Qed.

Lemma preserves_process_subscriptions : preserves Q (_process_subscriptions env).
Proof.
  unfold _process_subscriptions.
  apply preserves_bind; [apply preserves_utc_now|intros now].
  apply preserves_bind; [by apply preserves_same|intros L1].
  apply preserves_bind; [apply preserves_for_each, preserves_notify_expiring|intros _].
  apply preserves_bind; [by apply preserves_same|intros L2].
  apply preserves_for_each, preserves_expire.
Qed.

End Preserved.



#[global] Instance counter_grows_preorder : PreOrder counter_grows.
Proof. split; [intros s|intros s1 s2 s3]; unfold counter_grows; lia. Qed.

Lemma passes_keep_counter env w :
  session_seq (store w) ≤ session_seq (store (world_of (_process_payment_updates env w)))
  ∧ session_seq (store w) ≤ session_seq (store (world_of (_process_subscriptions env w))).
Proof.
  split.
  - apply (preserves_process_payment_updates counter_grows); unfold counter_grows; try done.
    intros. rewrite db_upsert_subscription_run. cbn zeta.
    destruct (existsb _ _); [done|]. by destruct (bool_decide _).
  - apply (preserves_process_subscriptions counter_grows); unfold counter_grows; done.
Qed.

Lemma start_payment_session_id env g u p gs w id :
  created_id (result_of (start_payment_session env g u p gs w)) = Some id →
  session_seq (store w) < id
  ∧ session_seq (store (world_of (start_payment_session env g u p gs w))) = id.
Proof.
  rewrite start_payment_session_run. cbn zeta.
  destruct (checkout_at env (calls w) (checkout_params p gs)) as [response|msg]; [|done].
  destruct (String.eqb _ ""); [done|].
  destruct (_ || _); [done|].
  destruct (bool_decide _); [|done].
  cbn [result_of world_of events_of fst snd created_id ps_id].
  intros [= <-]. simpl. unfold next_rowid. split; lia.
Qed.

(** X12.  Session ids are not reused.  A session created after a
    reconcile pass and a sweep gets an id greater than the id of a session
    created before them, also when the earlier session was purged in
    between (AUTOINCREMENT keeps the largest id ever used). *)
Theorem purged_session_id_not_reused env w g u p gs g' u' p' gs' id id' :
  let x := start_payment_session env g u p gs w in
  let w' := world_of (_process_subscriptions env
                        (world_of (_process_payment_updates env (world_of x)))) in
  created_id (result_of x) = Some id →
  created_id (result_of (start_payment_session env g' u' p' gs' w')) = Some id' →
  id < id'.
Proof.
  cbn zeta. intros H1 H2.
  apply start_payment_session_id in H1 as [_ H1].
  apply start_payment_session_id in H2 as [H2 _].
  destruct (passes_keep_counter env (world_of (start_payment_session env g u p gs w))) as [Ha _].
  destruct (passes_keep_counter env
    (world_of (_process_payment_updates env (world_of (start_payment_session env g u p gs w)))))
    as [_ Hb].
  lia.
Qed.



#[global] Instance stays_unique_preorder : PreOrder stays_unique.
Proof.
  split; [intros s Hs; exact Hs|intros s1 s2 s3 H1 H2 Hs; exact (H2 (H1 Hs))].
Qed.

(** X13.  If no two subscriptions have the same subscriber (guild, user,
    profile), the same holds after a reconcile pass and after a sweep: a
    payment that finishes again renews the row of the subscriber instead of
    adding one. *)
Theorem passes_keep_subscribers_unique env w :
  unique_subscribers (subscriptions (store w)) →
  unique_subscribers (subscriptions (store (world_of (_process_payment_updates env w))))
  ∧ unique_subscribers (subscriptions (store (world_of (_process_subscriptions env w)))).
Proof.
  assert (Hm : ∀ s k now, stays_unique s
             (with_subscriptions (alter (set_notified now) k (subscriptions s))
                (subscription_seq s) s)).
  { intros s k now Hun i j r r' Hi Hj Hs. simpl in *.
    assert (Hal : ∀ i r, alter (set_notified now) k (subscriptions s) !! i = Some r →
              ∃ r0, subscriptions s !! i = Some r0 ∧ subscriber r0 = subscriber r).
    { intros i0 r0 H0. destruct (decide (i0 = k)) as [->|Hne].
      - rewrite lookup_alter_eq in H0. destruct (subscriptions s !! k) as [r1|]; [|done].
        injection H0 as <-. eauto.
      - rewrite lookup_alter_ne in H0 by done. eauto. }
    apply Hal in Hi as (r0 & Hi & E0). apply Hal in Hj as (r0' & Hj & E0').
    apply (Hun i j r0 r0'); congruence. }
  assert (Hd : ∀ s k, stays_unique s
             (with_subscriptions (delete k (subscriptions s)) (subscription_seq s) s)).
  { intros s k Hun i j r r' Hi Hj Hs. simpl in *.
    apply lookup_delete_Some in Hi as [_ Hi]. apply lookup_delete_Some in Hj as [_ Hj].
    by apply (Hun i j r r'). }
  assert (Hu : ∀ env g u p role ex wh w,
             stays_unique (store w)
               (store (world_of (db_upsert_subscription env g u p role ex wh w)))).
  { intros env0 g u p role ex wh w0.
    intros Hun0. by apply db_upsert_subscription_unique. }
  intros Hun. split.
  - refine (preserves_process_payment_updates stays_unique _ Hu env w Hun).
    intros s t Hs. exact Hs.
  - exact (preserves_process_subscriptions stays_unique Hm Hd env w Hun).
Qed.

(** ** The request, once more *)





(** uniqueness as a property of the list of rows *)
Lemma NoDup_fmap_elem {A B} (f : A → B) (l : list A) x y :
  NoDup (f <$> l) → x ∈ l → y ∈ l → f x = f y → x = y.
Proof.
  induction l as [|a l IH]; intros Hnd Hx Hy E; [by apply elem_of_nil in Hx|].
  rewrite fmap_cons in Hnd. apply NoDup_cons in Hnd as [Ha Hnd].
  apply elem_of_cons in Hx as [->|Hx]; apply elem_of_cons in Hy as [->|Hy]; [done|..].
  - destruct Ha. rewrite E. apply list_elem_of_fmap. eauto.
  - destruct Ha. rewrite <- E. apply list_elem_of_fmap. eauto.
  - by apply IH.
Qed.

Lemma unique_subscribers_rows (t : gmap Z SubscriptionRow) :
  unique_subscribers t ↔ NoDup ((λ kr : Z * SubscriptionRow, subscriber kr.2) <$> map_to_list t).
Proof.
  split.
  - intros Hun. apply NoDup_fmap_2_strong; [|apply NoDup_map_to_list].
    intros [i r] [j r'] Hi%elem_of_map_to_list Hj%elem_of_map_to_list E. simpl in E.
    assert (i = j) as -> by (by apply (Hun i j r r')). congruence.
  - intros Hnd i j r r' Hi%elem_of_map_to_list Hj%elem_of_map_to_list E.
    assert (Heq : (i, r) = (j, r')) by (by apply (NoDup_fmap_elem _ _ _ _ Hnd Hi Hj)).
    congruence.
Qed.

#[global] Instance unique_subscribers_dec t : Decision (unique_subscribers t).
Proof.
  refine (cast_if (decide (NoDup ((λ kr : Z * SubscriptionRow, subscriber kr.2)
                                    <$> map_to_list t))));
    by rewrite unique_subscribers_rows.
Defined.

(** * The commands *)

Lemma same_name_spec g name k r :
  same_name g name (k, r) = true ↔ pp_guild_id r = g ∧ lower (pp_name r) = lower name.
Proof.
  unfold same_name. simpl. rewrite andb_true_iff, Z.eqb_eq, String.eqb_eq. done.
Qed.

Lemma existsb_same_name g name (t : gmap Z ProfileRow) :
  existsb (same_name g name) (map_to_list t) = true ↔ named g name t.
Proof.
  rewrite existsb_exists. split.
  - intros ([k r] & Hin & Hc). exists k, r. split.
    + apply elem_of_map_to_list. by apply list_elem_of_In.
    + by apply same_name_spec in Hc.
  - intros (k & r & Hk & Hc). exists (k, r). split.
    + apply list_elem_of_In. by apply elem_of_map_to_list.
    + by apply same_name_spec.
Qed.

Lemma head_filter_Some {A} (f : A → bool) (l : list A) x :
  head (List.filter f l) = Some x → x ∈ l ∧ f x = true.
Proof.
  induction l as [|a l IH]; simpl; [done|].
  destruct (f a) eqn:E; simpl.
  - intros [= <-]. split; [apply list_elem_of_here|done].
  - intros H. destruct (IH H). split; [by apply list_elem_of_further|done].
Qed.


Lemma select_profile_Some g name t kr :
  select_profile g name t = Some kr →
  t !! kr.1 = Some kr.2 ∧ pp_guild_id kr.2 = g ∧ lower (pp_name kr.2) = lower name.
Proof.
  intros [Hin Hf]%head_filter_Some. destruct kr as [k r].
  apply elem_of_map_to_list in Hin. by apply same_name_spec in Hf.
Qed.



Lemma List_filter_Permutation {A} (f : A → bool) (l l' : list A) :
  l ≡ₚ l' → List.filter f l ≡ₚ List.filter f l'.
Proof.
  induction 1 as [|x l l' _ IH|x y l|l1 l2 l3 _ IH1 _ IH2]; simpl.
  - done.
  - destruct (f x); [by constructor|done].
  - destruct (f x), (f y); try done. apply perm_swap.
  - by etransitivity.
Qed.


Section Profiles.
Context (env : Env).

Lemma filter_same_name_insert g name (t : gmap Z ProfileRow) k r :
  t !! k = None → ¬ named g name t → same_name g name (k, r) = true →
  List.filter (same_name g name) (map_to_list (<[k := r]> t)) = [(k, r)].
Proof.
  intros Hk Hno Hsame.
  assert (Hperm : List.filter (same_name g name) (map_to_list (<[k := r]> t))
                  ≡ₚ List.filter (same_name g name) ((k, r) :: map_to_list t)).
  { apply List_filter_Permutation. by apply map_to_list_insert. }
  simpl in Hperm. rewrite Hsame in Hperm.
  assert (Hnil : List.filter (same_name g name) (map_to_list t) = []).
  { destruct (List.filter (same_name g name) (map_to_list t)) as [|x l] eqn:E; [done|].
    assert (Hh : head (List.filter (same_name g name) (map_to_list t)) = Some x) by (by rewrite E).
    apply select_profile_Some in Hh as (Hx & Hg & Hn). destruct Hno. by exists x.1, x.2. }
  rewrite Hnil in Hperm. by apply Permutation_singleton_r in Hperm.
Qed.

Lemma db_create_payment_profile_run g name role d params mode sv :
  let t := payment_profiles (store (engine sv)) in
  let rowid := next_rowid (profile_seq sv) t in
  let row := {| pp_guild_id := g; pp_name := name; pp_role_id := role;
                pp_duration_days := d; pp_parameters := params; pp_donation_mode := mode |} in
  db_create_payment_profile env g name role d params mode sv =
  if existsb (same_name g name) (map_to_list t)
  then (Raise (IntegrityError
                 "UNIQUE constraint failed: payment_profiles.guild_id, payment_profiles.name"),
        with_engine (tick (engine sv)) sv)
  else if negb (bool_decide (is_Some (guild_settings sv !! g)))
  then (Raise (IntegrityError "FOREIGN KEY constraint failed"), with_engine (tick (engine sv)) sv)
  else (Ok rowid,
        {| engine := {| store := with_profiles (<[rowid := row]> t) (store (engine sv));
                        ticks := S (ticks (engine sv));
                        calls := calls (engine sv) |};
           guild_settings := guild_settings sv;
           profile_seq := rowid;
           profile_stamps :=
             <[rowid := (time_at env (ticks (engine sv)), time_at env (ticks (engine sv)))]>
               (profile_stamps sv) |}).
Proof.
  cbn zeta. unfold db_create_payment_profile.
  destruct (existsb (same_name g name) _) eqn:Hex; [done|]. simpl.
  destruct (negb _); [done|].
  unfold select_profile. rewrite filter_same_name_insert; [done| | |].
  - apply next_rowid_fresh.
  - intros Hn. apply existsb_same_name in Hn. congruence.
  - by apply same_name_spec.
Qed.

Lemma create_payment_profile_run g name role d params sv :
  create_payment_profile env g name role d params sv =
  let t := payment_profiles (store (engine sv)) in
  let rowid := next_rowid (profile_seq sv) t in
  if existsb (same_name g name) (map_to_list t)
  then (Raise (IntegrityError
                 "UNIQUE constraint failed: payment_profiles.guild_id, payment_profiles.name"),
        with_engine (tick (engine sv)) sv)
  else if negb (bool_decide (is_Some (guild_settings sv !! g)))
  then (Raise (IntegrityError "FOREIGN KEY constraint failed"), with_engine (tick (engine sv)) sv)
  else (Ok rowid,
        {| engine := {| store := with_profiles (<[rowid := created_row g name role d params]> t)
                                   (store (engine sv));
                        ticks := S (ticks (engine sv));
                        calls := calls (engine sv) |};
           guild_settings := guild_settings sv;
           profile_seq := rowid;
           profile_stamps :=
             <[rowid := (time_at env (ticks (engine sv)), time_at env (ticks (engine sv)))]>
               (profile_stamps sv) |}).
Proof.
  unfold create_payment_profile. rewrite db_create_payment_profile_run. cbn zeta.
  destruct (existsb _ _); [done|]. destruct (negb _); [done|]. unfold created_row.
  destruct d as [d|]; [destruct (d =? 0)|]; done.
Qed.

(** a profile that is accepted *)
Lemma create_payment_profile_done g name role d params sv :
  let t := payment_profiles (store (engine sv)) in
  let x := create_payment_profile env g name role d params sv in
  let t' := payment_profiles (store (engine x.2)) in
  ¬ named g name t → is_Some (guild_settings sv !! g) →
  ∃ id, x.1 = Ok id
    ∧ (∀ j, is_Some (t !! j) → j < id) ∧ profile_seq sv < id
    ∧ t' = <[id := created_row g name role d params]> t
    ∧ (∀ name', lower name' = lower name →
         get_payment_profile g name' x.2
         = Some {| profile_id := id; profile_row := created_row g name role d params |})
    ∧ (unique_names t → unique_names t').
Proof.
  cbn zeta. rewrite create_payment_profile_run. cbn zeta.
  set (t := payment_profiles (store (engine sv))).
  set (rowid := next_rowid (profile_seq sv) t).
  intros Hno Hset.
  assert (Hb : existsb (same_name g name) (map_to_list t) = false).
  { destruct (existsb _ _) eqn:E; [|done]. by apply existsb_same_name in E. }
  assert (Hb' : negb (bool_decide (is_Some (guild_settings sv !! g))) = false).
  { apply negb_false_iff. by apply bool_decide_eq_true. }
  rewrite Hb, Hb'. exists rowid. cbn [fst snd engine store with_profiles payment_profiles].
  assert (Hlt : ∀ j, is_Some (t !! j) → j < rowid).
  { intros j Hj. pose proof (max_rowid_ge t j Hj). unfold rowid, next_rowid. lia. }
  assert (Hfresh : t !! rowid = None) by apply next_rowid_fresh.
  split_and!; try done.
  - unfold rowid, next_rowid. lia.
  - intros name' Hn. unfold get_payment_profile, db_get_payment_profile, select_profile.
    cbn [fst snd engine store with_profiles payment_profiles].
    rewrite filter_same_name_insert; [done|done| |].
    + intros (k & r & Hk & Hg & Hn'). apply Hno. exists k, r. split_and!; congruence.
    + apply same_name_spec. simpl. done.
  - intros Hun i j r r' Hi Hj Hkey.
    destruct (decide (i = rowid)) as [->|Hi']; destruct (decide (j = rowid)) as [->|Hj'];
      [done|..].
    + rewrite lookup_insert_eq in Hi. injection Hi as <-.
      rewrite lookup_insert_ne in Hj by done. destruct Hno. exists j, r'.
      unfold profile_key in Hkey. simpl in Hkey. injection Hkey as Hg Hn. by split_and!.
    + rewrite lookup_insert_eq in Hj. injection Hj as <-.
      rewrite lookup_insert_ne in Hi by done. destruct Hno. exists i, r.
      unfold profile_key in Hkey. simpl in Hkey. injection Hkey as Hg Hn. by split_and!.
    + rewrite lookup_insert_ne in Hi, Hj by done. by apply (Hun i j r r').
Qed.

(** a profile that is refused *)
Lemma create_payment_profile_refused g name role d params sv :
  let t := payment_profiles (store (engine sv)) in
  let x := create_payment_profile env g name role d params sv in
  (named g name t →
     x.1 = Raise (IntegrityError
                    "UNIQUE constraint failed: payment_profiles.guild_id, payment_profiles.name")
     ∧ store (engine x.2) = store (engine sv))
  ∧ (¬ named g name t → guild_settings sv !! g = None →
     x.1 = Raise (IntegrityError "FOREIGN KEY constraint failed")
     ∧ store (engine x.2) = store (engine sv)).
Proof.
  cbn zeta. rewrite create_payment_profile_run. cbn zeta. split.
  - intros Hc. apply existsb_same_name in Hc. by rewrite Hc.
  - intros Hno Hc.
    assert (Hb : existsb (same_name g name) (map_to_list (payment_profiles (store (engine sv))))
                 = false).
    { destruct (existsb _ _) eqn:E; [|done]. by apply existsb_same_name in E. }
    rewrite Hb, Hc. rewrite bool_decide_eq_false_2; [done|]. by intros [? ?].
Qed.





End Profiles.

Lemma nocase_le_total a b : nocase_le a b = true ∨ nocase_le b a = true.
Proof.
  revert b. induction a as [|c a IH]; intros [|d b]; simpl; auto.
  destruct (N.ltb_spec (N_of_ascii (ascii_lower c)) (N_of_ascii (ascii_lower d)));
    destruct (N.ltb_spec (N_of_ascii (ascii_lower d)) (N_of_ascii (ascii_lower c)));
    auto; lia.
Qed.

Lemma nocase_le_trans a b c :
  nocase_le a b = true → nocase_le b c = true → nocase_le a c = true.
Proof.
  revert b c. induction a as [|x a IH]; intros [|y b] [|z c]; simpl; try done.
  destruct (N.ltb_spec (N_of_ascii (ascii_lower x)) (N_of_ascii (ascii_lower y)));
    destruct (N.ltb_spec (N_of_ascii (ascii_lower y)) (N_of_ascii (ascii_lower x)));
    destruct (N.ltb_spec (N_of_ascii (ascii_lower y)) (N_of_ascii (ascii_lower z)));
    destruct (N.ltb_spec (N_of_ascii (ascii_lower z)) (N_of_ascii (ascii_lower y)));
    destruct (N.ltb_spec (N_of_ascii (ascii_lower x)) (N_of_ascii (ascii_lower z)));
    destruct (N.ltb_spec (N_of_ascii (ascii_lower z)) (N_of_ascii (ascii_lower x)));
    try done; try lia.
  apply IH.
Qed.

#[global] Instance by_name_total : Total by_name.
Proof. intros p q. apply nocase_le_total. Qed.

#[global] Instance by_name_trans : Transitive by_name.
Proof. intros p q r. apply nocase_le_trans. Qed.

Section Listing.
Context (env : Env) (py_lower : string → string).

Lemma elem_of_List_filter {A} (f : A → bool) (l : list A) x :
  x ∈ List.filter f l ↔ x ∈ l ∧ f x = true.
Proof. rewrite !list_elem_of_In. apply filter_In. Qed.

(** the profiles of a guild, in order *)
Lemma list_payment_profiles_rows g sv :
  let profiles := list_payment_profiles g sv in
  (∀ p, p ∈ profiles
        ↔ payment_profiles (store (engine sv)) !! profile_id p = Some (profile_row p)
          ∧ pp_guild_id (profile_row p) = g)
  ∧ StronglySorted by_name profiles
  ∧ NoDup (profile_id <$> profiles).
Proof.
  cbn zeta. unfold list_payment_profiles, db_list_payment_profiles.
  set (rows := List.filter _ _).
  split_and!.
  - intros p. rewrite merge_sort_Permutation, list_elem_of_fmap. split.
    + intros ([k r] & -> & Hin). apply elem_of_List_filter in Hin as [Hin Hg].
      apply elem_of_map_to_list in Hin. simpl in *. by apply Z.eqb_eq in Hg.
    + intros [Hk Hg]. exists (profile_id p, profile_row p). split; [by destruct p|].
      apply elem_of_List_filter. split; [by apply elem_of_map_to_list|].
      simpl. by apply Z.eqb_eq.
  - apply StronglySorted_merge_sort; apply _.
  - rewrite merge_sort_Permutation, <- list_fmap_compose.
    apply NoDup_fst_filter, NoDup_fst_map_to_list.
Qed.


Lemma autocomplete_options_cons current p ps acc :
  autocomplete_options py_lower (py_lower current) (p :: ps) acc =
  if suggested py_lower current p then
    if (25 <=? List.length (acc ++ [as_choice p]))%nat then acc ++ [as_choice p]
    else autocomplete_options py_lower (py_lower current) ps (acc ++ [as_choice p])
  else autocomplete_options py_lower (py_lower current) ps acc.
Proof.
  cbn [autocomplete_options]. unfold suggested, as_choice.
  destruct (String.eqb (py_lower current) ""),
    (contains (py_lower current) (py_lower (pp_name (profile_row p)))); reflexivity.
Qed.

Lemma autocomplete_options_take current ps acc :
  (List.length acc < 25)%nat →
  autocomplete_options py_lower (py_lower current) ps acc
  = take 25 (acc ++ (as_choice <$> List.filter (suggested py_lower current) ps)).
Proof.
  revert acc. induction ps as [|p ps IH]; intros acc Hlen.
  - cbn [autocomplete_options List.filter fmap list_fmap].
    rewrite app_nil_r. by rewrite take_ge by lia.
  - rewrite autocomplete_options_cons. cbn [List.filter].
    destruct (suggested py_lower current p); [|by apply IH].
    rewrite fmap_cons.
    assert (Happ : ∀ rest, acc ++ as_choice p :: rest = (acc ++ [as_choice p]) ++ rest).
    { intros rest. by rewrite <- app_assoc. }
    rewrite (Happ (as_choice <$> List.filter (suggested py_lower current) ps)).
    assert (Hl : List.length (acc ++ [as_choice p]) = S (List.length acc)).
    { rewrite length_app. cbn [List.length]. lia. }
    destruct (Nat.leb_spec 25 (List.length (acc ++ [as_choice p]))) as [Hge|Hlt].
    + rewrite (take_app_le (acc ++ [as_choice p]) _ 25) by lia.
      rewrite take_ge by lia. done.
    + apply IH. lia.
Qed.

(** X20.  [_payment_name_autocomplete] offers the first twenty-five, in the
    order of [list_payment_profiles], of the profiles of the guild whose
    name in lower case contains the typed text in lower case (all
    profiles when the typed text is empty in lower case), and nothing
    outside a guild; it never offers more than twenty-five choices.  Lower
    case is that of [str.lower], whatever it does to the letters typed. *)
Theorem autocomplete_first_matches interaction current sv :
  _payment_name_autocomplete py_lower interaction current sv
  = match interaction_guild interaction with
    | Some guild =>
        take 25 (as_choice <$> List.filter (suggested py_lower current) (list_payment_profiles guild.1 sv))
    | None => []
    end
  ∧ (List.length (_payment_name_autocomplete py_lower interaction current sv) ≤ 25)%nat.
Proof.
  unfold _payment_name_autocomplete.
  destruct (interaction_guild interaction) as [guild|]; [|simpl; split; [done|lia]].
  rewrite autocomplete_options_take by (simpl; lia). simpl.
  split; [done|]. rewrite length_take. lia.
Qed.

End Listing.

Section Pay.
Context (env : Env).





End Pay.

Section Settings.
Context (env : Env) (py_upper : string → string).

Lemma start_payment_session_events g u profile gs w :
  events_of (start_payment_session env g u profile gs w)
  = [(OfCheckout, CreateCheckout (checkout_params profile gs)
                    (checkout_at env (calls w) (checkout_params profile gs)))].
Proof.
  rewrite start_payment_session_run. cbn zeta.
  destruct (checkout_at env (calls w) (checkout_params profile gs)) as [response|msg]; [|done].
  destruct (String.eqb _ ""); [done|]. destruct (_ || _); [done|].
  by destruct (bool_decide _).
Qed.

(** the effects of [/pay]: at most the create-checkout call, for a profile
    of the guild and with the settings of the guild *)
Lemma pay_calls interaction name sv guild o e :
  interaction_guild interaction = Some guild →
  (o, e) ∈ (pay env interaction name sv).2 →
  ∃ settings profile,
    get_guild_settings guild.1 sv = Some settings
    ∧ payment_profiles (store (engine sv)) !! profile_id profile = Some (profile_row profile)
    ∧ pp_guild_id (profile_row profile) = guild.1
    ∧ o = OfCheckout
    ∧ e = CreateCheckout (checkout_params profile settings)
            (checkout_at env (calls (engine sv)) (checkout_params profile settings)).
Proof.
  intros Hguild. unfold pay. rewrite Hguild. unfold ensure_guild_setup.
  destruct (get_guild_settings guild.1 sv) as [settings|]; [|by intros ?%elem_of_nil].
  assert (Hstart : ∀ profile (n : string),
    (o, e) ∈ (match start_payment_session env guild.1 (interaction_user interaction)
                      profile settings (engine sv) with
              | (Raise (AnonpayError exc), w, events) =>
                  (_build_embed env ("AnonPay rejected the request: " +:+ exc)
                     "Payment Error" ERROR_COLOR (with_engine w sv), events)
              | (Raise exc, w, events) =>
                  (_build_embed env ("Could not start payment session: " +:+ exn_text exc)
                     "Payment Error" ERROR_COLOR (with_engine w sv), events)
              | (Ok (session, _), w, events) =>
                  let message :=
                    "Payment `" +:+ n +:+ "` initialized." +:+ newline
                    +:+ "Use the button below to proceed (expires in "
                    +:+ pretty (session_ttl_minutes env) +:+ " minutes)." in
                  let answer := _build_embed env message "Checkout Ready" INFO_COLOR
                                  (with_engine w sv) in
                  ({| embed_title := embed_title answer.1;
                      embed_description := embed_description answer.1;
                      embed_color := embed_color answer.1;
                      embed_timestamp := embed_timestamp answer.1;
                      embed_fields :=
                        embed_fields answer.1
                        ++ [("Checkout"%string,
                             "[Open Payment Link](" +:+ ps_checkout_url session +:+ ")")] |},
                   answer.2, events)
              end).2 →
    o = OfCheckout
    ∧ e = CreateCheckout (checkout_params profile settings)
            (checkout_at env (calls (engine sv)) (checkout_params profile settings))).
  { intros profile n Hin.
    pose proof (start_payment_session_events guild.1 (interaction_user interaction)
                  profile settings (engine sv)) as Hev.
    unfold events_of in Hev.
    destruct (start_payment_session _ _ _ _ _ _)
      as [[[[session payload]|[msg|msg| |msg]] w] events];
      simpl in Hin, Hev; rewrite Hev in Hin;
      apply list_elem_of_singleton in Hin; by injection Hin as -> ->. }
  assert (Hfirst :
    (o, e) ∈ (match
                match list_payment_profiles guild.1 sv with
                | [] => inl (_build_embed env "This server has no payments configured."
                               "No Payments" WARNING_COLOR sv)
                | profile :: _ => inr (profile, pp_name (profile_row profile))
                end
              with
              | inl answer => (answer, [])
              | inr (profile, n) =>
                  match start_payment_session env guild.1 (interaction_user interaction)
                          profile settings (engine sv) with
                  | (Raise (AnonpayError exc), w, events) =>
                      (_build_embed env ("AnonPay rejected the request: " +:+ exc)
                         "Payment Error" ERROR_COLOR (with_engine w sv), events)
                  | (Raise exc, w, events) =>
                      (_build_embed env ("Could not start payment session: " +:+ exn_text exc)
                         "Payment Error" ERROR_COLOR (with_engine w sv), events)
                  | (Ok (session, _), w, events) =>
                      let message :=
                        "Payment `" +:+ n +:+ "` initialized." +:+ newline
                        +:+ "Use the button below to proceed (expires in "
                        +:+ pretty (session_ttl_minutes env) +:+ " minutes)." in
                      let answer := _build_embed env message "Checkout Ready" INFO_COLOR
                                      (with_engine w sv) in
                      ({| embed_title := embed_title answer.1;
                          embed_description := embed_description answer.1;
                          embed_color := embed_color answer.1;
                          embed_timestamp := embed_timestamp answer.1;
                          embed_fields :=
                            embed_fields answer.1
                            ++ [("Checkout"%string,
                                 "[Open Payment Link](" +:+ ps_checkout_url session +:+ ")")] |},
                       answer.2, events)
                  end
              end).2 →
    ∃ settings0 profile,
      Some settings = Some settings0
      ∧ payment_profiles (store (engine sv)) !! profile_id profile = Some (profile_row profile)
      ∧ pp_guild_id (profile_row profile) = guild.1
      ∧ o = OfCheckout
      ∧ e = CreateCheckout (checkout_params profile settings0)
              (checkout_at env (calls (engine sv)) (checkout_params profile settings0))).
  { destruct (list_payment_profiles_rows guild.1 sv) as (Hin & _). cbn zeta in Hin.
    destruct (list_payment_profiles guild.1 sv) as [|profile rest];
      [by intros ?%elem_of_nil|].
    intros Hoe. apply Hstart in Hoe as [-> ->].
    assert (Hp : profile ∈ profile :: rest) by apply list_elem_of_here.
    apply Hin in Hp as [Hk Hg]. exists settings, profile. done. }
  destruct name as [n|]; [|exact Hfirst].
  destruct (String.eqb n ""); cbn [negb]; [exact Hfirst|].
  unfold get_payment_profile, db_get_payment_profile.
  destruct (select_profile guild.1 n (payment_profiles (store (engine sv)))) as [kr|] eqn:E;
    cbn [fmap option_fmap option_map]; [|by intros ?%elem_of_nil].
  intros Hoe. apply Hstart in Hoe as [-> ->].
  apply select_profile_Some in E as (Hk & Hg & _).
  exists settings, (as_profile kr). by destruct kr.
Qed.

(** X15.  After [setup_guild] the settings of the guild are the given
    address and the coin and the network as [str.upper] makes them; the
    settings of every other guild and the tables of the engine are as
    before; the row keeps the creation time it had, if the guild was set up
    before, and its update time is the reading of the clock.  These are the
    settings [/pay] then works with: whatever [/pay] does in that guild
    afterwards is a create-checkout call for a profile of the guild, whose
    request is built from those settings, so that it carries the coin and
    the network in upper case unless the profile names its own. *)
Theorem setup_guild_round_trip guild_id address coin network sv :
  let sv' := setup_guild env py_upper guild_id address coin network sv in
  let settings := {| payout_address := address; ticker_to := py_upper coin;
                     network_to := py_upper network |} in
  get_guild_settings guild_id sv' = Some settings
  ∧ (∀ other, other ≠ guild_id → get_guild_settings other sv' = get_guild_settings other sv)
  ∧ store (engine sv') = store (engine sv)
  ∧ gs_created_at <$> guild_settings sv' !! guild_id
      = Some (default (time_at env (ticks (engine sv)))
                (gs_created_at <$> guild_settings sv !! guild_id))
  ∧ gs_updated_at <$> guild_settings sv' !! guild_id = Some (time_at env (ticks (engine sv)))
  ∧ (∀ interaction guild name o e,
       interaction_guild interaction = Some (guild_id, guild) →
       (o, e) ∈ (pay env interaction name sv').2 →
       ∃ profile,
         payment_profiles (store (engine sv)) !! profile_id profile = Some (profile_row profile)
         ∧ pp_guild_id (profile_row profile) = guild_id
         ∧ o = OfCheckout
         ∧ e = CreateCheckout (checkout_params profile settings)
                 (checkout_at env (calls (engine sv')) (checkout_params profile settings))
         ∧ checkout_params profile settings !! "address"
           = Some (effective profile "address" address)
         ∧ checkout_params profile settings !! "ticker_to"
           = Some (effective profile "ticker_to" (py_upper coin))
         ∧ checkout_params profile settings !! "network_to"
           = Some (effective profile "network_to" (py_upper network))).
Proof.
  cbn zeta.
  assert (Hget : get_guild_settings guild_id
                   (setup_guild env py_upper guild_id address coin network sv)
                 = Some {| payout_address := address; ticker_to := py_upper coin;
                           network_to := py_upper network |}).
  { unfold setup_guild, set_guild_settings, get_guild_settings. simpl.
    by rewrite lookup_insert_eq. }
  split_and!.
  - done.
  - intros other Hne. unfold setup_guild, set_guild_settings, get_guild_settings. simpl.
    by rewrite lookup_insert_ne.
  - done.
  - unfold setup_guild, set_guild_settings. simpl.
    rewrite lookup_insert_eq. simpl. by destruct (guild_settings sv !! guild_id).
  - unfold setup_guild, set_guild_settings. simpl. by rewrite lookup_insert_eq.
  - intros interaction guild name o e Hg Hin.
    apply (pay_calls _ _ _ _ _ _ Hg) in Hin as (settings & profile & Hs & Hk & Hgd & -> & ->).
    simpl in Hs, Hgd.
    rewrite Hget in Hs. injection Hs as <-.
    exists profile.
    destruct (checkout_params_tenant_keys profile
                {| payout_address := address; ticker_to := py_upper coin;
                   network_to := py_upper network |}) as (Ha & Ht & Hn).
    split_and!; done.
Qed.

End Settings.

Section Delete.
Context (env : Env).



End Delete.

Section Created.
Context (env : Env) {float : Type} (format_12g : float → string)
  (py_upper : string → string).

Lemma set_parameter_lookup (params : pydict) k (v : option (Argument float)) j :
  set_parameter format_12g py_upper params (k, v) !! j =
    if bool_decide (k = j) then
      match v with
      | Some (ArgBool b) => Some (PyBool b)
      | Some (ArgFloat x) => Some (PyStr (format_12g x))
      | Some (ArgStr s) =>
          Some (PyStr (if bool_decide (k ∈ ({[ "ticker_from"; "network_from" ]} : gset string))
                       then py_upper s else s))
      | None => params !! j
      end
    else params !! j.
Proof.
  unfold set_parameter. simpl. destruct (decide (k = j)) as [->|Hk].
  - rewrite (bool_decide_eq_true_2 (j = j)) by done.
    destruct v as [[b|x|s]|]; try by rewrite lookup_insert_eq.
    + case_bool_decide; by rewrite lookup_insert_eq.
    + done.
  - rewrite (bool_decide_eq_false_2 (k = j)) by done.
    destruct v as [[b|x|s]|]; try by rewrite lookup_insert_ne.
    + case_bool_decide; by rewrite lookup_insert_ne.
    + done.
Qed.

Ltac lookup_parameters :=
  unfold create_parameters, optional_fields; cbn [foldl];
  repeat (rewrite set_parameter_lookup;
          first [ rewrite bool_decide_eq_false_2 by done
                | rewrite bool_decide_eq_true_2 by done ]).

Lemma create_parameters_lookup (o : CreateOptions float) :
  create_parameters format_12g py_upper o !! "address" = None
  ∧ create_parameters format_12g py_upper o !! "ticker_to" = None
  ∧ create_parameters format_12g py_upper o !! "network_to" = None
  ∧ create_parameters format_12g py_upper o !! "direct" = None
  ∧ create_parameters format_12g py_upper o !! "donation" = PyBool <$> opt_donation o
  ∧ create_parameters format_12g py_upper o !! "ticker_from"
    = (λ s, PyStr (py_upper s)) <$> opt_ticker_from o
  ∧ create_parameters format_12g py_upper o !! "network_from"
    = (λ s, PyStr (py_upper s)) <$> opt_network_from o
  ∧ create_parameters format_12g py_upper o !! "amount"
    = (λ x, PyStr (format_12g x)) <$> opt_amount o.
Proof.
  split_and!; lookup_parameters; try done.
  - destruct (opt_donation o); simpl; rewrite ?bool_decide_eq_false_2 by done; done.
  - destruct (opt_ticker_from o); simpl; rewrite ?bool_decide_eq_false_2 by done; done.
  - destruct (opt_network_from o); simpl; rewrite ?bool_decide_eq_false_2 by done; done.
  - destruct (opt_amount o); simpl; rewrite ?bool_decide_eq_false_2 by done; done.
Qed.

Lemma created_row_parameters g name role d (params : pydict) j :
  j ∉ ({[ "discord_role_id"; "duration_days" ]} : gset string) →
  pp_parameters (created_row g name role d params) !! j = params !! j.
Proof.
  intros Hj. apply not_elem_of_union in Hj as [Hj1%not_elem_of_singleton Hj2%not_elem_of_singleton].
  unfold created_row. simpl.
  destruct d as [d|]; [destruct (d =? 0)|]; destruct role;
    rewrite ?lookup_insert_ne by done; done.
Qed.

(** X25.  A profile that [create_payment_profile] accepts with the
    parameters [/create] builds from its options: it is found under its
    name, its donation mode is the [donation] option, and every checkout
    request built for it carries the address, the coin and the network of
    the tenant, ["direct"] as "false", the [donation] option as "true" or
    "false", the payer's coin and network as [str.upper] makes them, and
    the amount as formatted. *)
Theorem created_profile_request (o : CreateOptions float) g name role d sv id sv' :
  create_payment_profile env g name role d (create_parameters format_12g py_upper o) sv = (Ok id, sv') →
  ∃ profile,
    get_payment_profile g name sv' = Some profile
    ∧ profile_id profile = id
    ∧ pp_donation_mode (profile_row profile) = default false (opt_donation o)
    ∧ ∀ settings,
        checkout_params profile settings !! "address" = Some (PyStr (payout_address settings))
        ∧ checkout_params profile settings !! "ticker_to" = Some (PyStr (ticker_to settings))
        ∧ checkout_params profile settings !! "network_to" = Some (PyStr (network_to settings))
        ∧ checkout_params profile settings !! "direct" = Some (PyStr "false")
        ∧ checkout_params profile settings !! "donation"
          = (λ b : bool, PyStr (if b then "true" else "false")) <$> opt_donation o
        ∧ checkout_params profile settings !! "ticker_from"
          = (λ s, PyStr (py_upper s)) <$> opt_ticker_from o
        ∧ checkout_params profile settings !! "network_from"
          = (λ s, PyStr (py_upper s)) <$> opt_network_from o
        ∧ checkout_params profile settings !! "amount"
          = (λ x, PyStr (format_12g x)) <$> opt_amount o.
Proof.
  intros Hrun.
  destruct (create_parameters_lookup o) as (Ha & Ht & Hn & Hd & Hdon & Htf & Hnf & Ham).
  destruct (create_payment_profile_refused env g name role d
              (create_parameters format_12g py_upper o) sv) as [Hu Hf].
  cbn zeta in Hu, Hf. rewrite Hrun in Hu, Hf.
  assert (Hno : ¬ named g name (payment_profiles (store (engine sv)))).
  { intros Hc. by destruct (Hu Hc). }
  assert (Hset : is_Some (guild_settings sv !! g)).
  { destruct (guild_settings sv !! g) eqn:E; [done|]. by destruct (Hf Hno eq_refl). }
  destruct (create_payment_profile_done env g name role d (create_parameters format_12g py_upper o) sv
              Hno Hset) as (id' & Hid & _ & _ & _ & Hget & _).
  rewrite Hrun in Hid, Hget. simpl in Hid, Hget. injection Hid as <-.
  eexists. split; [by apply Hget|]. split; [done|]. split.
  - simpl. unfold dict_get_or. rewrite Hdon. by destruct (opt_donation o) as [[]|].
  - intros settings.
    split_and!; rewrite checkout_params_lookup by not_bookkeeping; cbn zeta;
      cbn [profile_row];
      rewrite created_row_parameters by not_bookkeeping;
      rewrite ?Ha, ?Ht, ?Hn, ?Hd, ?Hdon, ?Htf, ?Hnf, ?Ham; try done.
    + by destruct (opt_donation o) as [[]|].
    + by destruct (opt_ticker_from o).
    + by destruct (opt_network_from o).
    + by destruct (opt_amount o).
Qed.

End Created.

Lemma unique_names_rows (t : gmap Z ProfileRow) :
  unique_names t ↔ NoDup ((λ kr : Z * ProfileRow, profile_key kr.2) <$> map_to_list t).
Proof.
  split.
  - intros Hun. apply NoDup_fmap_2_strong; [|apply NoDup_map_to_list].
    intros [i r] [j r'] Hi%elem_of_map_to_list Hj%elem_of_map_to_list E. simpl in E.
    assert (i = j) as -> by (by apply (Hun i j r r')). congruence.
  - intros Hnd i j r r' Hi%elem_of_map_to_list Hj%elem_of_map_to_list E.
    assert (Heq : (i, r) = (j, r')) by (by apply (NoDup_fmap_elem _ _ _ _ Hnd Hi Hj)).
    congruence.
Qed.

#[global] Instance unique_names_dec t : Decision (unique_names t).
Proof.
  refine (cast_if (decide (NoDup ((λ kr : Z * ProfileRow, profile_key kr.2)
                                    <$> map_to_list t))));
    by rewrite unique_names_rows.
Defined.

(** ** Further scenarios *)


Lemma stale_session_ignored_witness :
  let x := _process_payment_updates steady stale_world in
  payment_sessions (store (world_of x)) !! 1 = Some stale
  ∧ ∀ e, (OfSession 1, e) ∉ events_of x.
Proof.
  apply (stale_session_ignored steady stale_world 1 stale).
  - reflexivity.
  - vm_compute. reflexivity.
Defined.

Lemma distant_subscription_witness :
  let x := _process_subscriptions outage distant_world in
  subscriptions (store (world_of x)) !! 1 = Some distant
  ∧ ∀ e, (OfSubscription 1, e) ∉ events_of x.
Proof.
  apply (distant_subscription_untouched outage distant_world 1 distant).
  - reflexivity.
  - vm_compute. reflexivity.
Defined.

Lemma lapsed_subscription_webhook_witness :
  (OfSubscription 1,
   PostWebhook "https://hook.example/sub"
     (subscription_event outage "subscription_expired" "expired_at"
        {| subscription_id := 1; subscription_row := lapsed |} cats
        (profile_of (store lapsed_world) (sub_payment_profile_id lapsed))))
    ∈ events_of (_process_subscriptions outage lapsed_world).
Proof.
  apply (lapsed_subscription_webhook outage lapsed_world 1 lapsed cats
           "https://hook.example/sub").
  - reflexivity.
  - vm_compute. discriminate.
  - reflexivity.
  - reflexivity.
  - discriminate.
Defined.

Lemma finished_payment_subscribes_witness :
  let s := as_session (1, pending) in
  let after := subscriptions (store (world_of
                 (_handle_status_change settled s "finished" (polled "finished") pending_world))) in
  (∃ id row, after !! id = Some row
     ∧ subscriber row = (ps_guild_id s, ps_user_id s, ps_profile_id s))
  ∧ (∀ id row, after !! id = Some row →
       subscriber row = (ps_guild_id s, ps_user_id s, ps_profile_id s) →
       sub_role_id row = pp_role_id vip_row
       ∧ sub_expires_at row = time_at settled (ticks pending_world) + days 30
       ∧ sub_last_notified_at row = None
       ∧ sub_webhook_url row
         = sql_text (text_or (ps_webhook_url s) (dict_get (pp_parameters vip_row) "webhook")))
  ∧ (∀ id row, subscriber row ≠ (ps_guild_id s, ps_user_id s, ps_profile_id s) →
       after !! id = Some row ↔ subscriptions (store pending_world) !! id = Some row).
Proof.
  apply (finished_payment_subscribes settled (as_session (1, pending)) (polled "finished")
           pending_world cats vip_row 30).
  - reflexivity.
  - reflexivity.
  - reflexivity.
  - discriminate.
Defined.

Lemma finished_payment_without_subscription_witness :
  subscriptions (store (world_of
    (_handle_status_change settled (as_session (1, orphan_session)) "finished"
       (polled "finished") pending_world)))
  = subscriptions (store pending_world).
Proof.
  apply (finished_payment_without_subscription settled (as_session (1, orphan_session))
           (polled "finished") pending_world).
  left. reflexivity.
Defined.

Lemma purged_session_id_witness : 1 < 2.
Proof.
  apply (purged_session_id_not_reused paying (world ∅ ∅) 7 9 vip tenant 7 9 vip tenant 1 2).
  - vm_compute. reflexivity.
  - vm_compute. reflexivity.
Defined.

Lemma subscribers_unique_witness :
  unique_subscribers (subscriptions (store (world_of (_process_payment_updates outage fresh_world))))
  ∧ unique_subscribers (subscriptions (store (world_of (_process_subscriptions outage fresh_world)))).
Proof.
  apply (passes_keep_subscribers_unique outage fresh_world).
  apply (bool_decide_unpack _). vm_compute. reflexivity.
Defined.





Lemma created_profile_request_witness :
  ∃ profile,
    get_payment_profile 7 "gold"
      (create_payment_profile outage 7 "gold" (Some 5) (Some 30)
         (create_parameters pretty upper gold_options) shop).2 = Some profile
    ∧ profile_id profile = 2
    ∧ pp_donation_mode (profile_row profile) = default false (opt_donation gold_options)
    ∧ ∀ settings,
        checkout_params profile settings !! "address" = Some (PyStr (payout_address settings))
        ∧ checkout_params profile settings !! "ticker_to" = Some (PyStr (ticker_to settings))
        ∧ checkout_params profile settings !! "network_to" = Some (PyStr (network_to settings))
        ∧ checkout_params profile settings !! "direct" = Some (PyStr "false")
        ∧ checkout_params profile settings !! "donation"
          = (λ b : bool, PyStr (if b then "true" else "false")) <$> opt_donation gold_options
        ∧ checkout_params profile settings !! "ticker_from"
          = (λ s, PyStr (upper s)) <$> opt_ticker_from gold_options
        ∧ checkout_params profile settings !! "network_from"
          = (λ s, PyStr (upper s)) <$> opt_network_from gold_options
        ∧ checkout_params profile settings !! "amount"
          = (λ x, PyStr (pretty x)) <$> opt_amount gold_options.
Proof.
  apply (created_profile_request outage pretty upper gold_options 7 "gold" (Some 5) (Some 30)
           shop 2).
  vm_compute. reflexivity.
Defined.
